(** * nosedjango: the plugin lifecycle of [nosedjango/nosedjango.py]

    A shallow embedding of the nose plugins of [nosedjango.py]: the settings
    locator, the [NoseDjango] plugin (test database and per-test transaction
    isolation), the CherryPy live server plugin, the Selenium plugin and the
    Sphinx search plugin.

    Python objects whose attributes are probed with [hasattr]/[getattr] (the
    Django settings object, a test's context) are finite maps from attribute
    names to values.  A plugin instance is a record with one field per
    attribute its methods assign; an attribute assigned lazily is an
    [option].  Calls into Django, nose and the operating system are recorded
    in a trace; what they answer is taken from an environment record. *)

From Stdlib Require Import ZArith List String Ascii Bool Lia.
From stdpp Require Import base option list gmap strings pretty.

Open Scope string_scope.
Open Scope list_scope.

(** ** Python values *)

Module Py.

(** The values that settings and test attributes hold.  [PyObject] stands
    for any other object (a function, a class, a module, a browser driver),
    told apart by name. *)
#[local] Set Warnings "-register-all".
Inductive pyval : Type :=
| PyNone
| PyBool (b : bool)
| PyInt (z : Z)
| PyStr (s : string)
| PyList (l : list pyval)
| PyDict (items : list (string * pyval))
| PyObject (name : string).

(** Truth value testing ([if v:], [not v]). *)
Definition truthy (v : pyval) : bool :=
  match v with
  | PyNone => false
  | PyBool b => b
  | PyInt z => negb (Z.eqb z 0)
  | PyStr s => negb (String.eqb s "")
  | PyList l => match l with [] => false | _ => true end
  | PyDict d => match d with [] => false | _ => true end
  | PyObject _ => true
  end.

(** [not v] *)
Definition py_not (v : pyval) : pyval := PyBool (negb (truthy v)).

(** An object probed by name: [hasattr(o, n)] is [is_Some (o !! n)]. *)
Abbreviation obj := (gmap string pyval).

(** [getattr(o, n, default)] *)
Definition getattr_default (o : obj) (n : string) (d : pyval) : pyval :=
  default d (o !! n).

(** Exceptions raised by the modelled code. *)
Inductive exn : Type :=
| AttributeError (attr : string)
| NameError (name : string)
| RuntimeError (msg : string)
| ImportError
| OSError
| ValueError
| TypeError
| OtherError (what : string).

(** The outcome of a call: a value, or an exception that propagates. *)
Inductive result (A : Type) : Type :=
| Ok (a : A)
| Raise (e : exn).
Arguments Ok {A} a.
Arguments Raise {A} e.

(** Stateful code: the state reached is kept when an exception is raised,
    as assignments made before a [raise] stay in place. *)
Definition M (S A : Type) : Type := S -> result A * S.

Definition ret {S A} (a : A) : M S A := fun s => (Ok a, s).
Definition raise {S A} (e : exn) : M S A := fun s => (Raise e, s).
Definition bind {S A B} (m : M S A) (k : A -> M S B) : M S B :=
  fun s => match m s with
           | (Ok a, s') => k a s'
           | (Raise e, s') => (Raise e, s')
           end.
Definition get {S} : M S S := fun s => (Ok s, s).
Definition modify {S} (f : S -> S) : M S unit := fun s => (Ok tt, f s).

(** [try: m except <exceptions caught by handles>: h] *)
Definition try_except {S A} (m : M S A) (handles : exn -> bool) (h : M S A) : M S A :=
  fun s => match m s with
           | (Ok a, s') => (Ok a, s')
           | (Raise e, s') => if handles e then h s' else (Raise e, s')
           end.

(** [o.n], raising [AttributeError] when the attribute is missing. *)
Definition getattr {S} (o : obj) (n : string) : M S pyval :=
  match o !! n with
  | Some v => ret v
  | None => raise (AttributeError n)
  end.

(** A lazily assigned instance attribute. *)
Definition attr {S A} (n : string) (f : option A) : M S A :=
  match f with
  | Some v => ret v
  | None => raise (AttributeError n)
  end.

End Py.
Import Py.

Declare Scope py_scope.
Delimit Scope py_scope with py.
Notation "'let*' x ':=' m 'in' k" := (bind m (fun x => k))
  (at level 10, x name, m at level 100, k at level 200) : py_scope.
Notation "m ';;' k" := (bind m (fun _ => k))
  (at level 100, k at level 200, right associativity) : py_scope.
Open Scope py_scope.

(** ** Tests as the plugins see them *)

(** What [test.test] is an instance of. *)
Inductive case_kind : Type :=
| MethodTestCase
| FunctionTestCase
| UnittestTestCase.

(** A test handed to a plugin hook.  [is_nose_test] is
    [isinstance(test, nose.case.Test)], [test_kind] classifies [test.test],
    [context] holds the attributes of [test.context], [test_attrs] those of
    the test object itself, [inner_attrs] those of [test.test], and
    [test_id] is [test.id()]. *)
Record test : Type := {
  is_nose_test : bool;
  test_kind : case_kind;
  context : obj;
  test_attrs : obj;
  inner_attrs : obj;
  test_id : string
}.

Definition is_method_case (t : test) : bool :=
  match test_kind t with MethodTestCase => true | _ => false end.

(** ** NoseDjango._supports_transactions *)

Module SupportsTransactions.

(** The method rebinds [transaction_support] three times, in this order. *)
Definition _supports_transactions (t : test) (settings : obj) : pyval :=
  let transaction_support := PyBool true in
  let transaction_support :=
    match context t !! "use_transaction" with
    | Some v => v
    | None => transaction_support
    end in
  let transaction_support :=
    match settings !! "DISABLE_TRANSACTION_MANAGEMENT" with
    | Some v => py_not v
    | None => transaction_support
    end in
  let transaction_support :=
    match settings !! "DATABASE_SUPPORTS_TRANSACTIONS" with
    | Some v => if negb (truthy v) then PyBool false else transaction_support
    | None => transaction_support
    end in
  transaction_support.

End SupportsTransactions.
Import SupportsTransactions.

(** ** The settings locator: get_settings_path *)

Module Locator.

(** [s.split(sep)] for a one-character separator. *)
Fixpoint py_split (sep : ascii) (s : string) : list string :=
  match s with
  | EmptyString => [""]
  | String c r =>
      let parts := py_split sep r in
      if Ascii.eqb c sep then "" :: parts
      else match parts with
           | p :: ps => String c p :: ps
           | [] => [String c ""]
           end
  end.

(** ['%s.py' % (settings_module.split('.')[-1])] *)
Definition settings_filename (settings_module : string) : string :=
  List.last (py_split "." settings_module) "" +:+ ".py".

Definition is_slash (c : ascii) : bool := Ascii.eqb c "/".

Fixpoint drop_while {A} (f : A -> bool) (l : list A) : list A :=
  match l with
  | [] => []
  | x :: r => if f x then drop_while f r else l
  end.

(** [posixpath.split(p)[0]] on the characters of [p]: the text up to and
    including the last slash, with trailing slashes stripped unless it
    consists of slashes only. *)
Definition posix_head_chars (p : list ascii) : list ascii :=
  let head_rev := drop_while (fun c => negb (is_slash c)) (rev p) in
  if forallb is_slash head_rev then rev head_rev
  else rev (drop_while is_slash head_rev).

Definition posix_split_head (p : string) : string :=
  string_of_list_ascii (posix_head_chars (list_ascii_of_string p)).

(** The backslash character. *)
Definition backslash : ascii := ascii_of_nat 92.

Definition is_ascii_letter (c : ascii) : bool :=
  let n := nat_of_ascii c in
  ((65 <=? n)%nat && (n <=? 90)%nat) || ((97 <=? n)%nat && (n <=? 122)%nat).

(** [NT_ROOT.match(s)], where [NT_ROOT] is the compiled pattern for a drive
    root: a letter, a colon and a backslash, anchored at both ends; the end
    anchor also matches before one final newline. *)
Definition NT_ROOT_match (s : string) : bool :=
  match list_ascii_of_string s with
  | [d; c; b] =>
      is_ascii_letter d && Ascii.eqb c ":" && Ascii.eqb b backslash
  | [d; c; b; n] =>
      is_ascii_letter d && Ascii.eqb c ":" && Ascii.eqb b backslash
      && Ascii.eqb n (ascii_of_nat 10)
  | _ => false
  end.

(** What the operating system answers: [os.getcwd()], [os.name],
    [os.listdir] ([None] when it raises [OSError]) and
    [os.path.split(p)[0]]. *)
Record system : Type := {
  os_getcwd : string;
  os_name : string;
  os_listdir : string -> option (list string);
  os_path_split_head : string -> string
}.

Section Walk.
Variable sys : system.
Variable filename : string.

(** The [while cwd:] loop; [None] when [fuel] iterations do not finish it.
    The value is what the function returns: [None] or the directory. *)
Fixpoint walk (fuel : nat) (cwd : string) : option (result (option string)) :=
  match fuel with
  | O => None
  | S fuel' =>
      if String.eqb cwd "" then Some (Ok (Some cwd))
      else match os_listdir sys cwd with
           | None => Some (Raise OSError)
           | Some names =>
               if bool_decide (filename ∈ names) then Some (Ok (Some cwd))
               else
                 let cwd := os_path_split_head sys cwd in
                 if String.eqb (os_name sys) "nt" && NT_ROOT_match cwd
                 then Some (Ok None)
                 else if String.eqb cwd "/" then Some (Ok None)
                 else walk fuel' cwd
           end
  end.

End Walk.

Definition get_settings_path (sys : system) (fuel : nat) (settings_module : string)
  : option (result (option string)) :=
  let cwd := os_getcwd sys in
  let settings_filename := settings_filename settings_module in
  walk sys settings_filename fuel cwd.

(** A POSIX system: [os.name] is ['posix'] and [os.path] is [posixpath]. *)
Definition posix (cwd : string) (listdir : string -> option (list string)) : system :=
  {| os_getcwd := cwd; os_name := "posix"; os_listdir := listdir;
     os_path_split_head := posix_split_head |}.

(** A directory tree given as a list of directories with their entries. *)
Definition listdir_of (tree : list (string * list string)) (d : string)
  : option (list string) :=
  snd <$> List.find (fun e => String.eqb (fst e) d) tree.

End Locator.
Import Locator.

(** ** Joining paths *)

Module Paths.

Definition starts_with_slash (s : string) : bool :=
  match s with
  | String c _ => is_slash c
  | EmptyString => false
  end.

Definition ends_with_slash (s : string) : bool :=
  match rev (list_ascii_of_string s) with
  | c :: _ => is_slash c
  | [] => false
  end.

(** [posixpath.join(a, b)]: [b] alone when it is absolute; no slash is
    added after an empty [a] or one that ends with a slash. *)
Definition posix_join (a b : string) : string :=
  if starts_with_slash b then b
  else if String.eqb a "" || ends_with_slash a then a +:+ b
  else a +:+ "/" +:+ b.

End Paths.
Import Paths.

Definition sample_tree : list (string * list string) :=
  [("/", ["home"; "settings.py"]);
   ("/home", ["joe"]);
   ("/home/joe", ["proj"; "notes.txt"]);
   ("/home/joe/proj", ["settings.py"; "app"; "__init__.py"]);
   ("/home/joe/proj/app", ["tests.py"; "models.py"]);
   ("/srv", ["www"]);
   ("/srv/www", ["index.html"])].


(** ** Name resolution *)

Module Names.

Definition DEFAULT_LIVE_SERVER_ADDRESS : pyval := PyStr "0.0.0.0".
Definition DEFAULT_LIVE_SERVER_PORT : pyval := PyStr "8000".

(** The names bound at module level of [nosedjango.py]: its imports,
    constants, functions and classes. *)
Definition module_globals : list (string * pyval) :=
  [("DEFAULT_LIVE_SERVER_ADDRESS", DEFAULT_LIVE_SERVER_ADDRESS);
   ("DEFAULT_LIVE_SERVER_PORT", DEFAULT_LIVE_SERVER_PORT)]
  ++ map (fun n => (n, PyObject n))
  ["with_statement"; "os"; "sys"; "shutil"; "re"; "subprocess"; "signal";
   "tempfile"; "sleep"; "Plugin"; "SkipTest"; "nose"; "FileSystemStorage";
   "WSGIHandler"; "AdminMediaHandler"; "add_path"; "setup_environ"; "NT_ROOT";
   "get_settings_path"; "_dummy"; "NoseDjango"; "custom_before";
   "custom_after"; "TestFileSystemStorage"; "SetupTestFilesystem";
   "SetupCeleryTesting"; "SetupCacheTesting"; "CherryPyLiveServerPlugin";
   "SeleniumPlugin"; "DjangoSphinxPlugin"].

(** The builtins the module uses. *)
Definition builtins : list (string * pyval) :=
  map (fun n => (n, PyObject n))
  ["getattr"; "hasattr"; "isinstance"; "int"; "str"; "map"; "super"; "open";
   "__import__"; "RuntimeError"; "ImportError"; "OSError"; "AttributeError"]
  ++ [("True", PyBool true); ("False", PyBool false); ("None", PyNone)].

Definition lookup_name (scope : list (string * pyval)) (n : string) : option pyval :=
  snd <$> List.find (fun b => String.eqb (fst b) n) scope.

(** Reading the name [n] in a function whose local names are bound as in
    [locals]: local, then global, then builtin. *)
Definition resolve {S} (locals : list (string * pyval)) (n : string) : M S pyval :=
  match lookup_name (locals ++ module_globals ++ builtins) n with
  | Some v => ret v
  | None => raise (NameError n)
  end.

End Names.
Import Names.

(** ** The NoseDjango plugin *)

Module NoseDjango.

(** A function bound to a name of [django.db.transaction]: the module's
    [_dummy], or one of Django's own. *)
Inductive func : Type :=
| _dummy
| DjangoFn (name : string).

(** The six transaction-control names of [django.db.transaction]. *)
Record transaction_module : Type := {
  commit : func;
  rollback : func;
  savepoint_commit : func;
  savepoint_rollback : func;
  enter_transaction_management : func;
  leave_transaction_management : func
}.

(** Calls that leave the module. *)
Inductive event : Type :=
| Called (name : string)
| Managed (flag : bool)
| IsManaged
| ConnectionClose
| CallCommand (name : string) (args : list pyval) (kwargs : list (string * pyval))
| ClearUrlCaches
| AddPath (path : string)
| ImportModule (name : string)
| Popen (argv : list string)
| SetupTestEnvironment
| GetCommands
| RegisterCommand (name app : string)
| CreateTestDb (verbosity : Z)
| DestroyTestDb (old_name : pyval) (verbosity : Z)
| TeardownTestEnvironment
| Rmtree (path : string).

(** What the surroundings answer.  [raises ev] is the exception the call
    [ev] ends with, if any; [add_path] is nose's, as a function on
    [sys.path]; [is_managed] is the answer of [transaction.is_managed()];
    [TEST_MEDIA_ROOT] is the class attribute of [SetupTestFilesystem]. *)
Record env : Type := {
  sys : system;
  raises : event -> option exn;
  add_path : string -> list string -> list string;
  is_managed : bool;
  TEST_MEDIA_ROOT : string
}.

(** The command line options and the nose configuration read by
    [configure] and [begin]. *)
Record options : Type := {
  django_settings : option string;
  use_sqlite : bool;
  xvfb_headless : option string
}.

Record config : Type := {
  conf_verbosity : Z;
  addPaths : bool;
  where_ : list string
}.

(** The attributes of a [NoseDjango] instance.  Those assigned after
    [configure] are [None] until then. *)
Record plugin : Type := {
  verbosity : Z;
  settings_module : string;
  _use_sqlite : bool;
  _xvfb_headless : option string;
  conf : config;
  settings_path : option (option string);
  old_db : option pyval;
  _managing_transactions : option pyval;
  orig_commit : option func;
  orig_rollback : option func;
  orig_savepoint_commit : option func;
  orig_savepoint_rollback : option func;
  orig_enter : option func;
  orig_leave : option func;
  old_urlconf : option pyval
}.

Record world : Type := {
  self : plugin;
  settings : obj;
  transaction : transaction_module;
  environ : gmap string string;
  sys_path : list string;
  trace : list event
}.

Definition set_settings_path (v : option (option string)) (p : plugin) : plugin :=
  {| verbosity := verbosity p; settings_module := settings_module p;
     _use_sqlite := _use_sqlite p; _xvfb_headless := _xvfb_headless p; conf := conf p;
     settings_path := v; old_db := old_db p;
     _managing_transactions := _managing_transactions p; orig_commit := orig_commit p;
     orig_rollback := orig_rollback p;
     orig_savepoint_commit := orig_savepoint_commit p;
     orig_savepoint_rollback := orig_savepoint_rollback p; orig_enter := orig_enter p;
     orig_leave := orig_leave p; old_urlconf := old_urlconf p |}.

Definition set_old_db (v : option pyval) (p : plugin) : plugin :=
  {| verbosity := verbosity p; settings_module := settings_module p;
     _use_sqlite := _use_sqlite p; _xvfb_headless := _xvfb_headless p; conf := conf p;
     settings_path := settings_path p; old_db := v;
     _managing_transactions := _managing_transactions p; orig_commit := orig_commit p;
     orig_rollback := orig_rollback p;
     orig_savepoint_commit := orig_savepoint_commit p;
     orig_savepoint_rollback := orig_savepoint_rollback p; orig_enter := orig_enter p;
     orig_leave := orig_leave p; old_urlconf := old_urlconf p |}.

Definition set__managing_transactions (v : option pyval) (p : plugin) : plugin :=
  {| verbosity := verbosity p; settings_module := settings_module p;
     _use_sqlite := _use_sqlite p; _xvfb_headless := _xvfb_headless p; conf := conf p;
     settings_path := settings_path p; old_db := old_db p; _managing_transactions := v;
     orig_commit := orig_commit p; orig_rollback := orig_rollback p;
     orig_savepoint_commit := orig_savepoint_commit p;
     orig_savepoint_rollback := orig_savepoint_rollback p; orig_enter := orig_enter p;
     orig_leave := orig_leave p; old_urlconf := old_urlconf p |}.

Definition set_orig_commit (v : option func) (p : plugin) : plugin :=
  {| verbosity := verbosity p; settings_module := settings_module p;
     _use_sqlite := _use_sqlite p; _xvfb_headless := _xvfb_headless p; conf := conf p;
     settings_path := settings_path p; old_db := old_db p;
     _managing_transactions := _managing_transactions p; orig_commit := v;
     orig_rollback := orig_rollback p;
     orig_savepoint_commit := orig_savepoint_commit p;
     orig_savepoint_rollback := orig_savepoint_rollback p; orig_enter := orig_enter p;
     orig_leave := orig_leave p; old_urlconf := old_urlconf p |}.

Definition set_orig_rollback (v : option func) (p : plugin) : plugin :=
  {| verbosity := verbosity p; settings_module := settings_module p;
     _use_sqlite := _use_sqlite p; _xvfb_headless := _xvfb_headless p; conf := conf p;
     settings_path := settings_path p; old_db := old_db p;
     _managing_transactions := _managing_transactions p; orig_commit := orig_commit p;
     orig_rollback := v; orig_savepoint_commit := orig_savepoint_commit p;
     orig_savepoint_rollback := orig_savepoint_rollback p; orig_enter := orig_enter p;
     orig_leave := orig_leave p; old_urlconf := old_urlconf p |}.

Definition set_orig_savepoint_commit (v : option func) (p : plugin) : plugin :=
  {| verbosity := verbosity p; settings_module := settings_module p;
     _use_sqlite := _use_sqlite p; _xvfb_headless := _xvfb_headless p; conf := conf p;
     settings_path := settings_path p; old_db := old_db p;
     _managing_transactions := _managing_transactions p; orig_commit := orig_commit p;
     orig_rollback := orig_rollback p; orig_savepoint_commit := v;
     orig_savepoint_rollback := orig_savepoint_rollback p; orig_enter := orig_enter p;
     orig_leave := orig_leave p; old_urlconf := old_urlconf p |}.

Definition set_orig_savepoint_rollback (v : option func) (p : plugin) : plugin :=
  {| verbosity := verbosity p; settings_module := settings_module p;
     _use_sqlite := _use_sqlite p; _xvfb_headless := _xvfb_headless p; conf := conf p;
     settings_path := settings_path p; old_db := old_db p;
     _managing_transactions := _managing_transactions p; orig_commit := orig_commit p;
     orig_rollback := orig_rollback p;
     orig_savepoint_commit := orig_savepoint_commit p; orig_savepoint_rollback := v;
     orig_enter := orig_enter p; orig_leave := orig_leave p;
     old_urlconf := old_urlconf p |}.

Definition set_orig_enter (v : option func) (p : plugin) : plugin :=
  {| verbosity := verbosity p; settings_module := settings_module p;
     _use_sqlite := _use_sqlite p; _xvfb_headless := _xvfb_headless p; conf := conf p;
     settings_path := settings_path p; old_db := old_db p;
     _managing_transactions := _managing_transactions p; orig_commit := orig_commit p;
     orig_rollback := orig_rollback p;
     orig_savepoint_commit := orig_savepoint_commit p;
     orig_savepoint_rollback := orig_savepoint_rollback p; orig_enter := v;
     orig_leave := orig_leave p; old_urlconf := old_urlconf p |}.

Definition set_orig_leave (v : option func) (p : plugin) : plugin :=
  {| verbosity := verbosity p; settings_module := settings_module p;
     _use_sqlite := _use_sqlite p; _xvfb_headless := _xvfb_headless p; conf := conf p;
     settings_path := settings_path p; old_db := old_db p;
     _managing_transactions := _managing_transactions p; orig_commit := orig_commit p;
     orig_rollback := orig_rollback p;
     orig_savepoint_commit := orig_savepoint_commit p;
     orig_savepoint_rollback := orig_savepoint_rollback p; orig_enter := orig_enter p;
     orig_leave := v; old_urlconf := old_urlconf p |}.

Definition set_old_urlconf (v : option pyval) (p : plugin) : plugin :=
  {| verbosity := verbosity p; settings_module := settings_module p;
     _use_sqlite := _use_sqlite p; _xvfb_headless := _xvfb_headless p; conf := conf p;
     settings_path := settings_path p; old_db := old_db p;
     _managing_transactions := _managing_transactions p; orig_commit := orig_commit p;
     orig_rollback := orig_rollback p;
     orig_savepoint_commit := orig_savepoint_commit p;
     orig_savepoint_rollback := orig_savepoint_rollback p; orig_enter := orig_enter p;
     orig_leave := orig_leave p; old_urlconf := v |}.

Definition set_commit (v : func) (t : transaction_module) : transaction_module :=
  {| commit := v; rollback := rollback t; savepoint_commit := savepoint_commit t;
     savepoint_rollback := savepoint_rollback t;
     enter_transaction_management := enter_transaction_management t;
     leave_transaction_management := leave_transaction_management t |}.

Definition set_rollback (v : func) (t : transaction_module) : transaction_module :=
  {| commit := commit t; rollback := v; savepoint_commit := savepoint_commit t;
     savepoint_rollback := savepoint_rollback t;
     enter_transaction_management := enter_transaction_management t;
     leave_transaction_management := leave_transaction_management t |}.

Definition set_savepoint_commit (v : func) (t : transaction_module) : transaction_module :=
  {| commit := commit t; rollback := rollback t; savepoint_commit := v;
     savepoint_rollback := savepoint_rollback t;
     enter_transaction_management := enter_transaction_management t;
     leave_transaction_management := leave_transaction_management t |}.

Definition set_savepoint_rollback (v : func) (t : transaction_module) : transaction_module :=
  {| commit := commit t; rollback := rollback t;
     savepoint_commit := savepoint_commit t; savepoint_rollback := v;
     enter_transaction_management := enter_transaction_management t;
     leave_transaction_management := leave_transaction_management t |}.

Definition set_enter_transaction_management (v : func) (t : transaction_module) : transaction_module :=
  {| commit := commit t; rollback := rollback t;
     savepoint_commit := savepoint_commit t;
     savepoint_rollback := savepoint_rollback t; enter_transaction_management := v;
     leave_transaction_management := leave_transaction_management t |}.

Definition set_leave_transaction_management (v : func) (t : transaction_module) : transaction_module :=
  {| commit := commit t; rollback := rollback t;
     savepoint_commit := savepoint_commit t;
     savepoint_rollback := savepoint_rollback t;
     enter_transaction_management := enter_transaction_management t;
     leave_transaction_management := v |}.

Definition upd_self (f : plugin -> plugin) (w : world) : world :=
  {| self := f (self w); settings := settings w; transaction := transaction w;
     environ := environ w; sys_path := sys_path w; trace := trace w |}.

Definition upd_settings (f : obj -> obj) (w : world) : world :=
  {| self := self w; settings := f (settings w); transaction := transaction w;
     environ := environ w; sys_path := sys_path w; trace := trace w |}.

Definition upd_transaction (f : transaction_module -> transaction_module) (w : world) : world :=
  {| self := self w; settings := settings w; transaction := f (transaction w);
     environ := environ w; sys_path := sys_path w; trace := trace w |}.

Definition upd_environ (f : gmap string string -> gmap string string) (w : world) : world :=
  {| self := self w; settings := settings w; transaction := transaction w;
     environ := f (environ w); sys_path := sys_path w; trace := trace w |}.

Definition upd_sys_path (f : list string -> list string) (w : world) : world :=
  {| self := self w; settings := settings w; transaction := transaction w;
     environ := environ w; sys_path := f (sys_path w); trace := trace w |}.

Definition upd_trace (f : list event -> list event) (w : world) : world :=
  {| self := self w; settings := settings w; transaction := transaction w;
     environ := environ w; sys_path := sys_path w; trace := f (trace w) |}.

(** Truth value of what [get_settings_path] returns or of a module name. *)
Definition path_truthy (p : option string) : bool :=
  match p with
  | Some s => negb (String.eqb s "")
  | None => false
  end.

(** [*v]: the positional arguments a value unpacks to. *)
Definition unpack (v : pyval) : result (list pyval) :=
  match v with
  | PyList l => Ok l
  | PyStr s => Ok (map (fun c => PyStr (String c "")) (list_ascii_of_string s))
  | PyDict d => Ok (map (fun kv => PyStr (fst kv)) d)
  | _ => Raise TypeError
  end.

Definition lift {S A} (r : result A) : M S A := fun s => (r, s).

Fixpoint for_each {S A} (f : A -> M S unit) (l : list A) : M S unit :=
  match l with
  | [] => ret tt
  | x :: r => f x ;; for_each f r
  end.

Definition is_ImportError (e : exn) : bool :=
  match e with ImportError => true | _ => false end.

Definition is_OSError (e : exn) : bool :=
  match e with OSError => true | _ => false end.

(** [configure]: the instance as it is before [begin].  The module sets
    [DJANGO_SETTINGS_MODULE] to ['settings'] when it is imported, if the
    variable is missing. *)
Definition module_import (environ : gmap string string) : gmap string string :=
  match environ !! "DJANGO_SETTINGS_MODULE" with
  | Some _ => environ
  | None => <["DJANGO_SETTINGS_MODULE" := "settings"]> environ
  end.

Definition configure (o : options) (c : config) (environ : gmap string string) : plugin :=
  {| verbosity := conf_verbosity c;
     settings_module :=
       match django_settings o with
       | Some s => if path_truthy (Some s) then s
                   else default "settings" (environ !! "DJANGO_SETTINGS_MODULE")
       | None => default "settings" (environ !! "DJANGO_SETTINGS_MODULE")
       end;
     _use_sqlite := use_sqlite o;
     _xvfb_headless := xvfb_headless o;
     conf := c;
     settings_path := None; old_db := None; _managing_transactions := None;
     orig_commit := None; orig_rollback := None;
     orig_savepoint_commit := None; orig_savepoint_rollback := None;
     orig_enter := None; orig_leave := None; old_urlconf := None |}.

Section Hooks.
Variable E : env.

Definition emit (ev : event) : M world unit :=
  modify (upd_trace (fun tr => tr ++ [ev])).

(** A call that leaves the module: it is recorded, then returns or raises. *)
Definition call (ev : event) : M world unit :=
  emit ev ;;
  match raises E ev with
  | Some e => raise e
  | None => ret tt
  end.

(** Calling what a name of the transaction module is bound to. *)
Definition call_func (f : func) : M world unit :=
  match f with
  | _dummy => ret tt
  | DjangoFn name => call (Called name)
  end.

Definition set_self (f : plugin -> plugin) : M world unit := modify (upd_self f).
Definition set_tx (f : transaction_module -> transaction_module) : M world unit :=
  modify (upd_transaction f).
Definition setattr_settings (n : string) (v : pyval) : M world unit :=
  modify (upd_settings (insert n v)).
Definition read_tx (f : transaction_module -> func) : M world func :=
  let* w := get in ret (f (transaction w)).
Definition read_self {A} (n : string) (f : plugin -> option A) : M world A :=
  let* w := get in attr n (f (self w)).

Definition disable_transaction_support : M world unit :=
  (let* v := read_tx commit in set_self (set_orig_commit (Some v))) ;;
  (let* v := read_tx rollback in set_self (set_orig_rollback (Some v))) ;;
  (let* v := read_tx savepoint_commit in set_self (set_orig_savepoint_commit (Some v))) ;;
  (let* v := read_tx savepoint_rollback in set_self (set_orig_savepoint_rollback (Some v))) ;;
  (let* v := read_tx enter_transaction_management in set_self (set_orig_enter (Some v))) ;;
  (let* v := read_tx leave_transaction_management in set_self (set_orig_leave (Some v))) ;;
  set_tx (set_commit _dummy) ;;
  set_tx (set_rollback _dummy) ;;
  set_tx (set_savepoint_commit _dummy) ;;
  set_tx (set_savepoint_rollback _dummy) ;;
  set_tx (set_enter_transaction_management _dummy) ;;
  set_tx (set_leave_transaction_management _dummy).

Definition restore_transaction_support : M world unit :=
  (let* v := read_self "orig_commit" orig_commit in set_tx (set_commit v)) ;;
  (let* v := read_self "orig_rollback" orig_rollback in set_tx (set_rollback v)) ;;
  (let* v := read_self "orig_savepoint_commit" orig_savepoint_commit in
   set_tx (set_savepoint_commit v)) ;;
  (let* v := read_self "orig_savepoint_rollback" orig_savepoint_rollback in
   set_tx (set_savepoint_rollback v)) ;;
  (let* v := read_self "orig_enter" orig_enter in
   set_tx (set_enter_transaction_management v)) ;;
  (let* v := read_self "orig_leave" orig_leave in
   set_tx (set_leave_transaction_management v)).

Definition do_add_path (p : string) : M world unit :=
  call (AddPath p) ;;
  modify (upd_sys_path (add_path E p)).

(** [custom_before()] and the [before] methods it calls. *)
Definition custom_before : M world unit :=
  setattr_settings "DOCUMENT_PRINTING_CACHE_ON_SAVE" (PyBool false) ;;
  setattr_settings "DEFAULT_FILE_STORAGE"
    (PyStr "nosedjango.nosedjango.TestFileSystemStorage") ;;
  setattr_settings "CELERY_ALWAYS_EAGER" (PyBool true) ;;
  setattr_settings "CACHE_BACKEND" (PyStr "locmem://") ;;
  setattr_settings "DISABLE_QUERYSET_CACHE" (PyBool true).

(** [custom_after()]: only [SetupTestFilesystem.after] does something. *)
Definition clear_test_media : M world unit :=
  try_except (call (Rmtree (TEST_MEDIA_ROOT E))) is_OSError (ret tt).

Definition custom_after : M world unit := clear_test_media.

Definition xvfb_argv (exe display : string) : list string :=
  [exe; ":" +:+ display; "-ac"; "-screen"; "root"; "1024x768x24"].

(** [begin], first part: up to the [try: __import__(...)].  The value tells
    whether the import succeeded. *)
Definition begin_import : M world bool :=
  let* w := get in
  let p := self w in
  modify (upd_environ (insert "DJANGO_SETTINGS_MODULE" (settings_module p))) ;;
  (if addPaths (conf p) then for_each do_add_path (where_ (conf p)) else ret tt) ;;
  try_except
    (call (ImportModule (settings_module p)) ;;
     set_self (set_settings_path (Some (Some (settings_module p)))) ;;
     ret true)
    is_ImportError
    (ret false).

(** [begin], the [except ImportError] branch once [get_settings_path] has
    returned [found]. *)
Definition begin_crawl (found : option string) : M world unit :=
  set_self (set_settings_path (Some found)) ;;
  match found with
  | Some d =>
      if negb (path_truthy found)
      then raise (RuntimeError "Can't find Django settings file!")
      else do_add_path d ;; modify (upd_sys_path (fun l => l ++ [d]))
  | None => raise (RuntimeError "Can't find Django settings file!")
  end.

(** [begin], from [from django.conf import settings] to the end. *)
Definition begin_setup : M world unit :=
  let* w := get in
  let p := self w in
  (if _use_sqlite p then
     setattr_settings "DATABASE_ENGINE" (PyStr "sqlite3") ;;
     setattr_settings "DATABASE_NAME" (PyStr "") ;;
     setattr_settings "DATABASE_OPTIONS" (PyDict []) ;;
     setattr_settings "DATABASE_USER" (PyStr "") ;;
     setattr_settings "DATABASE_PASSWORD" (PyStr "")
   else ret tt) ;;
  (if path_truthy (_xvfb_headless p) then
     let display := default "" (_xvfb_headless p) in
     try_except (call (Popen (xvfb_argv "xvfb" display))) is_OSError
                (call (Popen (xvfb_argv "Xvfb" display))) ;;
     modify (upd_environ (insert "DISPLAY" (":" +:+ display)))
   else ret tt) ;;
  custom_before ;;
  setattr_settings "DEBUG" (PyBool false) ;;
  let* w := get in
  let* name := getattr (settings w) "DATABASE_NAME" in
  set_self (set_old_db (Some name)) ;;
  call SetupTestEnvironment ;;
  call GetCommands ;;
  call (RegisterCommand "syncdb" "django.core") ;;
  call (CreateTestDb (verbosity p)).

(** [begin]; [None] when [fuel] iterations of the loop of
    [get_settings_path] do not finish it. *)
Definition begin (fuel : nat) (w : world) : option (result unit * world) :=
  match begin_import w with
  | (Ok true, w1) => Some (begin_setup w1)
  | (Ok false, w1) =>
      match get_settings_path (sys E) fuel (settings_module (self w1)) with
      | None => None
      | Some (Raise e) => Some (Raise e, w1)
      | Some (Ok found) => Some ((begin_crawl found ;; begin_setup) w1)
      end
  | (Raise e, w1) => Some (Raise e, w1)
  end.

(** [self.urls]: no attribute of that name exists on the instance; neither
    the class, nor nose's [Plugin], nor any method defines one. *)
Definition self_urls : M world pyval := raise (AttributeError "urls").

Definition has_declared (t : test) (n : string) : bool :=
  is_nose_test t && is_method_case t && bool_decide (is_Some (context t !! n)).

(** [beforeTest], lines 238 to 247: choose and set up the isolation. *)
Definition isolate (t : test) : M world unit :=
  let* w := get in
  let transaction_support := _supports_transactions t (settings w) in
  set_self (set__managing_transactions (Some transaction_support)) ;;
  if truthy transaction_support then
    (let* f := read_tx enter_transaction_management in call_func f) ;;
    call (Managed true) ;;
    disable_transaction_support
  else
    call (CallCommand "flush" []
            [("verbosity", PyInt 0); ("interactive", PyBool false)]).

(** [beforeTest], lines 249 to 254. *)
Definition load_fixtures (t : test) : M world unit :=
  if has_declared t "fixtures" then
    let* fixtures := getattr (context t) "fixtures" in
    let* args := lift (unpack fixtures) in
    call (CallCommand "loaddata" args [("verbosity", PyInt 0)])
  else ret tt.

(** [beforeTest], lines 256 to 263. *)
Definition override_urls (t : test) : M world unit :=
  if has_declared t "urls" then
    let* w := get in
    let* root := getattr (settings w) "ROOT_URLCONF" in
    set_self (set_old_urlconf (Some root)) ;;
    let* urls := self_urls in
    setattr_settings "ROOT_URLCONF" urls ;;
    call ClearUrlCaches
  else ret tt.

Definition beforeTest (t : test) : M world unit :=
  let* sp := read_self "settings_path" settings_path in
  if negb (path_truthy sp) then ret tt
  else
    isolate t ;;
    load_fixtures t ;;
    override_urls t.

Definition afterTest (t : test) : M world unit :=
  let* managing := read_self "_managing_transactions" _managing_transactions in
  if truthy managing then
    restore_transaction_support ;;
    (let* f := read_tx rollback in call_func f) ;;
    call IsManaged ;;
    (if is_managed E then
       let* f := read_tx leave_transaction_management in call_func f
     else ret tt) ;;
    call ConnectionClose
  else ret tt.

(** The names local to [finalize]: its parameters and its imports. *)
Definition finalize_locals : list (string * pyval) :=
  map (fun n => (n, PyObject n))
  ["self"; "result"; "teardown_test_environment"; "connection"; "settings"].

Definition finalize : M world unit :=
  let* sp := read_self "settings_path" settings_path in
  if negb (path_truthy sp) then ret tt
  else
    custom_after ;;
    let* old := read_self "old_db" old_db in
    let* w := get in
    call (DestroyTestDb old (verbosity (self w))) ;;
    call TeardownTestEnvironment ;;
    let* w := get in
    match old_urlconf (self w) with
    | Some root =>
        setattr_settings "ROOT_URLCONF" root ;;
        resolve finalize_locals "clear_url_caches" ;;
        call ClearUrlCaches
    | None => ret tt
    end.

End Hooks.

(** One test as the runner drives it: [beforeTest], the test, [afterTest].
    [ran] is what running the test does to the world; the surroundings may
    differ before and after. *)
Record test_run : Type := {
  before_env : env;
  the_test : test;
  ran : world -> world;
  after_env : env
}.

Definition around_test (r : test_run) (w : world) : world :=
  snd (afterTest (after_env r) (the_test r)
         (ran r (snd (beforeTest (before_env r) (the_test r) w)))).

Definition around_tests (rs : list test_run) (w : world) : world :=
  fold_left (fun w r => around_test r w) rs w.

(** The six bindings, in the order the plugin handles them. *)
Definition bindings (t : transaction_module) : list func :=
  [commit t; rollback t; savepoint_commit t; savepoint_rollback t;
   enter_transaction_management t; leave_transaction_management t].

End NoseDjango.

(** ** CherryPyLiveServerPlugin *)

Module LiveServer.

Inductive event : Type :=
| CreateServer (address : pyval) (port : Z)
| ThreadStart
| Sleep
| ServerStop.

(** [int_] is the builtin [int] ([None] when it raises), [raises] as for
    [NoseDjango]. *)
Record env : Type := {
  int_ : pyval -> option Z;
  raises : event -> option exn
}.

(** The instance: [httpd] and [httpd_thread] are assigned by
    [start_server]. *)
Record plugin : Type := {
  server_started : bool;
  server_thread : pyval;
  httpd : option (pyval * Z);
  httpd_thread : option unit;
  trace : list event
}.

(** [__init__] *)
Definition init : plugin :=
  {| server_started := false; server_thread := PyNone;
     httpd := None; httpd_thread := None; trace := [] |}.

Definition set_server_started (v : bool) (p : plugin) : plugin :=
  {| server_started := v; server_thread := server_thread p;
     httpd := httpd p; httpd_thread := httpd_thread p; trace := trace p |}.

Definition set_httpd (v : option (pyval * Z)) (p : plugin) : plugin :=
  {| server_started := server_started p; server_thread := server_thread p;
     httpd := v; httpd_thread := httpd_thread p; trace := trace p |}.

Definition set_httpd_thread (v : option unit) (p : plugin) : plugin :=
  {| server_started := server_started p; server_thread := server_thread p;
     httpd := httpd p; httpd_thread := v; trace := trace p |}.

Definition add_event (ev : event) (p : plugin) : plugin :=
  {| server_started := server_started p; server_thread := server_thread p;
     httpd := httpd p; httpd_thread := httpd_thread p; trace := trace p ++ [ev] |}.

Section Hooks.
Variable E : env.
Variable settings : obj.

Definition call (ev : event) : M plugin unit :=
  modify (add_event ev) ;;
  match raises E ev with
  | Some e => raise e
  | None => ret tt
  end.

Definition start_server (address : pyval) (port : Z) : M plugin unit :=
  call (CreateServer address port) ;;
  modify (set_httpd (Some (address, port))) ;;
  modify (set_httpd_thread (Some tt)) ;;
  call ThreadStart ;;
  call Sleep.

Definition startTest (t : test) : M plugin unit :=
  let* p := get in
  if negb (server_started p)
     && truthy (getattr_default (test_attrs t) "start_live_server" (PyBool false))
  then
    let address :=
      getattr_default settings "LIVE_SERVER_ADDRESS" DEFAULT_LIVE_SERVER_ADDRESS in
    let* port :=
      match int_ E (getattr_default settings "LIVE_SERVER_PORT" DEFAULT_LIVE_SERVER_PORT) with
      | Some n => ret n
      | None => raise ValueError
      end in
    start_server address port ;;
    modify (set_server_started true)
  else ret tt.

Definition stop_test_server : M plugin unit :=
  let* p := get in
  if server_started p then
    (let* h := attr "httpd" (httpd p) in call ServerStop) ;;
    modify (set_server_started false)
  else ret tt.

Definition finalize : M plugin unit := stop_test_server.

(** The state after the runner has called [startTest] for each test of
    [ts] in turn. *)
Definition after_tests (ts : list test) (p : plugin) : plugin :=
  fold_left (fun p t => snd (startTest t p)) ts p.

End Hooks.

Definition requests_server (t : test) : bool :=
  truthy (getattr_default (test_attrs t) "start_live_server" (PyBool false)).

Definition is_thread_start (ev : event) : bool :=
  match ev with ThreadStart => true | _ => false end.
Definition is_create (ev : event) : bool :=
  match ev with CreateServer _ _ => true | _ => false end.
Definition is_stop (ev : event) : bool :=
  match ev with ServerStop => true | _ => false end.

(** How many times [start_server] was entered, how many servers were set
    listening, and how many were stopped. *)
Definition starts (tr : list event) : nat := length (filter is_create tr).
Definition listening (tr : list event) : nat := length (filter is_thread_start tr).
Definition stops (tr : list event) : nat := length (filter is_stop tr).

End LiveServer.

(** ** SeleniumPlugin *)

Module Selenium.

Inductive event : Type :=
| DriverQuit (driver : pyval)
| PrintLine (line : string)
| Makedirs (path : string)
| SaveScreenshot (driver : pyval) (file : string).

Record plugin : Type := {
  ss_dir : string;
  trace : list event
}.

Definition emit (ev : event) : M plugin unit :=
  modify (fun p => {| ss_dir := ss_dir p; trace := trace p ++ [ev] |}).

(** [getattr(o, name)] with a computed name, which must be a string. *)
Definition getattr_named (o : obj) (name : pyval) : M plugin pyval :=
  match name with
  | PyStr n => getattr o n
  | _ => raise TypeError
  end.

(** The names local to [afterTest] when [driver] is about to be assigned. *)
Definition afterTest_locals : list (string * pyval) :=
  [("self", PyObject "self"); ("test", PyObject "test")].

Definition afterTest (t : test) : M plugin unit :=
  if truthy (getattr_default (context t) "selenium" (PyBool false)) then
    let* driver_attr := resolve afterTest_locals "driver_attr" in
    let* driver := getattr_named (inner_attrs t) driver_attr in
    emit (DriverQuit driver)
  else ret tt.

Definition is_AttributeError (e : exn) : bool :=
  match e with AttributeError _ => true | _ => false end.

(** [_take_screenshot]; [dir_exists] is [os.path.exists(self.ss_dir)]. *)
Definition _take_screenshot (dir_exists : bool) (t : test) : M plugin unit :=
  let driver_attr :=
    getattr_default (context t) "selenium_driver_attr" (PyStr "driver") in
  let* found :=
    try_except
      (let* driver := getattr_named (inner_attrs t) driver_attr in ret (Some driver))
      is_AttributeError
      (emit (PrintLine "Error attempting to take failure screenshot") ;; ret None) in
  match found with
  | None => ret tt
  | Some driver =>
      let* p := get in
      (if negb dir_exists then emit (Makedirs (ss_dir p)) else ret tt) ;;
      let ss_file := posix_join (ss_dir p) (test_id t +:+ ".png") in
      emit (SaveScreenshot driver ss_file)
  end.

(** [configure]; [abspath] is [os.path.abspath] and [selenium_ss_dir] the
    option of that name. *)
Definition configure (abspath : string -> string) (selenium_ss_dir : option string)
  : plugin :=
  {| ss_dir :=
       match selenium_ss_dir with
       | Some dir => if negb (String.eqb dir "") then abspath dir
                     else abspath "failure_screenshots"
       | None => abspath "failure_screenshots"
       end;
     trace := [] |}.

Definition handleError (dir_exists : bool) (t : test) : M plugin unit :=
  if is_nose_test t
     && truthy (getattr_default (context t) "selenium_take_ss" (PyBool false))
  then _take_screenshot dir_exists t
  else ret tt.

Definition handleFailure (dir_exists : bool) (t : test) : M plugin unit :=
  if is_nose_test t
     && truthy (getattr_default (context t) "selenium_take_ss" (PyBool false))
  then _take_screenshot dir_exists t
  else ret tt.

End Selenium.

(** ** DjangoSphinxPlugin *)

Module Sphinx.

(** A launched process: what [wait()] returns, what [poll()] returns right
    after the launch, what [communicate()] returns, and its pid. *)
Record process : Type := {
  exit_status : Z;
  poll_now : option Z;
  out : string;
  err : string;
  pid : Z
}.

Inductive event : Type :=
| Mkdtemp
| Popen (argv : list string)
| Wait
| Poll
| Communicate
| Kill (pid : Z)
| Rmtree (path : string) (ignore_errors : bool)
| PrintLine (line : string).

(** [abspath] is [os.path.abspath], [mkdtemp] the directory
    [tempfile.mkdtemp()] creates, [spawn] the process [subprocess.Popen]
    launches ([None] when it raises [OSError]). *)
Record env : Type := {
  abspath : string -> string;
  mkdtemp : string;
  spawn : list string -> option process
}.

(** The instance; every attribute is assigned by a method. *)
Record plugin : Type := {
  sphinx_config_tpl : option string;
  tmp_sphinx_dir : option string;
  searchd_port : option Z;
  _searchd : option process;
  trace : list event
}.

Definition new : plugin :=
  {| sphinx_config_tpl := None; tmp_sphinx_dir := None; searchd_port := None;
     _searchd := None; trace := [] |}.

Definition set_sphinx_config_tpl (v : option string) (p : plugin) : plugin :=
  {| sphinx_config_tpl := v; tmp_sphinx_dir := tmp_sphinx_dir p;
     searchd_port := searchd_port p; _searchd := _searchd p; trace := trace p |}.

Definition set_tmp_sphinx_dir (v : option string) (p : plugin) : plugin :=
  {| sphinx_config_tpl := sphinx_config_tpl p; tmp_sphinx_dir := v;
     searchd_port := searchd_port p; _searchd := _searchd p; trace := trace p |}.

Definition set_searchd_port (v : option Z) (p : plugin) : plugin :=
  {| sphinx_config_tpl := sphinx_config_tpl p; tmp_sphinx_dir := tmp_sphinx_dir p;
     searchd_port := v; _searchd := _searchd p; trace := trace p |}.

Definition set__searchd (v : option process) (p : plugin) : plugin :=
  {| sphinx_config_tpl := sphinx_config_tpl p; tmp_sphinx_dir := tmp_sphinx_dir p;
     searchd_port := searchd_port p; _searchd := v; trace := trace p |}.

Definition add_event (ev : event) (p : plugin) : plugin :=
  {| sphinx_config_tpl := sphinx_config_tpl p; tmp_sphinx_dir := tmp_sphinx_dir p;
     searchd_port := searchd_port p; _searchd := _searchd p;
     trace := trace p ++ [ev] |}.

Section Hooks.
Variable E : env.

Definition emit (ev : event) : M plugin unit := modify (add_event ev).

(** [subprocess.Popen(argv, stdout=PIPE, stderr=PIPE)] *)
Definition popen (argv : list string) : M plugin process :=
  emit (Popen argv) ;;
  match spawn E argv with
  | Some pr => ret pr
  | None => raise OSError
  end.

(** [configure]; [tpl] is [options.sphinx_config_tpl]. *)
Definition configure (tpl : option string) : M plugin unit :=
  match tpl with
  | Some path =>
      if negb (String.eqb path "") then
        modify (set_sphinx_config_tpl (Some (abspath E path))) ;;
        emit Mkdtemp ;;
        modify (set_tmp_sphinx_dir (Some (mkdtemp E))) ;;
        modify (set_searchd_port (Some 45798%Z))
      else ret tt
  | None => ret tt
  end.

Definition finalize : M plugin unit :=
  let* p := get in
  let* dir := attr "tmp_sphinx_dir" (tmp_sphinx_dir p) in
  emit (Rmtree dir true).

Definition _build_sphinx_index (config : string) : M plugin unit :=
  let* indexer := popen ["indexer"; "--config"; config; "--all"] in
  emit Wait ;;
  if negb (Z.eqb (exit_status indexer) 0) then
    emit (PrintLine "Sphinx Indexing Problem") ;;
    emit Communicate ;;
    emit (PrintLine ("stdout: " +:+ out indexer)) ;;
    emit (PrintLine ("stderr: " +:+ err indexer))
  else ret tt.

Definition _start_searchd (config : string) : M plugin unit :=
  let* p := get in
  let* port := attr "searchd_port" (searchd_port p) in
  let* searchd :=
    popen ["searchd"; "--config"; config; "--console"; "--port"; pretty port] in
  modify (set__searchd (Some searchd)) ;;
  emit Poll ;;
  match poll_now searchd with
  | Some returned =>
      emit (PrintLine ("Sphinx Search unavailable. searchd exited with code: "
                   +:+ pretty returned)) ;;
      emit Communicate ;;
      emit (PrintLine ("stdout: " +:+ out searchd)) ;;
      emit (PrintLine ("stderr: " +:+ err searchd))
  | None => ret tt
  end.

End Hooks.

(** The lines printed, in order. *)
Definition printed (tr : list event) : list string :=
  omap (fun ev => match ev with PrintLine l => Some l | _ => None end) tr.

(** [v == s] for a string [s]. *)
Definition py_eq_str (v : pyval) (s : string) : bool :=
  match v with
  | PyStr x => String.eqb x s
  | _ => false
  end.

(** [_stop_searchd]; [polled] is what [self._searchd.poll()] returns at
    that moment: [None] while the daemon runs, else its exit status. *)
Definition _stop_searchd (polled : option Z) : M plugin unit :=
  let* p := get in
  let* searchd := attr "_searchd" (_searchd p) in
  modify (add_event Poll) ;;
  let poll_result := match polled with Some n => PyInt n | None => PyNone end in
  if negb (truthy poll_result) then
    modify (add_event (Kill (pid searchd))) ;;
    modify (add_event Wait)
  else ret tt.

Definition afterTest (settings : obj) (polled : option Z) (t : test) : M plugin unit :=
  let* engine := getattr settings "DATABASE_ENGINE" in
  if py_eq_str engine "mysql" then
    if truthy (getattr_default (context t) "run_sphinx_searchd" (PyBool false))
    then _stop_searchd polled
    else ret tt
  else ret tt.

(** What the files and string formatting answer: [read_file path] is the
    text of the file ([None] when opening it raises [IOError]) and
    [render tpl context] is [tpl % context]. *)
Record files : Type := {
  read_file : string -> option string;
  render : string -> list (string * pyval) -> result string
}.

(** The plugin together with what [startTest] writes to: the Django
    settings, [djangosphinx.models.SPHINX_PORT] and the files. *)
Record session : Type := {
  plug : plugin;
  settings : obj;
  models_SPHINX_PORT : option pyval;
  written : gmap string string
}.

Definition set_plug (v : plugin) (s : session) : session :=
  {| plug := v; settings := settings s;
     models_SPHINX_PORT := models_SPHINX_PORT s; written := written s |}.

Definition set_settings (v : obj) (s : session) : session :=
  {| plug := plug s; settings := v;
     models_SPHINX_PORT := models_SPHINX_PORT s; written := written s |}.

Definition set_models_SPHINX_PORT (v : option pyval) (s : session) : session :=
  {| plug := plug s; settings := settings s;
     models_SPHINX_PORT := v; written := written s |}.

Definition set_written (v : gmap string string) (s : session) : session :=
  {| plug := plug s; settings := settings s;
     models_SPHINX_PORT := models_SPHINX_PORT s; written := v |}.

(** A method of the plugin run inside the session. *)
Definition on_plugin {A} (m : M plugin A) : M session A :=
  fun s => match m (plug s) with
           | (r, p) => (r, set_plug p s)
           end.

(** Reading a local variable that is assigned on some paths only. *)
Definition local_variable {S A} (name : string) (v : option A) : M S A :=
  match v with
  | Some a => ret a
  | None => raise (OtherError ("UnboundLocalError: " +:+ name))
  end.

Section StartTest.
Variable E : env.
Variable F : files.

(** [startTest], lines 510 to 534: write the configuration file.  The
    value is the path assigned to [sphinx_config_path]. *)
Definition write_config : M session string :=
  let* port := on_plugin (let* p := get in attr "searchd_port" (searchd_port p)) in
  modify (fun s => set_settings (<["SPHINX_PORT" := PyInt port]> (settings s)) s) ;;
  let* port := on_plugin (let* p := get in attr "searchd_port" (searchd_port p)) in
  modify (set_models_SPHINX_PORT (Some (PyInt port))) ;;
  let* dir := on_plugin (let* p := get in attr "tmp_sphinx_dir" (tmp_sphinx_dir p)) in
  let sphinx_config_path := posix_join dir "sphinx.conf" in
  let* tpl_path :=
    on_plugin (let* p := get in attr "sphinx_config_tpl" (sphinx_config_tpl p)) in
  let* tpl :=
    match read_file F tpl_path with
    | Some text => ret text
    | None => raise (OtherError "IOError")
    end in
  let* s := get in
  let* database_name := getattr (settings s) "DATABASE_NAME" in
  let* database_username := getattr (settings s) "DATABASE_USER" in
  let* database_password := getattr (settings s) "DATABASE_PASSWORD" in
  let* data_dir := on_plugin (let* p := get in attr "tmp_sphinx_dir" (tmp_sphinx_dir p)) in
  let* log_dir := on_plugin (let* p := get in attr "tmp_sphinx_dir" (tmp_sphinx_dir p)) in
  let context :=
    [("database_name", database_name);
     ("database_username", database_username);
     ("database_password", database_password);
     ("sphinx_search_data_dir", PyStr data_dir);
     ("searchd_log_dir", PyStr log_dir)] in
  let* output :=
    match render F tpl context with
    | Ok text => ret text
    | Raise e => raise e
    end in
  modify (fun s => set_written (<[sphinx_config_path := output]> (written s)) s) ;;
  ret sphinx_config_path.

Definition startTest (t : test) : M session unit :=
  let* s := get in
  let* engine := getattr (settings s) "DATABASE_ENGINE" in
  if py_eq_str engine "mysql" then
    let build_sphinx_index :=
      getattr_default (test_attrs t) "build_sphinx_index" (PyBool false) in
    let run_sphinx_searchd :=
      getattr_default (test_attrs t) "run_sphinx_searchd" (PyBool false) in
    let* sphinx_config_path :=
      if truthy run_sphinx_searchd
      then let* path := write_config in ret (Some path)
      else ret None in
    (if truthy build_sphinx_index then
       let* config := local_variable "sphinx_config_path" sphinx_config_path in
       on_plugin (_build_sphinx_index E config)
     else ret tt) ;;
    (if truthy run_sphinx_searchd then
       let* config := local_variable "sphinx_config_path" sphinx_config_path in
       on_plugin (_start_searchd E config)
     else ret tt)
  else ret tt.

End StartTest.

End Sphinx.
Import NoseDjango.

(** ** Concrete surroundings used in examples *)

Module Samples.

Definition django_tx : transaction_module :=
  {| commit := DjangoFn "commit";
     rollback := DjangoFn "rollback";
     savepoint_commit := DjangoFn "savepoint_commit";
     savepoint_rollback := DjangoFn "savepoint_rollback";
     enter_transaction_management := DjangoFn "enter_transaction_management";
     leave_transaction_management := DjangoFn "leave_transaction_management" |}.

(** Surroundings in which no call raises. *)
Definition quiet_env (cwd : string) : env :=
  {| sys := posix cwd (listdir_of sample_tree);
     raises := fun _ => None;
     add_path := fun p l => p :: l;
     is_managed := true;
     TEST_MEDIA_ROOT := "/srv/media/test_media" |}.

(** Surroundings in which the settings module cannot be imported. *)
Definition no_import_env (cwd : string) : env :=
  {| sys := posix cwd (listdir_of sample_tree);
     raises := fun ev => match ev with ImportModule _ => Some ImportError | _ => None end;
     add_path := fun p l => p :: l;
     is_managed := true;
     TEST_MEDIA_ROOT := "/srv/media/test_media" |}.

Definition sample_settings : obj :=
  <["ROOT_URLCONF" := PyStr "proj.urls"]>
  (<["DATABASE_NAME" := PyStr "projdb"]>
  (<["DATABASE_ENGINE" := PyStr "mysql"]> ∅)).

Definition sample_plugin : plugin :=
  configure {| django_settings := None; use_sqlite := false; xvfb_headless := None |}
            {| conf_verbosity := 1; addPaths := true; where_ := ["/home/joe/proj"] |}
            (module_import ∅).

Definition fresh_world : world :=
  {| self := sample_plugin; settings := sample_settings; transaction := django_tx;
     environ := module_import ∅; sys_path := ["/usr/lib/python2.6"]; trace := [] |}.

(** The world once [begin] has imported the settings. *)
Definition begun_world : world :=
  upd_self (set_old_db (Some (PyStr "projdb")))
    (upd_self (set_settings_path (Some (Some "settings"))) fresh_world).

Definition method_test (ctx : obj) : test :=
  {| is_nose_test := true; test_kind := MethodTestCase; context := ctx;
     test_attrs := ∅; inner_attrs := ∅; test_id := "app.tests.TestThing.test_it" |}.

(** A test method of a [unittest.TestCase] subclass, such as a Django
    [TestCase]: nose wraps the case itself, not a [MethodTestCase]. *)
Definition unittest_test (ctx : obj) : test :=
  {| is_nose_test := true; test_kind := UnittestTestCase; context := ctx;
     test_attrs := ∅; inner_attrs := ∅; test_id := "app.tests.ThingTest.test_it" |}.

Definition function_test (ctx : obj) : test :=
  {| is_nose_test := true; test_kind := FunctionTestCase; context := ctx;
     test_attrs := ∅; inner_attrs := ∅; test_id := "app.tests.test_it" |}.

(** Surroundings of the live server plugin in which nothing raises; [int]
    is given for the values the examples use. *)
Definition quiet_server_env : LiveServer.env :=
  {| LiveServer.int_ := fun v =>
       match v with
       | PyInt n => Some n
       | PyStr "8000" => Some 8000%Z
       | PyStr "8081" => Some 8081%Z
       | _ => None
       end;
     LiveServer.raises := fun _ => None |}.

(** Surroundings of the live server plugin in which the server cannot be
    created. *)
Definition no_server_env : LiveServer.env :=
  {| LiveServer.int_ := LiveServer.int_ quiet_server_env;
     LiveServer.raises := fun ev =>
       match ev with
       | LiveServer.CreateServer _ _ => Some (OtherError "socket.error")
       | _ => None
       end |}.

(** A failed test that asked for screenshots; [test.test] has what
    [inner] gives it. *)
Definition selenium_test (inner : obj) : test :=
  {| is_nose_test := true; test_kind := MethodTestCase;
     context := <["selenium_take_ss" := PyBool true]> ∅;
     test_attrs := ∅; inner_attrs := inner; test_id := "app.tests.TestLogin.test_form" |}.

(** A test that asks for the search daemon, for the index, or for both. *)
Definition sphinx_test (build run : bool) : test :=
  {| is_nose_test := true; test_kind := MethodTestCase; context := ∅;
     test_attrs := <["build_sphinx_index" := PyBool build]>
                     (<["run_sphinx_searchd" := PyBool run]> ∅);
     inner_attrs := ∅; test_id := "app.tests.TestSearch.test_query" |}.

(** Search tools that work: the indexer exits with 0, the daemon keeps
    running. *)
Definition working_tools : Sphinx.env :=
  {| Sphinx.abspath := fun p => "/home/joe/proj/" +:+ p;
     Sphinx.mkdtemp := "/tmp/tmpQ3xk";
     Sphinx.spawn := fun argv =>
       match argv with
       | "indexer" :: _ =>
           Some {| Sphinx.exit_status := 0; Sphinx.poll_now := None;
                   Sphinx.out := "total 12 docs"; Sphinx.err := "";
                   Sphinx.pid := 4201 |}
       | "searchd" :: _ =>
           Some {| Sphinx.exit_status := 0; Sphinx.poll_now := None;
                   Sphinx.out := ""; Sphinx.err := ""; Sphinx.pid := 4202 |}
       | _ => None
       end |}.

(** Files in which the template can be read; formatting is stood for by
    putting the database name after the template text. *)
Definition sample_files : Sphinx.files :=
  {| Sphinx.read_file := fun path =>
       if String.eqb path "/home/joe/proj/sphinx.conf.tpl"
       then Some "source docs { sql_db = " else None;
     Sphinx.render := fun tpl context =>
       match List.find (fun kv => String.eqb (fst kv) "database_name") context with
       | Some (_, PyStr name) => Ok (tpl +:+ name +:+ " }")
       | _ => Raise (OtherError "KeyError")
       end |}.

Definition sample_session (tpl : option string) : Sphinx.session :=
  {| Sphinx.plug := snd (Sphinx.configure working_tools tpl Sphinx.new);
     Sphinx.settings :=
       <["DATABASE_USER" := PyStr "joe"]>
         (<["DATABASE_PASSWORD" := PyStr "secret"]> sample_settings);
     Sphinx.models_SPHINX_PORT := None;
     Sphinx.written := ∅ |}.

Definition live_test (name : string) : test :=
  {| is_nose_test := true; test_kind := MethodTestCase; context := ∅;
     test_attrs := <["start_live_server" := PyBool true]> ∅;
     inner_attrs := ∅; test_id := name |}.

(** A run of one test in surroundings where only the import can fail; the
    test itself switches a setting. *)
Definition sample_run (t : test) : test_run :=
  {| before_env := quiet_env "/home/joe/proj";
     the_test := t;
     ran := upd_settings (insert "DEBUG" (PyBool true));
     after_env := no_import_env "/home/joe/proj" |}.

End Samples.
Import Samples.

(** Surroundings for the search plugin: the indexer fails, the daemon dies
    at once. *)
Definition failing_tools : Sphinx.env :=
  {| Sphinx.abspath := fun p => "/home/joe/proj/" +:+ p;
     Sphinx.mkdtemp := "/tmp/tmpQ3xk";
     Sphinx.spawn := fun argv =>
       match argv with
       | "indexer" :: _ =>
           Some {| Sphinx.exit_status := 1; Sphinx.poll_now := None;
                   Sphinx.out := "indexing index 'docs'...";
                   Sphinx.err := "ERROR: index 'docs': sql_connect failed";
                   Sphinx.pid := 4101 |}
       | "searchd" :: _ =>
           Some {| Sphinx.exit_status := 1; Sphinx.poll_now := Some 1%Z;
                   Sphinx.out := "listening on all interfaces";
                   Sphinx.err := "FATAL: bind() failed";
                   Sphinx.pid := 4102 |}
       | _ => None
       end |}.

(** ** Vocabulary of the properties *)

Module Vocabulary.

(** Whether the per-test preference, when declared, allows transactions. *)
Definition preference_allows (t : test) : bool :=
  match context t !! "use_transaction" with
  | Some v => truthy v
  | None => true
  end.

(** Whether the capability flag, when present, allows transactions. *)
Definition database_allows (settings : obj) : bool :=
  match settings !! "DATABASE_SUPPORTS_TRANSACTIONS" with
  | Some v => truthy v
  | None => true
  end.

(** All six names bound to [_dummy]. *)
Definition patched : transaction_module :=
  {| commit := _dummy; rollback := _dummy;
     savepoint_commit := _dummy; savepoint_rollback := _dummy;
     enter_transaction_management := _dummy;
     leave_transaction_management := _dummy |}.

(** The bindings the instance has saved, when all six are there. *)
Definition originals (p : plugin) : option transaction_module :=
  match orig_commit p, orig_rollback p, orig_savepoint_commit p,
        orig_savepoint_rollback p, orig_enter p, orig_leave p with
  | Some c, Some r, Some sc, Some sr, Some e, Some l =>
      Some {| commit := c; rollback := r;
              savepoint_commit := sc; savepoint_rollback := sr;
              enter_transaction_management := e;
              leave_transaction_management := l |}
  | _, _, _, _, _, _ => None
  end.

(** The instance once it has saved the six bindings of [tx]. *)
Definition save_originals (tx : transaction_module) (p : plugin) : plugin :=
  set_orig_leave (Some (leave_transaction_management tx))
    (set_orig_enter (Some (enter_transaction_management tx))
      (set_orig_savepoint_rollback (Some (savepoint_rollback tx))
        (set_orig_savepoint_commit (Some (savepoint_commit tx))
          (set_orig_rollback (Some (rollback tx))
            (set_orig_commit (Some (commit tx)) p))))).

(** Calls that enter, leave or steer transaction management. *)
Definition is_transaction_event (ev : NoseDjango.event) : bool :=
  match ev with
  | Called _ | Managed _ | IsManaged => true
  | _ => false
  end.

Definition flush_command : NoseDjango.event :=
  CallCommand "flush" [] [("verbosity", PyInt 0); ("interactive", PyBool false)].

Definition loaddata_command (fixtures : list pyval) : NoseDjango.event :=
  CallCommand "loaddata" fixtures [("verbosity", PyInt 0)].

(** The six saved bindings, assigned or not. *)
Definition saved_bindings (p : plugin) : list (option func) :=
  [orig_commit p; orig_rollback p; orig_savepoint_commit p;
   orig_savepoint_rollback p; orig_enter p; orig_leave p].

Definition is_clear_url_caches (ev : NoseDjango.event) : bool :=
  match ev with
  | ClearUrlCaches => true
  | _ => false
  end.

(** A computation that changes nothing but the trace. *)
Definition trace_only {A} (m : M world A) : Prop :=
  forall w, let w' := snd (m w) in
    self w' = self w /\ settings w' = settings w /\
    transaction w' = transaction w /\ environ w' = environ w /\
    sys_path w' = sys_path w.

Definition clears (tr : list NoseDjango.event) : list NoseDjango.event :=
  filter (fun ev => is_clear_url_caches ev = true) tr.

(** A computation that leaves the URL configuration alone: the settings,
    the saved root and the number of cache clearings. *)
Definition keeps_urls {A} (m : M world A) : Prop :=
  forall w, let w' := snd (m w) in
    settings w' = settings w /\
    old_urlconf (self w') = old_urlconf (self w) /\
    clears (trace w') = clears (trace w).

(** The directory reached from [cwd] by going up [k] times. *)
Definition ancestor (sys : system) (k : nat) (cwd : string) : string :=
  Nat.iter k (os_path_split_head sys) cwd.

(** The directory [d] can be listed and has an entry named [file]. *)
Definition holds (sys : system) (d file : string) : Prop :=
  exists names, os_listdir sys d = Some names /\ file ∈ names.

(** The directory [d] can be listed and has no entry named [file]. *)
Definition lacks (sys : system) (d file : string) : Prop :=
  exists names, os_listdir sys d = Some names /\ file ∉ names.

(** Where the walk gives up: the root, or a drive root on Windows. *)
Definition is_root (sys : system) (d : string) : Prop :=
  d = "/" \/ (os_name sys = "nt" /\ NT_ROOT_match d = true).

(** A path that begins with two slashes. *)
Definition double_slash (p : list ascii) : bool :=
  match p with
  | c1 :: c2 :: _ => is_slash c1 && is_slash c2
  | _ => false
  end.

(** The world after [begin] has set the environment variable and added
    the paths of [conf.where]. *)
Definition with_paths (E : env) (ps : list string) (w : world) : world :=
  fold_left (fun w p => upd_sys_path (add_path E p)
                          (upd_trace (fun tr => tr ++ [AddPath p]) w)) ps w.

Definition before_import (E : env) (w : world) : world :=
  let w1 := upd_environ (insert "DJANGO_SETTINGS_MODULE" (settings_module (self w))) w in
  if addPaths (conf (self w)) then with_paths E (where_ (conf (self w))) w1 else w1.

(** The world when the import of the settings module has just failed. *)
Definition import_failed (E : env) (w : world) : world :=
  upd_trace (fun tr => tr ++ [ImportModule (settings_module (self w))]) (before_import E w).

(** A computation that leaves [sys.path] and [settings_path] alone. *)
Definition keeps_path {A} (m : M world A) : Prop :=
  forall w, let w' := snd (m w) in
    sys_path w' = sys_path w /\
    settings_path (self w') = settings_path (self w).

(** The call a binding of the transaction module makes when it is called:
    none for [_dummy]. *)
Definition events_of (f : func) : list NoseDjango.event :=
  match f with
  | _dummy => []
  | DjangoFn name => [Called name]
  end.

(** A run of one test in which entering transaction management does not
    raise and the test itself leaves the plugin and the six names alone. *)
Definition well_behaved (r : test_run) : Prop :=
  (forall n, raises (before_env r) (Called n) = None) /\
  raises (before_env r) (Managed true) = None /\
  forall w, self (ran r w) = self w /\ transaction (ran r w) = transaction w.

(** The settings as [begin] leaves them: the in-memory database when
    [--django-sqlite] was given, then what [custom_before] forces, then
    [DEBUG] off. *)
Definition test_settings (sqlite : bool) (s : obj) : obj :=
  let s :=
    if sqlite then
      <["DATABASE_PASSWORD" := PyStr ""]>
        (<["DATABASE_USER" := PyStr ""]>
          (<["DATABASE_OPTIONS" := PyDict []]>
            (<["DATABASE_NAME" := PyStr ""]>
              (<["DATABASE_ENGINE" := PyStr "sqlite3"]> s))))
    else s in
  <["DEBUG" := PyBool false]>
    (<["DISABLE_QUERYSET_CACHE" := PyBool true]>
      (<["CACHE_BACKEND" := PyStr "locmem://"]>
        (<["CELERY_ALWAYS_EAGER" := PyBool true]>
          (<["DEFAULT_FILE_STORAGE" := PyStr "nosedjango.nosedjango.TestFileSystemStorage"]>
            (<["DOCUMENT_PRINTING_CACHE_ON_SAVE" := PyBool false]> s))))).

(** The steps of the second part of [begin], in order. *)
Definition sqlite_step (p : plugin) : M world unit :=
  if _use_sqlite p then
    setattr_settings "DATABASE_ENGINE" (PyStr "sqlite3") ;;
    setattr_settings "DATABASE_NAME" (PyStr "") ;;
    setattr_settings "DATABASE_OPTIONS" (PyDict []) ;;
    setattr_settings "DATABASE_USER" (PyStr "") ;;
    setattr_settings "DATABASE_PASSWORD" (PyStr "")
  else ret tt.

Definition xvfb_step (E : env) (p : plugin) : M world unit :=
  if path_truthy (_xvfb_headless p) then
    let display := default "" (_xvfb_headless p) in
    try_except (call E (Popen (xvfb_argv "xvfb" display))) is_OSError
               (call E (Popen (xvfb_argv "Xvfb" display))) ;;
    modify (upd_environ (insert "DISPLAY" (":" +:+ display)))
  else ret tt.

Definition create_step (E : env) (p : plugin) : M world unit :=
  let* w := get in
  let* name := getattr (settings w) "DATABASE_NAME" in
  set_self (set_old_db (Some name)) ;;
  call E SetupTestEnvironment ;;
  call E GetCommands ;;
  call E (RegisterCommand "syncdb" "django.core") ;;
  call E (CreateTestDb (verbosity p)).

(** A computation that leaves the settings and the configured options of
    the plugin alone. *)
Definition keeps_config {A} (m : M world A) : Prop :=
  forall w, let w' := snd (m w) in
    settings w' = settings w /\
    _use_sqlite (self w') = _use_sqlite (self w) /\
    verbosity (self w') = verbosity (self w).

(** No character of [s] is [c]. *)
Definition free_of (c : ascii) (s : string) : Prop :=
  forallb (fun x => negb (Ascii.eqb x c)) (list_ascii_of_string s) = true.

End Vocabulary.
Import Vocabulary.

(** * Properties *)

(** ** Settings locator: examples *)

Example py_split_ex : py_split "." "proj.settings" = ["proj"; "settings"].
Proof. reflexivity. Qed.
Example posix_split_ex1 : posix_split_head "/home/joe/proj/app" = "/home/joe/proj".
Proof. reflexivity. Qed.
Example posix_split_ex2 : posix_split_head "/home" = "/".
Proof. reflexivity. Qed.
Example posix_split_ex3 : posix_split_head "//" = "//".
Proof. reflexivity. Qed.
Example posix_split_ex4 : posix_split_head "a/b//" = "a/b".
Proof. reflexivity. Qed.
Example posix_split_ex5 : posix_split_head "abc" = "".
Proof. reflexivity. Qed.
Example NT_ROOT_ex :
  NT_ROOT_match (String "C" (String ":" (String backslash ""))) = true /\
  NT_ROOT_match (String "C" (String ":" (String backslash "a"))) = false /\
  NT_ROOT_match "/" = false.
Proof. repeat split; reflexivity. Qed.
Example gsp_ex1 :
  get_settings_path (posix "/home/joe/proj/app" (listdir_of sample_tree)) 10 "proj.settings"
  = Some (Ok (Some "/home/joe/proj")).
Proof. vm_compute. reflexivity. Qed.
Example gsp_ex2 :
  get_settings_path (posix "/srv/www" (listdir_of sample_tree)) 10 "settings"
  = Some (Ok None).
Proof. vm_compute. reflexivity. Qed.

(** ** Steps of the monad *)

Lemma bind_ok {S A B} (m : M S A) (k : A -> M S B) s a s' :
  m s = (Ok a, s') -> bind m k s = k a s'.
Proof. intros H. unfold bind. now rewrite H. Qed.

Lemma bind_raise {S A B} (m : M S A) (k : A -> M S B) s e s' :
  m s = (Raise e, s') -> bind m k s = (Raise e, s').
Proof. intros H. unfold bind. now rewrite H. Qed.

(** ** _supports_transactions *)

(** Without the setting [DISABLE_TRANSACTION_MANAGEMENT] the result is
    truthy exactly when neither the preference nor the capability flag
    vetoes. *)
Lemma supports_transactions_without_disable (t : test) (settings : obj) :
  settings !! "DISABLE_TRANSACTION_MANAGEMENT" = None ->
  truthy (_supports_transactions t settings)
  = preference_allows t && database_allows settings.
Proof.
  intros Hd. unfold _supports_transactions, preference_allows, database_allows.
  rewrite Hd.
  destruct (context t !! "use_transaction") as [u|];
    destruct (settings !! "DATABASE_SUPPORTS_TRANSACTIONS") as [d|]; simpl;
    try destruct (truthy d); simpl; rewrite ?andb_true_r, ?andb_false_r; reflexivity.
Qed.

(** With the setting present the preference is overwritten: the result no
    longer depends on [use_transaction]. *)
Lemma supports_transactions_with_disable (t : test) (settings : obj) (v : pyval) :
  settings !! "DISABLE_TRANSACTION_MANAGEMENT" = Some v ->
  truthy (_supports_transactions t settings)
  = negb (truthy v) && database_allows settings.
Proof.
  intros Hd. unfold _supports_transactions, database_allows.
  rewrite Hd.
  destruct (settings !! "DATABASE_SUPPORTS_TRANSACTIONS") as [d|]; simpl;
    try destruct (truthy d); simpl; rewrite ?andb_true_r, ?andb_false_r; reflexivity.
Qed.

(** The capability flag always vetoes. *)
Lemma supports_transactions_database_veto (t : test) (settings : obj) (d : pyval) :
  settings !! "DATABASE_SUPPORTS_TRANSACTIONS" = Some d ->
  truthy d = false ->
  _supports_transactions t settings = PyBool false.
Proof.
  intros Hs Hd. unfold _supports_transactions. rewrite Hs, Hd. reflexivity.
Qed.

(** C1.  A test that declares [use_transaction = False], run with
    [DISABLE_TRANSACTION_MANAGEMENT = False] in the settings and no
    capability flag: the preference vetoes, yet the method returns [True],
    because the second signal assigns over the first instead of only
    vetoing. *)
Theorem supports_transactions_overrides_preference :
  let t := method_test (<["use_transaction" := PyBool false]> ∅) in
  let settings : obj := <["DISABLE_TRANSACTION_MANAGEMENT" := PyBool false]> ∅ in
  preference_allows t = false /\
  _supports_transactions t settings = PyBool true.
Proof. split; vm_compute; reflexivity. Qed.

(** ** SeleniumPlugin.afterTest *)

Lemma driver_attr_unbound :
  lookup_name (Selenium.afterTest_locals ++ module_globals ++ builtins) "driver_attr" = None.
Proof. vm_compute. reflexivity. Qed.

(** C10.  For a test whose context has a truthy [selenium] attribute,
    [afterTest] raises [NameError] for [driver_attr] and quits no driver;
    for any other test it does nothing. *)
Theorem selenium_afterTest_name_error (t : test) (p : Selenium.plugin) :
  Selenium.afterTest t p
  = if truthy (getattr_default (context t) "selenium" (PyBool false))
    then (Raise (NameError "driver_attr"), p)
    else (Ok tt, p).
Proof.
  unfold Selenium.afterTest.
  destruct (truthy _); [|reflexivity].
  unfold bind, resolve. rewrite driver_attr_unbound. reflexivity.
Qed.

(** ** DjangoSphinxPlugin *)

(** After [configure] with a template, [finalize] removes the temporary
    directory, ignoring errors, and returns. *)
Lemma sphinx_finalize_removes (E : Sphinx.env) (tpl : string) :
  tpl <> "" ->
  let p := snd (Sphinx.configure E (Some tpl) Sphinx.new) in
  Sphinx.finalize p
  = (Ok tt, Sphinx.add_event (Sphinx.Rmtree (Sphinx.mkdtemp E) true) p).
Proof.
  intros Hne. unfold Sphinx.configure.
  destruct (String.eqb_spec tpl ""); [contradiction|]. reflexivity.
Qed.

(** C8.  [configure] without a template never assigns [tmp_sphinx_dir], and
    [finalize] then raises [AttributeError] when it reads the attribute:
    the call the claim says must not raise does raise. *)
Theorem sphinx_finalize_raises_without_template (E : Sphinx.env) :
  let p := snd (Sphinx.configure E None Sphinx.new) in
  Sphinx.tmp_sphinx_dir p = None /\
  Sphinx.finalize p = (Raise (AttributeError "tmp_sphinx_dir"), p).
Proof. split; reflexivity. Qed.

(** C9.  An indexer that exits with a nonzero status, and a search daemon
    that has already terminated when polled, are reported by printing three
    lines, the last two carrying the captured stdout and stderr; both
    methods return normally. *)
Theorem sphinx_failures_reported (E : Sphinx.env) (p : Sphinx.plugin)
    (config : string) (pr : Sphinx.process) :
  (Sphinx.spawn E ["indexer"; "--config"; config; "--all"] = Some pr ->
   Sphinx.exit_status pr <> 0%Z ->
   exists p',
     Sphinx._build_sphinx_index E config p = (Ok tt, p') /\
     Sphinx.printed (Sphinx.trace p')
     = Sphinx.printed (Sphinx.trace p)
       ++ ["Sphinx Indexing Problem";
           "stdout: " +:+ Sphinx.out pr; "stderr: " +:+ Sphinx.err pr]) /\
  (forall port code,
   Sphinx.searchd_port p = Some port ->
   Sphinx.spawn E ["searchd"; "--config"; config; "--console"; "--port"; pretty port]
   = Some pr ->
   Sphinx.poll_now pr = Some code ->
   exists p',
     Sphinx._start_searchd E config p = (Ok tt, p') /\
     Sphinx._searchd p' = Some pr /\
     Sphinx.printed (Sphinx.trace p')
     = Sphinx.printed (Sphinx.trace p)
       ++ ["Sphinx Search unavailable. searchd exited with code: " +:+ pretty code;
           "stdout: " +:+ Sphinx.out pr; "stderr: " +:+ Sphinx.err pr]).
Proof.
  split.
  - intros Hs Hx. unfold Sphinx._build_sphinx_index, Sphinx.popen, bind, Sphinx.emit, modify.
    simpl. rewrite Hs. simpl.
    destruct (Z.eqb_spec (Sphinx.exit_status pr) 0); [contradiction|]. simpl.
    eexists. split; [reflexivity|]. simpl.
    unfold Sphinx.printed. rewrite !omap_app. simpl.
    rewrite <- ?app_assoc. reflexivity.
  - intros port code Hp Hs Hc.
    unfold Sphinx._start_searchd, Sphinx.popen, bind, Sphinx.emit, modify, get, attr.
    simpl. rewrite Hp. simpl. rewrite Hs. simpl. rewrite Hc. simpl.
    eexists. split; [reflexivity|]. split; [reflexivity|]. simpl.
    unfold Sphinx.printed. rewrite !omap_app. simpl.
    rewrite <- ?app_assoc. reflexivity.
Qed.

(** ** Patching and restoring the transaction functions *)

Lemma disable_transaction_support_spec (w : world) :
  disable_transaction_support w
  = (Ok tt, upd_transaction (fun _ => patched)
              (upd_self (save_originals (transaction w)) w)).
Proof. destruct w as [p s tx en sp tr]. destruct p, tx. reflexivity. Qed.

Lemma restore_transaction_support_spec (w : world) (tx : transaction_module) :
  originals (self w) = Some tx ->
  restore_transaction_support w = (Ok tt, upd_transaction (fun _ => tx) w).
Proof.
  destruct w as [p s tx0 en sp tr]. destruct p as [? ? ? ? ? ? ? ? oc orb osc osr oe ol ?].
  unfold originals. simpl.
  destruct oc, orb, osc, osr, oe, ol; try discriminate.
  intros [= <-]. destruct tx0. reflexivity.
Qed.

Lemma originals_save_originals (tx : transaction_module) (p : plugin) :
  originals (save_originals tx p) = Some tx.
Proof. destruct tx, p. reflexivity. Qed.

(** Restoring after patching gives back the six bindings. *)
Lemma restore_after_disable (w : world) :
  transaction (snd (restore_transaction_support (snd (disable_transaction_support w))))
  = transaction w.
Proof.
  rewrite disable_transaction_support_spec.
  rewrite (restore_transaction_support_spec _ (transaction w)).
  - reflexivity.
  - simpl. apply originals_save_originals.
Qed.

(** ** beforeTest, step by step *)

Section BeforeTest.
Variable E : env.
Variable t : test.

Lemma call_trace (ev : NoseDjango.event) (w : world) :
  snd (call E ev w) = upd_trace (fun tr => tr ++ [ev]) w.
Proof. unfold call, bind, emit, modify. simpl. destruct (raises E ev); reflexivity. Qed.

Lemma call_quiet (ev : NoseDjango.event) (w : world) :
  raises E ev = None ->
  call E ev w = (Ok tt, upd_trace (fun tr => tr ++ [ev]) w).
Proof. intros H. unfold call, bind, emit, modify. simpl. rewrite H. reflexivity. Qed.

(** Loading fixtures touches nothing but the trace. *)
Lemma load_fixtures_frame (w : world) :
  let w' := snd (load_fixtures E t w) in
  self w' = self w /\ settings w' = settings w /\ transaction w' = transaction w.
Proof.
  unfold load_fixtures. destruct (has_declared t "fixtures"); [|simpl; auto].
  unfold bind, getattr, lift.
  destruct (context t !! "fixtures") as [v|]; [|simpl; auto]. simpl.
  destruct (unpack v) as [args|e]; [|simpl; auto].
  rewrite call_trace. simpl. auto.
Qed.

(** The URL step leaves the transaction functions, the saved bindings and
    the isolation flag alone. *)
Lemma override_urls_frame (w : world) :
  let w' := snd (override_urls E t w) in
  transaction w' = transaction w /\
  originals (self w') = originals (self w) /\
  _managing_transactions (self w') = _managing_transactions (self w) /\
  trace w' = trace w /\
  saved_bindings (self w') = saved_bindings (self w) /\
  settings w' = settings w.
Proof.
  unfold override_urls. destruct (has_declared t "urls"); [|simpl; repeat split].
  unfold bind, getattr, get. simpl.
  destruct (settings w !! "ROOT_URLCONF") as [v|]; [|simpl; repeat split]. simpl.
  destruct w as [p s tx en sp tr]. destruct p. simpl. repeat split.
Qed.

(** When the settings were located, [beforeTest] runs its three steps. *)
Lemma beforeTest_steps (w : world) (sp : option string) :
  settings_path (self w) = Some sp ->
  path_truthy sp = true ->
  beforeTest E t w = (isolate E t ;; load_fixtures E t ;; override_urls E t) w.
Proof.
  intros Hs Ht. unfold beforeTest, read_self.
  unfold bind at 1. unfold bind at 1. unfold get, attr. rewrite Hs. simpl.
  rewrite Ht. reflexivity.
Qed.

(** The isolation step of a test that supports transactions, when entering
    transaction management does not raise. *)
Lemma isolate_transactional (w : world) :
  truthy (_supports_transactions t (settings w)) = true ->
  (forall n, raises E (Called n) = None) ->
  raises E (Managed true) = None ->
  exists w',
    isolate E t w = (Ok tt, w') /\
    transaction w' = patched /\
    originals (self w') = Some (transaction w) /\
    _managing_transactions (self w') = Some (_supports_transactions t (settings w)) /\
    settings w' = settings w.
Proof.
  intros Hsup Hc Hm. unfold isolate.
  unfold bind at 1. unfold get at 1.
  unfold bind at 1. unfold set_self at 1, modify at 1.
  rewrite Hsup.
  unfold bind at 1. unfold bind at 1. unfold read_tx, bind at 1, get, ret.
  set (w0 := upd_self _ w).
  assert (Hf : exists w1, call_func E (enter_transaction_management (transaction w0)) w0
                          = (Ok tt, w1) /\ self w1 = self w0 /\
                          transaction w1 = transaction w0 /\ settings w1 = settings w0).
  { destruct (enter_transaction_management (transaction w0)) as [|n]; simpl.
    - eexists; split; [reflexivity|auto].
    - rewrite call_quiet by apply Hc. eexists; split; [reflexivity|auto]. }
  destruct Hf as (w1 & -> & Hs1 & Ht1 & Hg1).
  unfold bind at 1. rewrite call_quiet by exact Hm.
  rewrite disable_transaction_support_spec.
  eexists. split; [reflexivity|]. simpl.
  rewrite originals_save_originals, Ht1, Hs1, Hg1.
  subst w0. destruct w as [p s tx en sp tr]. destruct p. simpl. auto.
Qed.

(** The isolation step of a test that does not support transactions. *)
Lemma isolate_flush (w : world) :
  truthy (_supports_transactions t (settings w)) = false ->
  snd (isolate E t w)
  = upd_trace (fun tr => tr ++ [flush_command])
      (upd_self (set__managing_transactions
                   (Some (_supports_transactions t (settings w)))) w).
Proof.
  intros Hsup. unfold isolate.
  unfold bind at 1. unfold get at 1.
  unfold bind at 1. unfold set_self at 1, modify at 1.
  rewrite Hsup. rewrite call_trace. reflexivity.
Qed.

End BeforeTest.

(** ** afterTest *)

Lemma trace_only_bind {A B} (m : M world A) (k : A -> M world B) :
  trace_only m -> (forall a, trace_only (k a)) -> trace_only (bind m k).
Proof.
  intros Hm Hk w. unfold bind. specialize (Hm w).
  destruct (m w) as [[a|e] w1]; simpl in *.
  - specialize (Hk a w1). simpl in Hk.
    destruct Hm as (? & ? & ? & ? & ?), Hk as (? & ? & ? & ? & ?).
    repeat split; congruence.
  - exact Hm.
Qed.

Lemma trace_only_ret {A} (a : A) : trace_only (ret a).
Proof. intros w. simpl. auto. Qed.

Lemma trace_only_call (E : env) (ev : NoseDjango.event) : trace_only (call E ev).
Proof. intros w. simpl. rewrite call_trace. simpl. auto. Qed.

Lemma trace_only_call_func (E : env) (f : func) : trace_only (call_func E f).
Proof. destruct f; [apply trace_only_ret | apply trace_only_call]. Qed.

Lemma trace_only_read_tx (f : transaction_module -> func) : trace_only (read_tx f).
Proof. intros w. simpl. auto. Qed.

(** With the isolation flag set and six bindings saved, [afterTest] puts the
    saved bindings back, whatever the calls that follow do. *)
Lemma afterTest_restores (E : env) (t : test) (w : world) (m : pyval)
    (tx : transaction_module) :
  _managing_transactions (self w) = Some m ->
  truthy m = true ->
  originals (self w) = Some tx ->
  transaction (snd (afterTest E t w)) = tx.
Proof.
  intros Hm Ht Ho. unfold afterTest, read_self.
  unfold bind at 1. unfold bind at 1. unfold get, attr. rewrite Hm. simpl. rewrite Ht.
  unfold bind at 1. rewrite (restore_transaction_support_spec _ tx Ho).
  match goal with |- transaction (snd (?k ?w1)) = _ =>
    assert (Hk : trace_only k) end.
  { destruct (is_managed E);
      repeat first [ apply trace_only_read_tx | apply trace_only_call_func
                   | apply trace_only_call | apply trace_only_ret
                   | apply trace_only_bind; [|intros ?] ]. }
  destruct (Hk (upd_transaction (fun _ => tx) w)) as (_ & _ & -> & _). reflexivity.
Qed.

(** Without the isolation flag [afterTest] does nothing. *)
Lemma afterTest_not_managing (E : env) (t : test) (w : world) (m : pyval) :
  _managing_transactions (self w) = Some m ->
  truthy m = false ->
  afterTest E t w = (Ok tt, w).
Proof.
  intros Hm Ht. unfold afterTest, read_self.
  unfold bind at 1. unfold bind at 1. unfold get, attr. rewrite Hm. simpl. rewrite Ht.
  reflexivity.
Qed.

(** C2.  A test that supports transactions, with the settings located and
    entering transaction management not raising: [beforeTest] binds the six
    names to [_dummy]; then, whatever the test body does short of rebinding
    them or touching the plugin, and whatever the calls of [afterTest] do,
    [afterTest] leaves the six names bound as they were before
    [beforeTest].  Restoring right after patching is the identity on them. *)
Theorem transaction_bindings_restored (E E' : env) (t : test)
    (body : world -> world) (w : world) (sp : option string) :
  settings_path (self w) = Some sp ->
  path_truthy sp = true ->
  truthy (_supports_transactions t (settings w)) = true ->
  (forall n, raises E (Called n) = None) ->
  raises E (Managed true) = None ->
  (forall w', self (body w') = self w' /\ transaction (body w') = transaction w') ->
  let w1 := snd (beforeTest E t w) in
  let w2 := snd (afterTest E' t (body w1)) in
  transaction w1 = patched /\
  transaction w2 = transaction w /\
  bindings (transaction w2) = bindings (transaction w) /\
  forall w0,
    transaction (snd (restore_transaction_support
                        (snd (disable_transaction_support w0))))
    = transaction w0.
Proof.
  intros Hs Hp Hsup Hc Hm Hbody w1 w2.
  assert (H1 : transaction w1 = patched /\
               originals (self w1) = Some (transaction w) /\
               _managing_transactions (self w1)
               = Some (_supports_transactions t (settings w))).
  { subst w1. rewrite (beforeTest_steps E t w sp Hs Hp).
    destruct (isolate_transactional E t w Hsup Hc Hm)
      as (wa & Hiso & Hta & Hoa & Hma & _).
    rewrite (bind_ok _ _ _ _ _ Hiso).
    pose proof (load_fixtures_frame E t wa) as Hf. simpl in Hf.
    destruct Hf as (Hfs & _ & Hft).
    destruct (load_fixtures E t wa) as [[[]|e] wb] eqn:Hlf; simpl in Hfs, Hft.
    - rewrite (bind_ok _ _ _ _ _ Hlf).
      pose proof (override_urls_frame E t wb) as Hu. simpl in Hu.
      destruct Hu as (Hut & Huo & Hum & _).
      rewrite Hut, Huo, Hum, Hfs, Hft. auto.
    - rewrite (bind_raise _ _ _ _ _ Hlf). simpl. rewrite Hfs, Hft. auto. }
  destruct H1 as (Hpatched & Horig & Hman).
  assert (H2 : transaction w2 = transaction w).
  { subst w2. destruct (Hbody w1) as (Hbs & _).
    apply (afterTest_restores E' t (body w1) (_supports_transactions t (settings w))).
    - rewrite Hbs. exact Hman.
    - exact Hsup.
    - rewrite Hbs. exact Horig. }
  split; [exact Hpatched|]. split; [exact H2|]. split; [now rewrite H2|].
  apply restore_after_disable.
Qed.

Lemma transaction_bindings_restored_witness :
  let E := quiet_env "/home/joe/proj" in
  let E' := no_import_env "/home/joe/proj" in
  let t := method_test (<["fixtures" := PyList [PyStr "users"]]> ∅) in
  let body := upd_settings (insert "DEBUG" (PyBool true)) in
  transaction (snd (beforeTest E t begun_world)) = patched /\
  transaction (snd (afterTest E' t (body (snd (beforeTest E t begun_world)))))
  = django_tx.
Proof.
  intros E E' t body.
  destruct (transaction_bindings_restored E E' t body begun_world (Some "settings"))
    as (H1 & H2 & _).
  - reflexivity.
  - reflexivity.
  - vm_compute. reflexivity.
  - intros n. reflexivity.
  - reflexivity.
  - intros w'. split; reflexivity.
  - split; [exact H1 | exact H2].
Defined.

(** ** Tests without transactional isolation *)

Lemma load_fixtures_trace (E : env) (t : test) (w : world) :
  trace (snd (load_fixtures E t w)) = trace w \/
  exists args, trace (snd (load_fixtures E t w)) = trace w ++ [loaddata_command args].
Proof.
  unfold load_fixtures. destruct (has_declared t "fixtures"); [|left; reflexivity].
  unfold bind, getattr, lift.
  destruct (context t !! "fixtures") as [v|]; [|left; reflexivity]. simpl.
  destruct (unpack v) as [args|e]; [|left; reflexivity].
  right. exists args. rewrite call_trace. reflexivity.
Qed.

(** C3.  A test for which [_supports_transactions] returns a false value,
    with the settings located: the first thing [beforeTest] does is the
    [flush] command, at verbosity 0 and non-interactive; the only call that
    can follow it before the test runs is the loading of the declared
    fixtures; transaction management is not entered, the six names keep
    their bindings and nothing is saved on the plugin. *)
Theorem flush_when_not_transactional (E : env) (t : test) (w : world)
    (sp : option string) :
  settings_path (self w) = Some sp ->
  path_truthy sp = true ->
  truthy (_supports_transactions t (settings w)) = false ->
  let w1 := snd (beforeTest E t w) in
  (exists rest,
     trace w1 = trace w ++ flush_command :: rest /\
     (rest = [] \/ exists args, rest = [loaddata_command args]) /\
     Forall (fun ev => is_transaction_event ev = false) rest) /\
  transaction w1 = transaction w /\
  saved_bindings (self w1) = saved_bindings (self w).
Proof.
  intros Hs Hp Hsup w1. subst w1.
  rewrite (beforeTest_steps E t w sp Hs Hp).
  pose proof (isolate_flush E t w Hsup) as Hiso.
  remember (snd (isolate E t w)) as wa eqn:Hwadef.
  assert (Hwa : trace wa = trace w ++ [flush_command] /\
                transaction wa = transaction w /\
                saved_bindings (self wa) = saved_bindings (self w)).
  { rewrite Hiso. destruct w as [p s tx en spth tr]. destruct p. repeat split. }
  clear Hiso. destruct Hwa as (Htr & Htx & Hsv).
  destruct (isolate E t w) as [[[]|e] wa'] eqn:Hi; simpl in Hwadef; subst wa'.
  - rewrite (bind_ok _ _ _ _ _ Hi).
    pose proof (load_fixtures_frame E t wa) as Hf. simpl in Hf.
    destruct Hf as (Hfs & _ & Hft).
    pose proof (load_fixtures_trace E t wa) as Hlt.
    destruct (load_fixtures E t wa) as [[[]|e] wb] eqn:Hlf; simpl in Hfs, Hft, Hlt.
    + rewrite (bind_ok _ _ _ _ _ Hlf).
      pose proof (override_urls_frame E t wb) as Hu. simpl in Hu.
      destruct Hu as (Hut & _ & _ & Hutr & Husv & _).
      rewrite Hut, Hutr, Husv, Hft, Hfs. split; [|auto].
      destruct Hlt as [-> | (args & ->)]; rewrite Htr, <- ?app_assoc; simpl.
      * exists []. repeat split; auto.
      * exists [loaddata_command args]. repeat split; eauto.
    + rewrite (bind_raise _ _ _ _ _ Hlf). simpl. rewrite Hft, Hfs. split; [|auto].
      destruct Hlt as [-> | (args & ->)]; rewrite Htr, <- ?app_assoc; simpl.
      * exists []. repeat split; auto.
      * exists [loaddata_command args]. repeat split; eauto.
  - rewrite (bind_raise _ _ _ _ _ Hi). simpl. split; [|auto].
    rewrite Htr. exists []. repeat split; auto.
Qed.

Lemma flush_when_not_transactional_witness :
  let E := quiet_env "/home/joe/proj" in
  let t := method_test (<["use_transaction" := PyBool false]>
                          (<["fixtures" := PyList [PyStr "users"]]> ∅)) in
  let w1 := snd (beforeTest E t begun_world) in
  (exists rest,
     trace w1 = trace begun_world ++ flush_command :: rest /\
     (rest = [] \/ exists args, rest = [loaddata_command args]) /\
     Forall (fun ev => is_transaction_event ev = false) rest) /\
  transaction w1 = django_tx /\
  saved_bindings (self w1) = [None; None; None; None; None; None].
Proof.
  intros E t.
  apply (flush_when_not_transactional E t begun_world (Some "settings")).
  - reflexivity.
  - reflexivity.
  - vm_compute. reflexivity.
Defined.

(** ** Fixtures *)

Lemma has_declared_true (t : test) (n : string) (v : pyval) :
  is_nose_test t = true -> test_kind t = MethodTestCase ->
  context t !! n = Some v ->
  has_declared t n = true.
Proof.
  intros H1 H2 H3. unfold has_declared, is_method_case. rewrite H1, H2, H3.
  reflexivity.
Qed.

(** C7, as the code has it.  With the settings located and the isolation
    step returned: for a nose test wrapping a [MethodTestCase] whose context
    declares [fixtures] as a list, [beforeTest] issues, right after the
    isolation step, one [loaddata] command whose arguments are the listed
    fixtures in the declared order, at verbosity 0, and makes no other call;
    for a test that is not a nose test wrapping a [MethodTestCase], or that
    declares no fixtures, it issues no command after the isolation step. *)
Theorem fixtures_loaded_for_method_cases (E : env) (t : test) (w : world)
    (sp : option string) :
  settings_path (self w) = Some sp ->
  path_truthy sp = true ->
  fst (isolate E t w) = Ok tt ->
  let w1 := snd (beforeTest E t w) in
  (forall l,
     is_nose_test t = true -> test_kind t = MethodTestCase ->
     context t !! "fixtures" = Some (PyList l) ->
     trace w1 = trace (snd (isolate E t w)) ++ [loaddata_command l]) /\
  (has_declared t "fixtures" = false ->
   trace w1 = trace (snd (isolate E t w))).
Proof.
  intros Hs Hp Hiso w1. subst w1.
  rewrite (beforeTest_steps E t w sp Hs Hp).
  destruct (isolate E t w) as [[[]|e] wa] eqn:Hi; [|discriminate]. clear Hiso.
  rewrite (bind_ok _ _ _ _ _ Hi). simpl.
  assert (Hurls : forall r wb, load_fixtures E t wa = (r, wb) ->
            trace (snd ((load_fixtures E t ;; override_urls E t) wa)) = trace wb).
  { intros [[]|e] wb Hlf.
    - rewrite (bind_ok _ _ _ _ _ Hlf).
      pose proof (override_urls_frame E t wb) as Hu. simpl in Hu. tauto.
    - rewrite (bind_raise _ _ _ _ _ Hlf). reflexivity. }
  split.
  - intros l Hn Hk Hf.
    destruct (load_fixtures E t wa) as [r wb] eqn:Hlf.
    rewrite (Hurls r wb eq_refl).
    unfold load_fixtures in Hlf.
    rewrite (has_declared_true t "fixtures" _ Hn Hk Hf) in Hlf.
    unfold bind, getattr, lift in Hlf. rewrite Hf in Hlf. simpl in Hlf.
    assert (Hwb : wb = snd (call E (CallCommand "loaddata" l [("verbosity", PyInt 0)]) wa))
      by now rewrite Hlf.
    rewrite Hwb, call_trace. reflexivity.
  - intros Hnd.
    destruct (load_fixtures E t wa) as [r wb] eqn:Hlf.
    rewrite (Hurls r wb eq_refl).
    unfold load_fixtures in Hlf. rewrite Hnd in Hlf.
    injection Hlf as _ <-. reflexivity.
Qed.

Lemma fixtures_loaded_for_method_cases_witness :
  let E := quiet_env "/home/joe/proj" in
  let t := method_test (<["fixtures" := PyList [PyStr "a"; PyStr "b"]]> ∅) in
  trace (snd (beforeTest E t begun_world))
  = [Called "enter_transaction_management"; Managed true;
     loaddata_command [PyStr "a"; PyStr "b"]].
Proof.
  intros E t.
  destruct (fixtures_loaded_for_method_cases E t begun_world (Some "settings"))
    as (H & _).
  - reflexivity.
  - reflexivity.
  - vm_compute. reflexivity.
  - rewrite (H [PyStr "a"; PyStr "b"]).
    + vm_compute. reflexivity.
    + reflexivity.
    + reflexivity.
    + vm_compute. reflexivity.
Defined.

(** C7 as stated fails: a test method of a [unittest.TestCase] subclass
    whose class declares two fixtures.  [beforeTest] returns without a
    [loaddata] command. *)
Lemma fixtures_ignored_for_unittest_case :
  let t := unittest_test (<["fixtures" := PyList [PyStr "a"; PyStr "b"]]> ∅) in
  let r := beforeTest (quiet_env "/home/joe/proj") t begun_world in
  context t !! "fixtures" = Some (PyList [PyStr "a"; PyStr "b"]) /\
  fst r = Ok tt /\
  trace (snd r) = [Called "enter_transaction_management"; Managed true] /\
  ~ In (loaddata_command [PyStr "a"; PyStr "b"]) (trace (snd r)).
Proof.
  vm_compute. repeat split.
  intros [H|[H|[]]]; discriminate.
Qed.

(** ** URL configuration *)

(** The defect of [beforeTest]: for a method test case that declares
    [urls], the root is saved and then [self.urls] raises; the override is
    not installed and the caches are not cleared. *)
Lemma override_urls_raises (E : env) (t : test) (w : world) (root : pyval) :
  has_declared t "urls" = true ->
  settings w !! "ROOT_URLCONF" = Some root ->
  override_urls E t w
  = (Raise (AttributeError "urls"), upd_self (set_old_urlconf (Some root)) w).
Proof.
  intros Hd Hr. unfold override_urls. rewrite Hd.
  unfold bind, get, getattr. rewrite Hr. reflexivity.
Qed.

(** [finalize] when no call raises and a URL root was saved: the root is
    written back, and then the unbound name [clear_url_caches] raises. *)
Lemma finalize_with_saved_root (E : env) (w : world) (sp : option string)
    (old root : pyval) :
  settings_path (self w) = Some sp ->
  path_truthy sp = true ->
  old_db (self w) = Some old ->
  old_urlconf (self w) = Some root ->
  (forall ev, raises E ev = None) ->
  finalize E w
  = (Raise (NameError "clear_url_caches"),
     upd_settings (insert "ROOT_URLCONF" root)
       (upd_trace (fun tr => tr ++ [NoseDjango.Rmtree (TEST_MEDIA_ROOT E);
                                    DestroyTestDb old (verbosity (self w));
                                    TeardownTestEnvironment]) w)).
Proof.
  intros Hs Hp Ho Hu Hq.
  unfold finalize, read_self, custom_after, clear_test_media, try_except,
    call, emit, modify, setattr_settings, resolve, bind, get, attr.
  rewrite Hs. simpl. rewrite Hp. simpl. rewrite !Hq. simpl. rewrite Ho. simpl.
  rewrite !Hq. simpl. rewrite Hu.
  destruct w as [p s tx en spth tr]. simpl.
  unfold upd_settings, upd_trace. simpl. rewrite <- !app_assoc. reflexivity.
Qed.

Lemma keeps_urls_bind {A B} (m : M world A) (k : A -> M world B) :
  keeps_urls m -> (forall a, keeps_urls (k a)) -> keeps_urls (bind m k).
Proof.
  intros Hm Hk w. unfold bind. specialize (Hm w).
  destruct (m w) as [[a|e] w1]; simpl in *.
  - specialize (Hk a w1). simpl in Hk.
    destruct Hm as (? & ? & ?), Hk as (? & ? & ?). repeat split; congruence.
  - exact Hm.
Qed.

Lemma keeps_urls_ret {A} (a : A) : keeps_urls (ret a).
Proof. intros w. simpl. auto. Qed.

Lemma keeps_urls_call (E : env) (ev : NoseDjango.event) :
  is_clear_url_caches ev = false -> keeps_urls (call E ev).
Proof.
  intros Hev w. simpl. rewrite call_trace. simpl. repeat split.
  unfold clears. rewrite filter_app. simpl.
  rewrite filter_cons_False by (rewrite Hev; discriminate).
  rewrite filter_nil. apply app_nil_r.
Qed.

Lemma keeps_urls_call_func (E : env) (f : func) : keeps_urls (call_func E f).
Proof. destruct f; [apply keeps_urls_ret | now apply keeps_urls_call]. Qed.

Lemma keeps_urls_read_tx (f : transaction_module -> func) : keeps_urls (read_tx f).
Proof. intros w. simpl. auto. Qed.

Lemma keeps_urls_disable : keeps_urls disable_transaction_support.
Proof.
  intros w. cbv zeta. rewrite disable_transaction_support_spec.
  destruct w as [p s tx en sp tr]. destruct p. simpl. auto.
Qed.

Lemma isolate_unfold (E : env) (t : test) (w : world) :
  isolate E t w
  = (if truthy (_supports_transactions t (settings w)) then
       (let* f := read_tx enter_transaction_management in call_func E f) ;;
       call E (Managed true) ;;
       disable_transaction_support
     else call E flush_command)
      (upd_self (set__managing_transactions
                   (Some (_supports_transactions t (settings w)))) w).
Proof. reflexivity. Qed.

Lemma keeps_urls_isolate (E : env) (t : test) : keeps_urls (isolate E t).
Proof.
  intros w. cbv zeta. rewrite isolate_unfold.
  set (w0 := upd_self _ w).
  assert (H0 : settings w0 = settings w /\
               old_urlconf (self w0) = old_urlconf (self w) /\
               clears (trace w0) = clears (trace w)).
  { subst w0. destruct w as [p s tx en sp tr]. destruct p. simpl. auto. }
  match goal with |- context [snd (?k w0)] => assert (Hk : keeps_urls k) end.
  { destruct (truthy _).
    - repeat first [ apply keeps_urls_read_tx | apply keeps_urls_call_func
                   | apply keeps_urls_disable
                   | apply keeps_urls_call; reflexivity
                   | apply keeps_urls_bind; [|intros ?] ].
    - apply keeps_urls_call. reflexivity. }
  specialize (Hk w0). cbv zeta in Hk.
  destruct H0 as (? & ? & ?), Hk as (? & ? & ?). repeat split; congruence.
Qed.

Lemma keeps_urls_load_fixtures (E : env) (t : test) : keeps_urls (load_fixtures E t).
Proof.
  intros w. cbv zeta.
  unfold load_fixtures. destruct (has_declared t "fixtures"); [|simpl; auto].
  unfold bind, getattr, lift.
  destruct (context t !! "fixtures") as [v|]; [|simpl; auto]. simpl.
  destruct (unpack v) as [args|e]; [|simpl; auto].
  apply (keeps_urls_call E (CallCommand "loaddata" args [("verbosity", PyInt 0)])).
  reflexivity.
Qed.

(** C4, as the code has it by design.  With the settings located and the
    isolation and fixture steps returned: for a nose test wrapping a
    [MethodTestCase] whose context declares [urls], [beforeTest] saves the
    currently configured URL root on the plugin; for any other test it
    leaves the URL configuration, the saved root and the caches alone.  At
    [finalize], when a root was saved and no call raises, the saved root is
    written back to [ROOT_URLCONF]. *)
Theorem url_root_saved_and_reverted (E : env) (t : test) (w : world)
    (sp : option string) :
  settings_path (self w) = Some sp ->
  path_truthy sp = true ->
  fst ((isolate E t ;; load_fixtures E t) w) = Ok tt ->
  let w1 := snd (beforeTest E t w) in
  (forall root,
     has_declared t "urls" = true ->
     settings w !! "ROOT_URLCONF" = Some root ->
     old_urlconf (self w1) = Some root) /\
  (has_declared t "urls" = false ->
   old_urlconf (self w1) = old_urlconf (self w) /\
   settings w1 = settings w /\
   clears (trace w1) = clears (trace w)) /\
  (forall wf spf old root,
     settings_path (self wf) = Some spf ->
     path_truthy spf = true ->
     old_db (self wf) = Some old ->
     old_urlconf (self wf) = Some root ->
     (forall ev, raises E ev = None) ->
     settings (snd (finalize E wf)) !! "ROOT_URLCONF" = Some root).
Proof.
  intros Hs Hp Hok w1. subst w1.
  rewrite (beforeTest_steps E t w sp Hs Hp).
  assert (Hk : keeps_urls (isolate E t ;; load_fixtures E t)).
  { apply keeps_urls_bind; [apply keeps_urls_isolate|].
    intros _. apply keeps_urls_load_fixtures. }
  specialize (Hk w). simpl in Hk. destruct Hk as (Hks & Hko & Hkc).
  assert (Hsplit : (isolate E t ;; load_fixtures E t ;; override_urls E t) w
                   = ((isolate E t ;; load_fixtures E t) ;; override_urls E t) w).
  { unfold bind. destruct (isolate E t w) as [[[]|e] wa]; reflexivity. }
  rewrite Hsplit. clear Hsplit.
  destruct ((isolate E t ;; load_fixtures E t) w) as [[[]|e] wb] eqn:Hb;
    [|discriminate].
  simpl in Hks, Hko, Hkc. rewrite (bind_ok _ _ _ _ _ Hb).
  split; [|split].
  - intros root Hd Hr. rewrite (override_urls_raises E t wb root Hd).
    + destruct wb as [p s tx en spth tr]. destruct p. reflexivity.
    + now rewrite Hks.
  - intros Hd. unfold override_urls. rewrite Hd. simpl. auto.
  - intros wf spf old root Hsf Hpf Ho Hu Hq.
    rewrite (finalize_with_saved_root E wf spf old root Hsf Hpf Ho Hu Hq).
    simpl. apply lookup_insert_eq.
Qed.

Lemma url_root_saved_and_reverted_witness :
  let E := quiet_env "/home/joe/proj" in
  let t := method_test (<["urls" := PyStr "app.test_urls"]> ∅) in
  let w1 := snd (beforeTest E t begun_world) in
  old_urlconf (self w1) = Some (PyStr "proj.urls") /\
  settings (snd (finalize E w1)) !! "ROOT_URLCONF" = Some (PyStr "proj.urls").
Proof.
  intros E t w1.
  destruct (url_root_saved_and_reverted E t begun_world (Some "settings"))
    as (H1 & _ & H3).
  - reflexivity.
  - reflexivity.
  - vm_compute. reflexivity.
  - split.
    + apply H1; vm_compute; reflexivity.
    + apply (H3 w1 (Some "settings") (PyStr "projdb") (PyStr "proj.urls")).
      * vm_compute. reflexivity.
      * reflexivity.
      * vm_compute. reflexivity.
      * vm_compute. reflexivity.
      * intros ev. reflexivity.
Defined.

(** C4 as stated fails: a test method of a [unittest.TestCase] subclass
    whose class declares [urls].  [beforeTest] returns with the URL root
    unchanged, nothing saved and no cache cleared. *)
Lemma urls_ignored_for_unittest_case :
  let t := unittest_test (<["urls" := PyStr "app.test_urls"]> ∅) in
  let r := beforeTest (quiet_env "/home/joe/proj") t begun_world in
  context t !! "urls" = Some (PyStr "app.test_urls") /\
  fst r = Ok tt /\
  settings (snd r) !! "ROOT_URLCONF" = Some (PyStr "proj.urls") /\
  settings (snd r) !! "ROOT_URLCONF" <> Some (PyStr "app.test_urls") /\
  old_urlconf (self (snd r)) = None /\
  clears (trace (snd r)) = [].
Proof. vm_compute. repeat split. discriminate. Qed.

(** ** The live server *)

Section LiveServerFacts.
Import LiveServer.
Variable E : LiveServer.env.
Variable settings : obj.
Hypothesis quiet : forall ev, LiveServer.raises E ev = None.
Hypothesis port_ok :
  is_Some (int_ E (getattr_default settings "LIVE_SERVER_PORT" DEFAULT_LIVE_SERVER_PORT)).

(** Once the server is started, [startTest] does nothing. *)
Lemma startTest_started (t : test) (p : LiveServer.plugin) :
  server_started p = true -> startTest E settings t p = (Ok tt, p).
Proof. intros H. unfold startTest, bind, get. rewrite H. reflexivity. Qed.

(** A test that does not ask for the server leaves the plugin alone. *)
Lemma startTest_not_requested (t : test) (p : LiveServer.plugin) :
  requests_server t = false -> startTest E settings t p = (Ok tt, p).
Proof.
  intros H. unfold startTest, bind, get. unfold requests_server in H. rewrite H.
  rewrite andb_false_r. reflexivity.
Qed.

(** The first test that asks for the server starts it. *)
Lemma startTest_first (t : test) (p : LiveServer.plugin) :
  server_started p = false -> requests_server t = true ->
  exists address port,
    startTest E settings t p
    = (Ok tt,
       set_server_started true
         (add_event Sleep
            (add_event ThreadStart
               (set_httpd_thread (Some tt)
                  (set_httpd (Some (address, port))
                     (add_event (CreateServer address port) p)))))).
Proof.
  intros Hs Hr. unfold startTest, bind, get. unfold requests_server in Hr.
  rewrite Hs, Hr. simpl.
  destruct port_ok as [port Hport]. rewrite Hport. simpl.
  unfold start_server, LiveServer.call, bind, modify. simpl. rewrite !quiet. simpl.
  eexists _, port. reflexivity.
Qed.

Lemma after_tests_cons (t : test) (ts : list test) (p : LiveServer.plugin) :
  after_tests E settings (t :: ts) p
  = after_tests E settings ts (snd (startTest E settings t p)).
Proof. reflexivity. Qed.

Lemma after_tests_counts (ts : list test) (p : LiveServer.plugin) :
  let p' := after_tests E settings ts p in
  let n := if negb (server_started p) && existsb requests_server ts
           then 1 else 0 in
  starts (LiveServer.trace p') = starts (LiveServer.trace p) + n /\
  listening (LiveServer.trace p') = listening (LiveServer.trace p) + n /\
  stops (LiveServer.trace p') = stops (LiveServer.trace p) /\
  server_started p' = server_started p || existsb requests_server ts.
Proof.
  revert p. induction ts as [|t ts IH]; intros p; cbv zeta.
  - simpl. rewrite andb_false_r, orb_false_r. repeat split; lia.
  - rewrite after_tests_cons.
    destruct (server_started p) eqn:Hs.
    + rewrite (startTest_started t p Hs). cbn [snd].
      specialize (IH p). cbv zeta in IH. rewrite Hs in IH. exact IH.
    + destruct (requests_server t) eqn:Hr.
      * destruct (startTest_first t p Hs Hr) as (a & n & ->). cbn [snd].
        match goal with |- context [after_tests E settings ts ?q] =>
          specialize (IH q); set (q0 := q) in * end.
        cbv zeta in IH.
        assert (Hq0 : server_started q0 = true) by reflexivity.
        rewrite Hq0 in IH. cbn [negb andb orb] in IH.
        destruct IH as (I1 & I2 & I3 & I4).
        rewrite I1, I2, I3, I4. cbn [negb andb orb existsb]. rewrite Hr.
        cbn [negb andb orb].
        subst q0. unfold starts, listening, stops. simpl.
        rewrite !filter_app, !length_app. simpl. repeat split; lia.
      * rewrite (startTest_not_requested t p Hr). cbn [snd].
        specialize (IH p). cbv zeta in IH. rewrite Hs in IH.
        cbn [existsb]. rewrite Hr. exact IH.
Qed.

(** A started server has its handle. *)
Lemma after_tests_httpd (ts : list test) (p : LiveServer.plugin) :
  (server_started p = true -> is_Some (httpd p)) ->
  server_started (after_tests E settings ts p) = true ->
  is_Some (httpd (after_tests E settings ts p)).
Proof.
  revert p. induction ts as [|t ts IH]; intros p Hinv Hst.
  - auto.
  - rewrite after_tests_cons in *. apply IH; [|exact Hst].
    destruct (server_started p) eqn:Hs.
    + rewrite (startTest_started t p Hs). cbn [snd]. intros _. now apply Hinv.
    + destruct (requests_server t) eqn:Hr.
      * destruct (startTest_first t p Hs Hr) as (a & n & ->). simpl. eauto.
      * rewrite (startTest_not_requested t p Hr). cbn [snd]. rewrite Hs. discriminate.
Qed.

Lemma finalize_started (p : LiveServer.plugin) :
  server_started p = true -> is_Some (httpd p) ->
  LiveServer.finalize E p
  = (Ok tt, set_server_started false (add_event ServerStop p)).
Proof.
  intros Hs [h Hh].
  unfold LiveServer.finalize, stop_test_server, bind, get, attr, LiveServer.call,
    modify, bind.
  rewrite Hs, Hh. simpl. rewrite quiet. reflexivity.
Qed.

Lemma finalize_not_started (p : LiveServer.plugin) :
  server_started p = false -> LiveServer.finalize E p = (Ok tt, p).
Proof.
  intros Hs. unfold LiveServer.finalize, stop_test_server, bind, get.
  rewrite Hs. reflexivity.
Qed.

End LiveServerFacts.

(** C5.  When starting the server does not raise: over any sequence of
    tests, [start_server] is entered and a server is set listening once if
    some test asks for it and never otherwise; the first test that asks
    starts it and [startTest] does nothing from then on; [finalize] stops
    the server once if it was started and leaves it marked as stopped. *)
Theorem live_server_started_once (E : LiveServer.env) (settings : obj)
    (ts : list test) :
  (forall ev, LiveServer.raises E ev = None) ->
  is_Some (LiveServer.int_ E
             (getattr_default settings "LIVE_SERVER_PORT" DEFAULT_LIVE_SERVER_PORT)) ->
  let p := LiveServer.after_tests E settings ts LiveServer.init in
  let q := snd (LiveServer.finalize E p) in
  let n := if existsb LiveServer.requests_server ts then 1 else 0 in
  LiveServer.starts (LiveServer.trace p) = n /\
  LiveServer.listening (LiveServer.trace p) = n /\
  LiveServer.stops (LiveServer.trace p) = 0 /\
  (forall t p0, LiveServer.server_started p0 = true ->
                LiveServer.startTest E settings t p0 = (Ok tt, p0)) /\
  fst (LiveServer.finalize E p) = Ok tt /\
  LiveServer.starts (LiveServer.trace q) = n /\
  LiveServer.listening (LiveServer.trace q) = n /\
  LiveServer.stops (LiveServer.trace q) = n /\
  LiveServer.server_started q = false.
Proof.
  intros Hq Hport p q n.
  pose proof (after_tests_counts E settings Hq Hport ts LiveServer.init) as H.
  cbv zeta in H. fold p in H.
  change (LiveServer.server_started LiveServer.init) with false in H.
  change (LiveServer.trace LiveServer.init) with (@nil LiveServer.event) in H.
  cbn [negb andb orb] in H. fold n in H.
  change (LiveServer.starts []) with 0 in H.
  change (LiveServer.listening []) with 0 in H.
  change (LiveServer.stops []) with 0 in H.
  destruct H as (H1 & H2 & H3 & H4).
  split; [exact H1|]. split; [exact H2|]. split; [exact H3|].
  split; [intros t p0; apply startTest_started|].
  subst q n. destruct (existsb LiveServer.requests_server ts) eqn:Hex.
  - assert (Hh : is_Some (LiveServer.httpd p)).
    { apply (after_tests_httpd E settings Hq Hport); [discriminate|exact H4]. }
    rewrite (finalize_started E Hq p H4 Hh). cbn [fst snd].
    unfold LiveServer.starts, LiveServer.listening, LiveServer.stops in *.
    simpl. rewrite !filter_app, !length_app. simpl. repeat split; lia.
  - rewrite (finalize_not_started E p H4). cbn [fst snd]. repeat split; assumption.
Qed.

Lemma live_server_started_once_witness :
  let ts := [method_test ∅; live_test "a"; live_test "b"; method_test ∅; live_test "c"] in
  let p := LiveServer.after_tests quiet_server_env ∅ ts LiveServer.init in
  let q := snd (LiveServer.finalize quiet_server_env p) in
  LiveServer.starts (LiveServer.trace p) = 1 /\
  LiveServer.listening (LiveServer.trace p) = 1 /\
  LiveServer.stops (LiveServer.trace q) = 1 /\
  LiveServer.server_started q = false.
Proof.
  intros ts p q.
  destruct (live_server_started_once quiet_server_env ∅ ts)
    as (H1 & H2 & _ & _ & _ & _ & _ & H8 & H9).
  - intros ev. reflexivity.
  - vm_compute. eauto.
  - repeat split; assumption.
Defined.

(** ** The walk of get_settings_path *)

Section WalkFacts.
Variable sys : system.
Variable file : string.

Lemma ancestor_S (k : nat) (cwd : string) :
  ancestor sys (S k) cwd = ancestor sys k (os_path_split_head sys cwd).
Proof. unfold ancestor. now rewrite Nat.iter_succ_r. Qed.

(** A directory returned by the walk is the nearest one, going up from the
    start, that holds the file. *)
Lemma walk_found (fuel : nat) (cwd d : string) :
  walk sys file fuel cwd = Some (Ok (Some d)) ->
  d <> "" ->
  exists k,
    d = ancestor sys k cwd /\
    holds sys d file /\
    forall j, j < k -> lacks sys (ancestor sys j cwd) file.
Proof.
  revert cwd. induction fuel as [|fuel IH]; intros cwd Hw Hd; [discriminate|].
  simpl in Hw.
  destruct (String.eqb_spec cwd "") as [Hc|Hne].
  { injection Hw as <-. contradiction. }
  destruct (os_listdir sys cwd) as [names|] eqn:Hl; [|discriminate].
  destruct (bool_decide (file ∈ names)) eqn:Hin.
  - injection Hw as <-. exists 0. split; [reflexivity|]. split.
    + exists names. split; [exact Hl|]. now apply bool_decide_eq_true in Hin.
    + intros j Hj. lia.
  - destruct (String.eqb (os_name sys) "nt" && NT_ROOT_match (os_path_split_head sys cwd));
      [discriminate|].
    destruct (String.eqb (os_path_split_head sys cwd) "/"); [discriminate|].
    destruct (IH _ Hw Hd) as (k & Hk & Hh & Hlack).
    exists (S k). rewrite ancestor_S. split; [exact Hk|]. split; [exact Hh|].
    intros [|j] Hj.
    + exists names. split; [exact Hl|]. now apply bool_decide_eq_false in Hin.
    + rewrite ancestor_S. apply Hlack. lia.
Qed.

(** When the walk returns [None] it has reached a root, and no directory
    below that root, from the start upward, holds the file. *)
Lemma walk_gives_up (fuel : nat) (cwd : string) :
  walk sys file fuel cwd = Some (Ok None) ->
  exists k,
    is_root sys (ancestor sys (S k) cwd) /\
    forall j, j <= k -> lacks sys (ancestor sys j cwd) file.
Proof.
  revert cwd. induction fuel as [|fuel IH]; intros cwd Hw; [discriminate|].
  simpl in Hw.
  destruct (String.eqb_spec cwd "") as [Hc|Hne]; [discriminate|].
  destruct (os_listdir sys cwd) as [names|] eqn:Hl; [|discriminate].
  destruct (bool_decide (file ∈ names)) eqn:Hin; [discriminate|].
  apply bool_decide_eq_false in Hin.
  assert (Hhere : lacks sys (ancestor sys 0 cwd) file) by (exists names; auto).
  destruct (String.eqb (os_name sys) "nt" && NT_ROOT_match (os_path_split_head sys cwd))
    eqn:Hnt.
  { exists 0. split.
    - right. apply andb_prop in Hnt as [Hn Hm].
      split; [now apply String.eqb_eq|exact Hm].
    - intros j Hj. replace j with 0 by lia. exact Hhere. }
  destruct (String.eqb_spec (os_path_split_head sys cwd) "/") as [Hroot|Hnr].
  { exists 0. split; [left; exact Hroot|].
    intros j Hj. replace j with 0 by lia. exact Hhere. }
  destruct (IH _ Hw) as (k & Hk & Hlack).
  exists (S k). split.
  - rewrite ancestor_S. exact Hk.
  - intros [|j] Hj; [exact Hhere|]. rewrite ancestor_S. apply Hlack. lia.
Qed.

End WalkFacts.

(** ** posixpath.split and the end of the walk *)

Lemma drop_while_suffix {A} (f : A -> bool) (l : list A) :
  exists pre, l = pre ++ drop_while f l.
Proof.
  induction l as [|x l IH]; simpl.
  - exists []. reflexivity.
  - destruct (f x).
    + destruct IH as [pre IH]. exists (x :: pre). simpl. now rewrite <- IH.
    + exists []. reflexivity.
Qed.

Lemma drop_while_head {A} (f : A -> bool) (l : list A) (x : A) (r : list A) :
  drop_while f l = x :: r -> f x = false.
Proof.
  induction l as [|y l IH]; simpl; [discriminate|].
  destruct (f y) eqn:Hy; [exact IH|]. intros [= -> _]. exact Hy.
Qed.

Lemma double_slash_prefix (h rest : list ascii) :
  double_slash h = true -> double_slash (h ++ rest) = true.
Proof. destruct h as [|c1 [|c2 h]]; simpl; try discriminate. auto. Qed.

Lemma all_slashes_prefix (h rest : list ascii) :
  forallb is_slash h = true -> double_slash (h ++ rest) = false -> length h <= 1.
Proof.
  destruct h as [|c1 [|c2 h]]; simpl; try lia.
  intros Ha Hd. apply andb_prop in Ha as [H1 Ha]. apply andb_prop in Ha as [H2 _].
  rewrite H1, H2 in Hd. discriminate.
Qed.

(** Going up from a path that does not begin with two slashes gives the
    root, or a shorter path that does not begin with two slashes. *)
Lemma posix_head_chars_shorter (p : list ascii) :
  p <> [] ->
  double_slash p = false ->
  let h := posix_head_chars p in
  length h < length p /\ double_slash h = false \/ h = ["/"%char].
Proof.
  intros Hne Hds. cbv zeta. unfold posix_head_chars.
  destruct (drop_while_suffix (fun c => negb (is_slash c)) (rev p)) as [pre Hpre].
  set (hr := drop_while (fun c => negb (is_slash c)) (rev p)) in *.
  assert (Hp : p = rev hr ++ rev pre).
  { rewrite <- (rev_involutive p), Hpre, rev_app_distr. reflexivity. }
  destruct (forallb is_slash hr) eqn:Hall.
  - assert (Hall' : forallb is_slash (rev hr) = true).
    { rewrite forallb_forall in *. intros x Hx. apply Hall. now apply in_rev. }
    assert (Hlen : length (rev hr) <= 1).
    { apply (all_slashes_prefix _ (rev pre) Hall'). now rewrite <- Hp. }
    destruct (rev hr) as [|c [|c2 l]] eqn:Hr; simpl in Hlen; try lia.
    + left. split; [|reflexivity]. destruct p; [contradiction|simpl; lia].
    + right. simpl in Hall'. rewrite andb_true_r in Hall'.
      unfold is_slash in Hall'. apply Ascii.eqb_eq in Hall'. now subst c.
  - left.
    destruct (drop_while_suffix is_slash hr) as [pre2 Hpre2].
    set (dw := drop_while is_slash hr) in *.
    assert (Hp2 : p = rev dw ++ rev pre2 ++ rev pre).
    { rewrite Hp. rewrite Hpre2 at 1. rewrite rev_app_distr, <- app_assoc. reflexivity. }
    assert (Hpre2ne : pre2 <> []).
    { intros ->. simpl in Hpre2.
      destruct hr as [|x r] eqn:Hhr; [simpl in Hall; discriminate|].
      assert (Hx : negb (is_slash x) = false)
        by exact (drop_while_head (fun c => negb (is_slash c)) (rev p) x r Hhr).
      apply negb_false_iff in Hx.
      subst dw. simpl in Hpre2. rewrite Hx in Hpre2.
      assert (Hl : length (x :: r) = length (drop_while is_slash r)) by now rewrite Hpre2 at 1.
      destruct (drop_while_suffix is_slash r) as [pre3 Hpre3].
      rewrite Hpre3 in Hl at 1. simpl in Hl. rewrite length_app in Hl. lia. }
    split.
    + pose proof (f_equal (@length ascii) Hp2) as Hl.
      rewrite !length_app, !length_rev in Hl. rewrite length_rev.
      destruct pre2; [contradiction|simpl in Hl; lia].
    + destruct (double_slash (rev dw)) eqn:Hd; [|reflexivity].
      apply (double_slash_prefix _ (rev pre2 ++ rev pre)) in Hd.
      rewrite <- Hp2 in Hd. congruence.
Qed.

Lemma length_string_of_list_ascii (l : list ascii) :
  String.length (string_of_list_ascii l) = length l.
Proof. induction l; simpl; congruence. Qed.

Lemma length_list_ascii_of_string (s : string) :
  length (list_ascii_of_string s) = String.length s.
Proof. induction s; simpl; congruence. Qed.

(** On a system whose [os.path.split] is [posixpath.split], the walk from a
    path that does not begin with two slashes ends within as many steps as
    the path has characters, plus one. *)
Lemma walk_terminates (sys : system) (file : string) (fuel : nat) (cwd : string) :
  os_path_split_head sys = posix_split_head ->
  double_slash (list_ascii_of_string cwd) = false ->
  String.length cwd < fuel ->
  walk sys file fuel cwd <> None.
Proof.
  intros Hsplit. revert cwd. induction fuel as [|fuel IH]; intros cwd Hds Hlen; [lia|].
  simpl.
  destruct (String.eqb_spec cwd "") as [Hc|Hne]; [discriminate|].
  destruct (os_listdir sys cwd) as [names|]; [|discriminate].
  destruct (bool_decide (file ∈ names)); [discriminate|].
  destruct (String.eqb (os_name sys) "nt" && NT_ROOT_match (os_path_split_head sys cwd));
    [discriminate|].
  destruct (String.eqb_spec (os_path_split_head sys cwd) "/") as [Hroot|Hnr];
    [discriminate|].
  apply IH; rewrite Hsplit in *; unfold posix_split_head in *.
  - rewrite list_ascii_of_string_of_list_ascii.
    destruct (posix_head_chars_shorter (list_ascii_of_string cwd)) as [[_ H]|H].
    + destruct cwd; [contradiction|discriminate].
    + exact Hds.
    + exact H.
    + rewrite H. reflexivity.
  - rewrite length_string_of_list_ascii.
    destruct (posix_head_chars_shorter (list_ascii_of_string cwd)) as [[H _]|H].
    + destruct cwd; [contradiction|discriminate].
    + exact Hds.
    + rewrite length_list_ascii_of_string in H. lia.
    + rewrite H in Hnr. contradiction.
Qed.

(** ** begin *)

Section BeginFacts.
Variable E : env.
Hypothesis add_quiet : forall p, raises E (AddPath p) = None.

Lemma for_each_add_path (ps : list string) (w : world) :
  for_each (do_add_path E) ps w = (Ok tt, with_paths E ps w).
Proof.
  revert w. induction ps as [|p ps IH]; intros w; [reflexivity|].
  simpl. unfold bind at 1. unfold do_add_path at 1, bind at 1.
  rewrite call_quiet by apply add_quiet. unfold modify at 1. apply IH.
Qed.

Lemma with_paths_self (ps : list string) (w : world) :
  self (with_paths E ps w) = self w.
Proof. revert w. induction ps as [|p ps IH]; intros w; [reflexivity|]. simpl. now rewrite IH. Qed.

(** The first part of [begin] when the import raises [ImportError]. *)
Lemma begin_import_failed (w : world) :
  raises E (ImportModule (settings_module (self w))) = Some ImportError ->
  begin_import E w = (Ok false, import_failed E w).
Proof.
  intros Himp. unfold begin_import, import_failed, before_import.
  unfold bind at 1. unfold get at 1. unfold bind at 1. unfold modify at 1.
  unfold bind at 1.
  destruct (addPaths (conf (self w))).
  - rewrite for_each_add_path. unfold try_except, bind, call, emit, modify. simpl.
    rewrite Himp. reflexivity.
  - unfold try_except, bind, call, emit, modify, ret. simpl.
    rewrite Himp. reflexivity.
Qed.

End BeginFacts.

Lemma keeps_path_bind {A B} (m : M world A) (k : A -> M world B) :
  keeps_path m -> (forall a, keeps_path (k a)) -> keeps_path (bind m k).
Proof.
  intros Hm Hk w. unfold bind. specialize (Hm w).
  destruct (m w) as [[a|e] w1]; simpl in *.
  - specialize (Hk a w1). simpl in Hk.
    destruct Hm as (? & ?), Hk as (? & ?). split; congruence.
  - exact Hm.
Qed.

Lemma keeps_path_try {A} (m h : M world A) (handles : exn -> bool) :
  keeps_path m -> keeps_path h -> keeps_path (try_except m handles h).
Proof.
  intros Hm Hh w. unfold try_except. specialize (Hm w).
  destruct (m w) as [[a|e] w1]; simpl in *; [exact Hm|].
  destruct (handles e); [|exact Hm].
  specialize (Hh w1). simpl in Hh.
  destruct Hm as (? & ?), Hh as (? & ?). split; congruence.
Qed.

Lemma keeps_path_ret {A} (a : A) : keeps_path (ret a).
Proof. intros w. simpl. auto. Qed.

Lemma keeps_path_get : keeps_path get.
Proof. intros w. simpl. auto. Qed.

Lemma keeps_path_call (E : env) (ev : NoseDjango.event) : keeps_path (call E ev).
Proof. intros w. cbv zeta. rewrite call_trace. simpl. auto. Qed.

Lemma keeps_path_setattr (n : string) (v : pyval) : keeps_path (setattr_settings n v).
Proof. intros w. simpl. auto. Qed.

Lemma keeps_path_environ (f : gmap string string -> gmap string string) :
  keeps_path (modify (upd_environ f)).
Proof. intros w. simpl. auto. Qed.

Lemma keeps_path_getattr (o : obj) (n : string) : keeps_path (getattr o n).
Proof. intros w. unfold getattr. destruct (o !! n); simpl; auto. Qed.

Lemma keeps_path_old_db (v : option pyval) : keeps_path (set_self (set_old_db v)).
Proof. intros w. destruct w as [p s tx en sp tr]. destruct p. simpl. auto. Qed.

(** The second part of [begin] leaves [sys.path] and [settings_path] alone. *)
Lemma keeps_path_begin_setup (E : env) : keeps_path (begin_setup E).
Proof.
  unfold begin_setup, custom_before.
  apply keeps_path_bind; [apply keeps_path_get|]. intros w0.
  destruct (_use_sqlite (self w0)), (path_truthy (_xvfb_headless (self w0)));
    repeat first [ apply keeps_path_ret | apply keeps_path_get
                 | apply keeps_path_call | apply keeps_path_setattr
                 | apply keeps_path_environ | apply keeps_path_getattr
                 | apply keeps_path_old_db
                 | apply keeps_path_try
                 | apply keeps_path_bind; [|intros ?] ].
Qed.

(** C6.  When the paths of the configuration are added without error and
    the import of the settings module raises [ImportError]:
    - a directory returned by [get_settings_path] is the nearest one, going
      up from the working directory, that has an entry named after the last
      dotted component of the module name with [.py] appended; [begin] then
      hands it to nose's [add_path] and appends it to [sys.path], so that
      it is first on the path whenever [add_path] puts it there;
    - when [get_settings_path] returns [None] it has reached the root (or a
      drive root on Windows) without finding the file;
    - when it returns nothing usable, [begin] raises [RuntimeError] right
      there: no call is made after the failed import, so no test database
      is created;
    - with [posixpath.split] and a working directory that does not begin
      with two slashes, the walk ends within [length cwd + 1] iterations. *)
Theorem settings_located_or_fatal (E : env) (w : world) (fuel : nat) :
  (forall p, raises E (AddPath p) = None) ->
  raises E (ImportModule (settings_module (self w))) = Some ImportError ->
  let m := settings_module (self w) in
  let file := settings_filename m in
  let cwd := os_getcwd (sys E) in
  let w0 := import_failed E w in
  (forall d,
     get_settings_path (sys E) fuel m = Some (Ok (Some d)) -> d <> "" ->
     (exists k, d = ancestor (sys E) k cwd /\ holds (sys E) d file /\
                forall j, j < k -> lacks (sys E) (ancestor (sys E) j cwd) file) /\
     exists r w',
       begin E fuel w = Some (r, w') /\
       settings_path (self w') = Some (Some d) /\
       sys_path w' = add_path E d (sys_path w0) ++ [d] /\
       (add_path E d (sys_path w0) = d :: sys_path w0 ->
        sys_path w' = d :: sys_path w0 ++ [d])) /\
  (get_settings_path (sys E) fuel m = Some (Ok None) ->
   exists k, is_root (sys E) (ancestor (sys E) (S k) cwd) /\
             forall j, j <= k -> lacks (sys E) (ancestor (sys E) j cwd) file) /\
  (forall found,
     get_settings_path (sys E) fuel m = Some (Ok found) ->
     path_truthy found = false ->
     begin E fuel w
     = Some (Raise (RuntimeError "Can't find Django settings file!"),
             upd_self (set_settings_path (Some found)) w0)) /\
  (os_path_split_head (sys E) = posix_split_head ->
   double_slash (list_ascii_of_string cwd) = false ->
   String.length cwd < fuel ->
   get_settings_path (sys E) fuel m <> None).
Proof.
  intros Hadd Himp m file cwd w0.
  assert (Hself : settings_module (self w0) = m).
  { subst w0 m. unfold import_failed, before_import. simpl.
    destruct (addPaths (conf (self w))); [now rewrite with_paths_self|reflexivity]. }
  assert (Hbegin : forall found,
            get_settings_path (sys E) fuel m = Some (Ok found) ->
            begin E fuel w = Some ((begin_crawl E found ;; begin_setup E) w0)).
  { intros found Hg. unfold begin.
    rewrite (begin_import_failed E Hadd w Himp). fold w0. rewrite Hself, Hg.
    reflexivity. }
  clearbody w0.
  split; [|split; [|split]].
  - intros d Hg Hd. split.
    + apply (walk_found (sys E) file fuel cwd d Hg Hd).
    + rewrite (Hbegin _ Hg).
      assert (Hp : path_truthy (Some d) = true).
      { simpl. destruct (String.eqb_spec d ""); [contradiction|reflexivity]. }
      set (w1 := upd_sys_path (fun l => l ++ [d])
                   (upd_sys_path (add_path E d)
                      (upd_trace (fun tr => tr ++ [AddPath d])
                         (upd_self (set_settings_path (Some (Some d))) w0)))).
      assert (Hc : begin_crawl E (Some d) w0 = (Ok tt, w1)).
      { unfold begin_crawl. rewrite Hp. simpl.
        unfold bind at 1. unfold set_self at 1, modify at 1.
        unfold bind at 1. unfold do_add_path, bind at 1.
        rewrite call_quiet by apply Hadd. reflexivity. }
      rewrite (bind_ok _ _ _ _ _ Hc).
      destruct (begin_setup E w1) as [r w'] eqn:Hsetup.
      exists r, w'. split; [reflexivity|].
      pose proof (keeps_path_begin_setup E w1) as Hk. cbv zeta in Hk.
      rewrite Hsetup in Hk. simpl in Hk. destruct Hk as (-> & ->).
      subst w1. destruct w0 as [p s tx en sp tr]. destruct p. simpl.
      split; [reflexivity|]. split; [reflexivity|]. intros ->. reflexivity.
  - intros Hg. apply (walk_gives_up (sys E) file fuel cwd Hg).
  - intros found Hg Hf. rewrite (Hbegin _ Hg).
    unfold bind at 1. unfold begin_crawl.
    unfold bind at 1. unfold set_self at 1, modify at 1.
    destruct found as [d|]; [|reflexivity].
    rewrite Hf. reflexivity.
  - intros Hsplit Hds Hlen. apply walk_terminates; assumption.
Qed.

Lemma settings_located_or_fatal_witness :
  let E := no_import_env "/home/joe/proj/app" in
  (exists r w',
     begin E 19 fresh_world = Some (r, w') /\
     settings_path (self w') = Some (Some "/home/joe/proj") /\
     sys_path w' = ["/home/joe/proj"; "/home/joe/proj"; "/usr/lib/python2.6";
                    "/home/joe/proj"]) /\
  begin (no_import_env "/srv/www") 9 fresh_world
  = Some (Raise (RuntimeError "Can't find Django settings file!"),
          upd_self (set_settings_path (Some None))
            (import_failed (no_import_env "/srv/www") fresh_world)).
Proof.
  intros E. split.
  - destruct (settings_located_or_fatal E fresh_world 19) as (H & _).
    + intros p. reflexivity.
    + reflexivity.
    + destruct (H "/home/joe/proj") as (_ & r & w' & Hb & Hs & Hp & _).
      * vm_compute. reflexivity.
      * discriminate.
      * exists r, w'. split; [exact Hb|]. split; [exact Hs|]. exact Hp.
  - destruct (settings_located_or_fatal (no_import_env "/srv/www") fresh_world 9)
      as (_ & _ & H & _).
    + intros p. reflexivity.
    + reflexivity.
    + apply (H None).
      * vm_compute. reflexivity.
      * reflexivity.
Defined.

Lemma sphinx_failures_reported_witness :
  let p := snd (Sphinx.configure failing_tools (Some "sphinx.conf.tpl") Sphinx.new) in
  (exists p',
     Sphinx._build_sphinx_index failing_tools "/tmp/tmpQ3xk/sphinx.conf" p = (Ok tt, p') /\
     Sphinx.printed (Sphinx.trace p')
     = ["Sphinx Indexing Problem"; "stdout: indexing index 'docs'...";
        "stderr: ERROR: index 'docs': sql_connect failed"]) /\
  (exists p',
     Sphinx._start_searchd failing_tools "/tmp/tmpQ3xk/sphinx.conf" p = (Ok tt, p') /\
     Sphinx.printed (Sphinx.trace p')
     = ["Sphinx Search unavailable. searchd exited with code: 1";
        "stdout: listening on all interfaces"; "stderr: FATAL: bind() failed"]).
Proof.
  intros p.
  destruct (sphinx_failures_reported failing_tools p "/tmp/tmpQ3xk/sphinx.conf"
              {| Sphinx.exit_status := 1; Sphinx.poll_now := None;
                 Sphinx.out := "indexing index 'docs'...";
                 Sphinx.err := "ERROR: index 'docs': sql_connect failed";
                 Sphinx.pid := 4101 |}) as (H1 & _).
  destruct (sphinx_failures_reported failing_tools p "/tmp/tmpQ3xk/sphinx.conf"
              {| Sphinx.exit_status := 1; Sphinx.poll_now := Some 1%Z;
                 Sphinx.out := "listening on all interfaces";
                 Sphinx.err := "FATAL: bind() failed";
                 Sphinx.pid := 4102 |}) as (_ & H2).
  split.
  - destruct H1 as (p' & Hr & Hp); [reflexivity|discriminate|].
    exists p'. split; [exact Hr|exact Hp].
  - destruct (H2 45798%Z 1%Z) as (p' & Hr & _ & Hp);
      [reflexivity|vm_compute; reflexivity|reflexivity|].
    exists p'. split; [exact Hr|]. rewrite Hp. vm_compute. reflexivity.
Defined.

(** * Further properties *)

(** ** NoseDjango: patching, restoring and the hooks around a test *)

(** X2.  Patching twice without restoring in between loses the originals: the
    second save records [_dummy], and restoring then binds the six names to
    [_dummy]. *)
Theorem double_patch_loses_originals (w : world) :
  let w2 := snd (disable_transaction_support (snd (disable_transaction_support w))) in
  originals (self w2) = Some patched /\
  transaction (snd (restore_transaction_support w2)) = patched.
Proof.
  cbv zeta. rewrite !disable_transaction_support_spec. cbn [snd].
  assert (Ho : originals
                 (self (upd_transaction (fun _ => patched)
                          (upd_self (save_originals
                             (transaction (upd_transaction (fun _ => patched)
                                (upd_self (save_originals (transaction w)) w))))
                             (upd_transaction (fun _ => patched)
                                (upd_self (save_originals (transaction w)) w)))))
               = Some patched).
  { simpl. apply originals_save_originals. }
  split; [exact Ho|].
  rewrite (restore_transaction_support_spec _ patched Ho). reflexivity.
Qed.

Lemma keeps_path_set_self (f : plugin -> plugin) :
  (forall p, settings_path (f p) = settings_path p) ->
  keeps_path (set_self f).
Proof. intros Hf w. simpl. auto. Qed.

Lemma keeps_path_read_tx (f : transaction_module -> func) : keeps_path (read_tx f).
Proof. intros w. simpl. auto. Qed.

Lemma keeps_path_call_func (E : env) (f : func) : keeps_path (call_func E f).
Proof. destruct f; [apply keeps_path_ret | apply keeps_path_call]. Qed.

Lemma keeps_path_disable : keeps_path disable_transaction_support.
Proof.
  intros w. cbv zeta. rewrite disable_transaction_support_spec.
  destruct w as [p s tx en sp tr]. destruct p. simpl. auto.
Qed.

Lemma keeps_path_isolate (E : env) (t : test) : keeps_path (isolate E t).
Proof.
  intros w. cbv zeta. rewrite isolate_unfold.
  set (w0 := upd_self _ w).
  assert (H0 : sys_path w0 = sys_path w /\
               settings_path (self w0) = settings_path (self w)).
  { subst w0. destruct w as [p s tx en sp tr]. destruct p. simpl. auto. }
  match goal with |- context [snd (?k w0)] => assert (Hk : keeps_path k) end.
  { destruct (truthy _).
    - repeat first [ apply keeps_path_read_tx | apply keeps_path_call_func
                   | apply keeps_path_disable | apply keeps_path_call
                   | apply keeps_path_bind; [|intros ?] ].
    - apply keeps_path_call. }
  specialize (Hk w0). cbv zeta in Hk.
  destruct H0 as (? & ?), Hk as (? & ?). split; congruence.
Qed.

Lemma keeps_path_load_fixtures (E : env) (t : test) : keeps_path (load_fixtures E t).
Proof.
  intros w. cbv zeta.
  destruct (load_fixtures_frame E t w) as (Hs & _ & _).
  unfold load_fixtures in *. destruct (has_declared t "fixtures"); [|simpl; auto].
  unfold bind, getattr, lift in *.
  destruct (context t !! "fixtures") as [v|]; [|simpl; auto]. simpl in *.
  destruct (unpack v) as [args|e]; [|simpl; auto].
  rewrite call_trace in *. simpl. auto.
Qed.

Lemma keeps_path_override_urls (E : env) (t : test) : keeps_path (override_urls E t).
Proof.
  intros w. cbv zeta.
  unfold override_urls. destruct (has_declared t "urls"); [|simpl; auto].
  unfold bind, getattr, get. simpl.
  destruct (settings w !! "ROOT_URLCONF") as [v|]; [|simpl; auto]. simpl.
  destruct w as [p s tx en sp tr]. destruct p. simpl. auto.
Qed.

(** [beforeTest] never changes where the settings were found. *)
Lemma beforeTest_keeps_located (E : env) (t : test) (w : world) :
  settings_path (self (snd (beforeTest E t w))) = settings_path (self w).
Proof.
  unfold beforeTest, read_self.
  destruct (settings_path (self w)) as [sp|] eqn:Hs.
  - assert (Hread : (let* w0 := get in attr "settings_path" (settings_path (self w0))) w
                    = (Ok sp, w)).
    { unfold bind, get, attr. rewrite Hs. reflexivity. }
    rewrite (bind_ok _ _ _ _ _ Hread).
    destruct (path_truthy sp); simpl; [|exact Hs].
    assert (Hk : keeps_path (isolate E t ;; load_fixtures E t ;; override_urls E t)).
    { apply keeps_path_bind; [apply keeps_path_isolate|]. intros _.
      apply keeps_path_bind; [apply keeps_path_load_fixtures|]. intros _.
      apply keeps_path_override_urls. }
    destruct (Hk w) as (_ & ->). exact Hs.
  - assert (Hread : (let* w0 := get in attr "settings_path" (settings_path (self w0))) w
                    = (Raise (AttributeError "settings_path"), w)).
    { unfold bind, get, attr. rewrite Hs. reflexivity. }
    rewrite (bind_raise _ _ _ _ _ Hread). exact Hs.
Qed.

(** What [beforeTest] leaves behind for a test that supports transactions. *)
Lemma beforeTest_transactional (E : env) (t : test) (w : world) (sp : option string) :
  settings_path (self w) = Some sp ->
  path_truthy sp = true ->
  truthy (_supports_transactions t (settings w)) = true ->
  (forall n, raises E (Called n) = None) ->
  raises E (Managed true) = None ->
  let w1 := snd (beforeTest E t w) in
  transaction w1 = patched /\
  originals (self w1) = Some (transaction w) /\
  _managing_transactions (self w1) = Some (_supports_transactions t (settings w)).
Proof.
  intros Hs Hp Hsup Hc Hm. cbv zeta.
  rewrite (beforeTest_steps E t w sp Hs Hp).
  destruct (isolate_transactional E t w Hsup Hc Hm)
    as (wa & Hiso & Hta & Hoa & Hma & _).
  rewrite (bind_ok _ _ _ _ _ Hiso).
  pose proof (load_fixtures_frame E t wa) as Hf. simpl in Hf.
  destruct Hf as (Hfs & _ & Hft).
  destruct (load_fixtures E t wa) as [[[]|e] wb] eqn:Hlf; simpl in Hfs, Hft.
  - rewrite (bind_ok _ _ _ _ _ Hlf).
    pose proof (override_urls_frame E t wb) as Hu. simpl in Hu.
    destruct Hu as (Hut & Huo & Hum & _).
    rewrite Hut, Huo, Hum, Hfs, Hft. auto.
  - rewrite (bind_raise _ _ _ _ _ Hlf). simpl. rewrite Hfs, Hft. auto.
Qed.

(** What [beforeTest] leaves behind for a test that does not. *)
Lemma beforeTest_flushing (E : env) (t : test) (w : world) (sp : option string) :
  settings_path (self w) = Some sp ->
  path_truthy sp = true ->
  truthy (_supports_transactions t (settings w)) = false ->
  let w1 := snd (beforeTest E t w) in
  transaction w1 = transaction w /\
  _managing_transactions (self w1) = Some (_supports_transactions t (settings w)).
Proof.
  intros Hs Hp Hsup. cbv zeta.
  rewrite (beforeTest_steps E t w sp Hs Hp).
  pose proof (isolate_flush E t w Hsup) as Hiso.
  remember (snd (isolate E t w)) as wa eqn:Hwadef.
  assert (Hwa : transaction wa = transaction w /\
                _managing_transactions (self wa)
                = Some (_supports_transactions t (settings w))).
  { rewrite Hiso. destruct w as [p s tx en spth tr]. destruct p. split; reflexivity. }
  clear Hiso. destruct Hwa as (Htx & Hmg).
  destruct (isolate E t w) as [[[]|e] wa'] eqn:Hi; simpl in Hwadef; subst wa'.
  - rewrite (bind_ok _ _ _ _ _ Hi).
    pose proof (load_fixtures_frame E t wa) as Hf. simpl in Hf.
    destruct Hf as (Hfs & _ & Hft).
    destruct (load_fixtures E t wa) as [[[]|e] wb] eqn:Hlf; simpl in Hfs, Hft.
    + rewrite (bind_ok _ _ _ _ _ Hlf).
      pose proof (override_urls_frame E t wb) as Hu. simpl in Hu.
      destruct Hu as (Hut & _ & Hum & _).
      rewrite Hut, Hum, Hfs, Hft. auto.
    + rewrite (bind_raise _ _ _ _ _ Hlf). simpl. rewrite Hfs, Hft. auto.
  - rewrite (bind_raise _ _ _ _ _ Hi). simpl. auto.
Qed.

(** X3.  For a test without transactional isolation [afterTest] undoes nothing
    and calls nothing: the world is as [beforeTest] left it. *)
Theorem afterTest_after_flush_is_noop (Eb Ea : env) (t : test) (w : world)
    (sp : option string) :
  settings_path (self w) = Some sp ->
  path_truthy sp = true ->
  truthy (_supports_transactions t (settings w)) = false ->
  afterTest Ea t (snd (beforeTest Eb t w)) = (Ok tt, snd (beforeTest Eb t w)).
Proof.
  intros Hs Hp Hsup.
  destruct (beforeTest_flushing Eb t w sp Hs Hp Hsup) as (_ & Hm).
  exact (afterTest_not_managing Ea t _ _ Hm Hsup).
Qed.

Lemma afterTest_after_flush_is_noop_witness :
  let E := quiet_env "/home/joe/proj" in
  let t := method_test (<["use_transaction" := PyBool false]> ∅) in
  afterTest E t (snd (beforeTest E t begun_world))
  = (Ok tt, snd (beforeTest E t begun_world)).
Proof.
  intros E t.
  apply (afterTest_after_flush_is_noop E E t begun_world (Some "settings")).
  - reflexivity.
  - reflexivity.
  - vm_compute. reflexivity.
Defined.

Lemma call_func_quiet (E : env) (f : func) (w : world) :
  (forall ev, raises E ev = None) ->
  call_func E f w = (Ok tt, snd (call_func E f w)) /\
  trace (snd (call_func E f w)) = trace w ++ events_of f /\
  self (snd (call_func E f w)) = self w /\
  transaction (snd (call_func E f w)) = transaction w /\
  settings (snd (call_func E f w)) = settings w.
Proof.
  intros Hq. destruct f as [|n]; simpl.
  - rewrite app_nil_r. auto.
  - rewrite call_quiet by apply Hq. simpl. auto.
Qed.

(** X4.  When no call raises, [afterTest] of an isolated test first puts the
    saved bindings back and then calls [rollback], [is_managed], [leave]
    (only if still managed) and [connection.close()], in that order; the
    rollback and the leave go through the restored bindings, so they reach
    Django's functions and not [_dummy]. *)
Theorem afterTest_calls_restored (E : env) (t : test) (w : world) (m : pyval)
    (tx : transaction_module) :
  _managing_transactions (self w) = Some m ->
  truthy m = true ->
  originals (self w) = Some tx ->
  (forall ev, raises E ev = None) ->
  let w' := snd (afterTest E t w) in
  fst (afterTest E t w) = Ok tt /\
  transaction w' = tx /\
  self w' = self w /\
  trace w' = trace w ++ events_of (rollback tx) ++ [IsManaged]
             ++ (if is_managed E then events_of (leave_transaction_management tx) else [])
             ++ [ConnectionClose].
Proof.
  intros Hm Ht Ho Hq. cbv zeta.
  assert (Hread : (let* w0 := get
                   in attr "_managing_transactions" (_managing_transactions (self w0))) w
                  = (Ok m, w)).
  { unfold bind, get, attr. rewrite Hm. reflexivity. }
  unfold afterTest, read_self. rewrite (bind_ok _ _ _ _ _ Hread). rewrite Ht.
  rewrite (bind_ok _ _ _ _ _ (restore_transaction_support_spec w tx Ho)).
  set (w1 := upd_transaction (fun _ => tx) w).
  destruct (call_func_quiet E (rollback tx) w1 Hq) as (Hr & Hrt & Hrs & Hrx & _).
  set (w2 := snd (call_func E (rollback tx) w1)) in *.
  assert (Hroll : (let* f := read_tx rollback in call_func E f) w1 = (Ok tt, w2)).
  { unfold bind, read_tx, get, ret. simpl. exact Hr. }
  rewrite (bind_ok _ _ _ _ _ Hroll). clearbody w2.
  rewrite (bind_ok _ _ _ _ _ (call_quiet E IsManaged w2 (Hq _))).
  set (w3 := upd_trace (fun tr => tr ++ [IsManaged]) w2).
  destruct (is_managed E).
  - destruct (call_func_quiet E (leave_transaction_management tx) w3 Hq)
      as (Hl & Hlt & Hls & Hlx & _).
    set (w4 := snd (call_func E (leave_transaction_management tx) w3)) in *.
    assert (Hleave : (let* f := read_tx leave_transaction_management in call_func E f) w3
                     = (Ok tt, w4)).
    { unfold bind, read_tx, get, ret. simpl.
      replace (leave_transaction_management (transaction w2))
        with (leave_transaction_management tx) by now rewrite Hrx.
      exact Hl. }
    rewrite (bind_ok _ _ _ _ _ Hleave). clearbody w4.
    rewrite (call_quiet E ConnectionClose w4 (Hq _)). simpl.
    rewrite Hlt, Hls, Hlx. subst w3. simpl.
    rewrite Hrt, Hrs, Hrx. subst w1. simpl.
    rewrite <- !app_assoc. simpl. auto.
  - assert (Hskip : (ret tt ;; call E ConnectionClose) w3 = call E ConnectionClose w3)
      by reflexivity.
    rewrite Hskip, (call_quiet E ConnectionClose w3 (Hq _)).
    subst w3. simpl.
    rewrite Hrt, Hrs, Hrx. subst w1. simpl.
    rewrite <- !app_assoc. simpl. auto.
Qed.

Lemma afterTest_calls_restored_witness :
  let E := quiet_env "/home/joe/proj" in
  let t := method_test ∅ in
  let w1 := snd (beforeTest E t begun_world) in
  trace (snd (afterTest E t w1))
  = trace w1 ++ [Called "rollback"; IsManaged;
                 Called "leave_transaction_management"; ConnectionClose].
Proof.
  intros E t w1.
  destruct (afterTest_calls_restored E t w1 (PyBool true) django_tx)
    as (_ & _ & _ & H).
  - vm_compute. reflexivity.
  - reflexivity.
  - vm_compute. reflexivity.
  - intros ev. reflexivity.
  - exact H.
Defined.

(** ** NoseDjango: any sequence of tests *)

Lemma around_tests_cons (r : test_run) (rs : list test_run) (w : world) :
  around_tests (r :: rs) w = around_tests rs (around_test r w).
Proof. reflexivity. Qed.

Lemma around_test_keeps (r : test_run) (w : world) (sp : option string) :
  settings_path (self w) = Some sp ->
  path_truthy sp = true ->
  well_behaved r ->
  transaction (around_test r w) = transaction w /\
  settings_path (self (around_test r w)) = Some sp.
Proof.
  intros Hs Hp (Hc & Hm & Hran). unfold around_test.
  set (E := before_env r). set (t := the_test r).
  set (w1 := snd (beforeTest E t w)).
  destruct (Hran w1) as (Hrs & Hrt).
  assert (Hloc : settings_path (self w1) = Some sp).
  { subst w1. rewrite beforeTest_keeps_located. exact Hs. }
  destruct (truthy (_supports_transactions t (settings w))) eqn:Hsup.
  - destruct (beforeTest_transactional E t w sp Hs Hp Hsup Hc Hm) as (_ & Ho & Hmg).
    fold w1 in Ho, Hmg.
    assert (Hmg' : _managing_transactions (self (ran r w1))
                   = Some (_supports_transactions t (settings w))) by now rewrite Hrs.
    assert (Ho' : originals (self (ran r w1)) = Some (transaction w)) by now rewrite Hrs.
    split.
    + exact (afterTest_restores (after_env r) t _ _ _ Hmg' Hsup Ho').
    + assert (Hself : self (snd (afterTest (after_env r) t (ran r w1))) = self (ran r w1)).
      { unfold afterTest, read_self.
        assert (Hread : (let* w0 := get
                         in attr "_managing_transactions"
                              (_managing_transactions (self w0))) (ran r w1)
                        = (Ok (_supports_transactions t (settings w)), ran r w1)).
        { unfold bind, get, attr. rewrite Hmg'. reflexivity. }
        rewrite (bind_ok _ _ _ _ _ Hread). rewrite Hsup.
        rewrite (bind_ok _ _ _ _ _
                   (restore_transaction_support_spec _ (transaction w) Ho')).
        match goal with |- self (snd (?k ?w2)) = _ =>
          assert (Hk : trace_only k) end.
        { destruct (is_managed (after_env r));
            repeat first [ apply trace_only_read_tx | apply trace_only_call_func
                         | apply trace_only_call | apply trace_only_ret
                         | apply trace_only_bind; [|intros ?] ]. }
        match goal with |- self (snd (?k ?w2)) = _ =>
          destruct (Hk w2) as (-> & _) end.
        reflexivity. }
      rewrite Hself, Hrs. exact Hloc.
  - destruct (beforeTest_flushing E t w sp Hs Hp Hsup) as (Htx & Hmg).
    fold w1 in Htx, Hmg.
    assert (Hmg' : _managing_transactions (self (ran r w1))
                   = Some (_supports_transactions t (settings w))) by now rewrite Hrs.
    rewrite (afterTest_not_managing (after_env r) t _ _ Hmg' Hsup). simpl.
    rewrite Hrt, Hrs. auto.
Qed.

(** X5.  Over any sequence of tests, transactional or not, declared with
    fixtures or [urls] or not, and whatever the calls of [afterTest] do: as
    long as entering transaction management does not raise and the tests
    themselves do not rebind the six names or touch the plugin, the six
    names are bound after the last [afterTest] as they were before the
    first [beforeTest]. *)
Theorem bindings_survive_any_run (rs : list test_run) (w : world)
    (sp : option string) :
  settings_path (self w) = Some sp ->
  path_truthy sp = true ->
  Forall well_behaved rs ->
  transaction (around_tests rs w) = transaction w.
Proof.
  intros Hs Hp Hall. revert w Hs.
  induction Hall as [|r rs Hr Hrs IH]; intros w Hs; [reflexivity|].
  rewrite around_tests_cons.
  destruct (around_test_keeps r w sp Hs Hp Hr) as (Htx & Hloc).
  rewrite (IH _ Hloc). exact Htx.
Qed.

Lemma bindings_survive_any_run_witness :
  let rs := [sample_run (method_test (<["fixtures" := PyList [PyStr "users"]]> ∅));
             sample_run (method_test (<["use_transaction" := PyBool false]> ∅));
             sample_run (method_test (<["urls" := PyStr "app.test_urls"]> ∅));
             sample_run (unittest_test ∅)] in
  transaction (around_tests rs begun_world) = django_tx.
Proof.
  intros rs.
  apply (bindings_survive_any_run rs begun_world (Some "settings")).
  - reflexivity.
  - reflexivity.
  - repeat constructor.
Defined.

(** ** NoseDjango: what goes wrong in beforeTest and finalize *)

(** X6.  For a nose test wrapping a [MethodTestCase] whose context declares
    [urls], once the isolation and fixture steps have returned,
    [beforeTest] always ends in [AttributeError] for [urls]: the declared
    override is never installed, the settings are as before and no URL
    cache is cleared. *)
Theorem beforeTest_urls_always_raises (E : env) (t : test) (w : world)
    (sp : option string) (urls root : pyval) :
  settings_path (self w) = Some sp ->
  path_truthy sp = true ->
  fst ((isolate E t ;; load_fixtures E t) w) = Ok tt ->
  is_nose_test t = true -> test_kind t = MethodTestCase ->
  context t !! "urls" = Some urls ->
  settings w !! "ROOT_URLCONF" = Some root ->
  fst (beforeTest E t w) = Raise (AttributeError "urls") /\
  settings (snd (beforeTest E t w)) = settings w /\
  clears (trace (snd (beforeTest E t w))) = clears (trace w).
Proof.
  intros Hs Hp Hok Hn Hk Hu Hr.
  rewrite (beforeTest_steps E t w sp Hs Hp).
  assert (Hkeep : keeps_urls (isolate E t ;; load_fixtures E t)).
  { apply keeps_urls_bind; [apply keeps_urls_isolate|].
    intros _. apply keeps_urls_load_fixtures. }
  specialize (Hkeep w). cbv zeta in Hkeep. destruct Hkeep as (Hks & _ & Hkc).
  assert (Hsplit : (isolate E t ;; load_fixtures E t ;; override_urls E t) w
                   = ((isolate E t ;; load_fixtures E t) ;; override_urls E t) w).
  { unfold bind. destruct (isolate E t w) as [[[]|e] wa]; reflexivity. }
  rewrite Hsplit. clear Hsplit.
  destruct ((isolate E t ;; load_fixtures E t) w) as [[[]|e] wb] eqn:Hb;
    [|discriminate].
  simpl in Hks, Hkc. rewrite (bind_ok _ _ _ _ _ Hb).
  rewrite (override_urls_raises E t wb root (has_declared_true t "urls" urls Hn Hk Hu))
    by now rewrite Hks.
  simpl. auto.
Qed.

Lemma beforeTest_urls_always_raises_witness :
  let E := quiet_env "/home/joe/proj" in
  let t := method_test (<["urls" := PyStr "app.test_urls"]> ∅) in
  fst (beforeTest E t begun_world) = Raise (AttributeError "urls") /\
  settings (snd (beforeTest E t begun_world)) = settings begun_world /\
  clears (trace (snd (beforeTest E t begun_world))) = clears (trace begun_world).
Proof.
  intros E t.
  apply (beforeTest_urls_always_raises E t begun_world (Some "settings")
           (PyStr "app.test_urls") (PyStr "proj.urls")).
  - reflexivity.
  - reflexivity.
  - vm_compute. reflexivity.
  - reflexivity.
  - reflexivity.
  - vm_compute. reflexivity.
  - vm_compute. reflexivity.
Defined.

(** X7.  A [fixtures] attribute that is [None], a boolean or an integer cannot
    be unpacked: for a nose test wrapping a [MethodTestCase], [beforeTest]
    raises [TypeError] after the isolation step and issues no [loaddata];
    the world stays as the isolation step left it, so a transactional test
    keeps the six names patched. *)
Theorem beforeTest_fixtures_not_a_sequence (E : env) (t : test) (w : world)
    (sp : option string) (v : pyval) :
  settings_path (self w) = Some sp ->
  path_truthy sp = true ->
  fst (isolate E t w) = Ok tt ->
  is_nose_test t = true -> test_kind t = MethodTestCase ->
  context t !! "fixtures" = Some v ->
  (v = PyNone \/ (exists b, v = PyBool b) \/ (exists n, v = PyInt n)) ->
  beforeTest E t w = (Raise TypeError, snd (isolate E t w)).
Proof.
  intros Hs Hp Hok Hn Hk Hf Hv.
  rewrite (beforeTest_steps E t w sp Hs Hp).
  destruct (isolate E t w) as [[[]|e] wa] eqn:Hi; [|discriminate].
  rewrite (bind_ok _ _ _ _ _ Hi). simpl.
  assert (Hl : load_fixtures E t wa = (Raise TypeError, wa)).
  { unfold load_fixtures. rewrite (has_declared_true t "fixtures" v Hn Hk Hf).
    unfold bind, getattr, lift. rewrite Hf. simpl.
    destruct Hv as [->|[[b ->]|[n ->]]]; reflexivity. }
  rewrite (bind_raise _ _ _ _ _ Hl). reflexivity.
Qed.

Lemma beforeTest_fixtures_not_a_sequence_witness :
  let E := quiet_env "/home/joe/proj" in
  let t := method_test (<["fixtures" := PyNone]> ∅) in
  fst (beforeTest E t begun_world) = Raise TypeError /\
  transaction (snd (beforeTest E t begun_world)) = patched.
Proof.
  intros E t.
  rewrite (beforeTest_fixtures_not_a_sequence E t begun_world (Some "settings") PyNone).
  - split; vm_compute; reflexivity.
  - reflexivity.
  - reflexivity.
  - vm_compute. reflexivity.
  - reflexivity.
  - reflexivity.
  - vm_compute. reflexivity.
  - left. reflexivity.
Defined.

(** X8.  [finalize] when no URL root was saved: the test media directory is
    removed, an [OSError] from that removal being swallowed; then the test
    database is destroyed under the name [begin] remembered and the test
    environment is torn down.  Nothing else changes. *)
Theorem finalize_without_saved_root (E : env) (w : world) (sp : option string)
    (old : pyval) :
  settings_path (self w) = Some sp ->
  path_truthy sp = true ->
  old_db (self w) = Some old ->
  old_urlconf (self w) = None ->
  (raises E (NoseDjango.Rmtree (TEST_MEDIA_ROOT E)) = None \/
   raises E (NoseDjango.Rmtree (TEST_MEDIA_ROOT E)) = Some OSError) ->
  raises E (DestroyTestDb old (verbosity (self w))) = None ->
  raises E TeardownTestEnvironment = None ->
  finalize E w
  = (Ok tt,
     upd_trace (fun tr => tr ++ [NoseDjango.Rmtree (TEST_MEDIA_ROOT E);
                                 DestroyTestDb old (verbosity (self w));
                                 TeardownTestEnvironment]) w).
Proof.
  intros Hs Hp Ho Hu Hrm Hd Ht.
  unfold finalize, read_self, custom_after, clear_test_media, try_except,
    call, emit, modify, bind, get, attr.
  rewrite Hs. simpl. rewrite Hp. simpl.
  destruct Hrm as [-> | ->]; simpl; rewrite Ho; simpl; rewrite Hd; simpl;
    rewrite Ht; simpl; rewrite Hu;
    destruct w as [p s tx en spth tr]; simpl;
    unfold upd_trace; simpl; rewrite <- !app_assoc; reflexivity.
Qed.

Lemma finalize_without_saved_root_witness :
  let E := quiet_env "/home/joe/proj" in
  fst (finalize E begun_world) = Ok tt /\
  trace (snd (finalize E begun_world))
  = [NoseDjango.Rmtree "/srv/media/test_media"; DestroyTestDb (PyStr "projdb") 1;
     TeardownTestEnvironment].
Proof.
  intros E.
  rewrite (finalize_without_saved_root E begun_world (Some "settings") (PyStr "projdb")).
  - split; reflexivity.
  - reflexivity.
  - reflexivity.
  - reflexivity.
  - reflexivity.
  - left. reflexivity.
  - reflexivity.
  - reflexivity.
Defined.

(** ** NoseDjango: begin *)

Lemma do_add_path_self (E : env) (p : string) (w : world) :
  self (snd (do_add_path E p w)) = self w.
Proof.
  unfold do_add_path, call, emit, modify, bind. simpl.
  destruct (raises E (AddPath p)); reflexivity.
Qed.

Lemma for_each_add_path_self (E : env) (ps : list string) (w : world) :
  self (snd (for_each (do_add_path E) ps w)) = self w.
Proof.
  revert w. induction ps as [|p ps IH]; intros w; [reflexivity|].
  simpl. unfold bind.
  pose proof (do_add_path_self E p w) as Hp.
  destruct (do_add_path E p w) as [[[]|e] w1]; simpl in *.
  - rewrite IH. exact Hp.
  - exact Hp.
Qed.

(** The first part of [begin] says whether the module was imported; when it
    was, [settings_path] is the module name. *)
Lemma begin_import_cases (E : env) (w : world) :
  match begin_import E w with
  | (Ok true, w1) =>
      settings_path (self w1) = Some (Some (settings_module (self w)))
  | (Ok false, w1) => settings_module (self w1) = settings_module (self w)
  | (Raise _, _) => True
  end.
Proof.
  unfold begin_import.
  unfold bind at 1. unfold get at 1. unfold bind at 1. unfold modify at 1.
  set (w0 := upd_environ _ w).
  assert (H0 : self w0 = self w) by reflexivity.
  unfold bind at 1.
  assert (Hpaths : forall r wa,
            (if addPaths (conf (self w))
             then for_each (do_add_path E) (where_ (conf (self w)))
             else ret tt) w0 = (r, wa) -> self wa = self w).
  { intros r wa. destruct (addPaths (conf (self w))).
    - intros Hfe. pose proof (for_each_add_path_self E (where_ (conf (self w))) w0) as Hf.
      rewrite Hfe in Hf. simpl in Hf. congruence.
    - intros [= _ <-]. exact H0. }
  destruct ((if addPaths (conf (self w))
             then for_each (do_add_path E) (where_ (conf (self w)))
             else ret tt) w0) as [[[]|e] wa] eqn:Hfe; [|exact I].
  specialize (Hpaths _ _ eq_refl).
  unfold try_except, bind, call, emit, modify, set_self, ret. simpl.
  destruct (raises E (ImportModule (settings_module (self w)))) as [e|]; simpl.
  - destruct (is_ImportError e); [|exact I]. simpl. now rewrite Hpaths.
  - destruct wa as [p s tx en sp tr]. destruct p. reflexivity.
Qed.

(** X10.  When the settings module can be imported, [begin] does not walk the
    file system: its outcome is the same for every amount of fuel, zero
    included, and [settings_path] is the module name. *)
Theorem begin_direct_import (E : env) (w : world) (fuel : nat) :
  (forall p, raises E (AddPath p) = None) ->
  raises E (ImportModule (settings_module (self w))) = None ->
  begin E fuel w = begin E 0 w /\
  exists r w',
    begin E fuel w = Some (r, w') /\
    settings_path (self w') = Some (Some (settings_module (self w))) /\
    sys_path w' = sys_path (before_import E w).
Proof.
  intros Hadd Himp.
  assert (Hbi : begin_import E w
                = (Ok true,
                   upd_self (set_settings_path (Some (Some (settings_module (self w)))))
                     (import_failed E w))).
  { unfold begin_import, import_failed, before_import.
    unfold bind at 1. unfold get at 1. unfold bind at 1. unfold modify at 1.
    unfold bind at 1.
    destruct (addPaths (conf (self w))).
    - rewrite (for_each_add_path E Hadd).
      unfold try_except, bind, call, emit, modify, set_self, ret. simpl.
      rewrite Himp. reflexivity.
    - unfold try_except, bind, call, emit, modify, set_self, ret. simpl.
      rewrite Himp. reflexivity. }
  unfold begin. rewrite Hbi. split; [reflexivity|].
  set (w1 := upd_self _ (import_failed E w)).
  destruct (begin_setup E w1) as [r w'] eqn:Hsetup.
  exists r, w'. split; [reflexivity|].
  pose proof (keeps_path_begin_setup E w1) as Hk. cbv zeta in Hk.
  rewrite Hsetup in Hk. simpl in Hk. destruct Hk as (-> & ->).
  subst w1. unfold import_failed.
  destruct (before_import E w) as [p s tx en sp tr]. destruct p. simpl. auto.
Qed.

Lemma begin_direct_import_witness :
  let E := quiet_env "/srv/www" in
  begin E 7 fresh_world = begin E 0 fresh_world /\
  exists r w',
    begin E 7 fresh_world = Some (r, w') /\
    settings_path (self w') = Some (Some "settings") /\
    sys_path w' = ["/home/joe/proj"; "/usr/lib/python2.6"].
Proof.
  intros E.
  destruct (begin_direct_import E fresh_world 7) as (H1 & r & w' & H2 & H3 & H4).
  - intros p. reflexivity.
  - reflexivity.
  - split; [exact H1|]. exists r, w'. split; [exact H2|]. split; [exact H3|].
    rewrite H4. vm_compute. reflexivity.
Defined.

(** X11.  After a [begin] that returned normally the settings are located:
    [settings_path] is set and true, which is what [beforeTest] and
    [finalize] check first.  (The module name is not empty.) *)
Theorem begin_success_located (E : env) (w w' : world) (fuel : nat) :
  settings_module (self w) <> "" ->
  begin E fuel w = Some (Ok tt, w') ->
  exists sp, settings_path (self w') = Some sp /\ path_truthy sp = true.
Proof.
  intros Hne Hb. unfold begin in Hb.
  pose proof (begin_import_cases E w) as Hc.
  destruct (begin_import E w) as [[[|]|e] w1]; [| |discriminate].
  - injection Hb as Hb.
    pose proof (keeps_path_begin_setup E w1) as Hk. cbv zeta in Hk.
    rewrite Hb in Hk. simpl in Hk. destruct Hk as (_ & Hk).
    exists (Some (settings_module (self w))). split; [congruence|].
    simpl. destruct (String.eqb_spec (settings_module (self w)) ""); [contradiction|reflexivity].
  - destruct (get_settings_path (sys E) fuel (settings_module (self w1)))
      as [[found|e]|]; [| discriminate | discriminate].
    injection Hb as Hb.
    unfold bind in Hb.
    destruct (begin_crawl E found w1) as [[[]|e] w2] eqn:Hcrawl; [|discriminate].
    pose proof (keeps_path_begin_setup E w2) as Hk. cbv zeta in Hk.
    rewrite Hb in Hk. simpl in Hk. destruct Hk as (_ & Hk).
    exists found. rewrite Hk.
    unfold begin_crawl, bind, set_self, modify in Hcrawl. simpl in Hcrawl.
    destruct found as [d|]; [|discriminate].
    destruct (path_truthy (Some d)) eqn:Hp; [|discriminate]. simpl in Hcrawl.
    split; [|reflexivity].
    unfold do_add_path, call, emit, modify, bind in Hcrawl. simpl in Hcrawl.
    destruct (raises E (AddPath d)); [discriminate|].
    injection Hcrawl as <-.
    destruct w1 as [p s tx en sp tr]. destruct p. reflexivity.
Qed.

Lemma begin_success_located_witness :
  exists w' sp,
    begin (no_import_env "/home/joe/proj/app") 19 fresh_world = Some (Ok tt, w') /\
    settings_path (self w') = Some sp /\ path_truthy sp = true.
Proof.
  set (E := no_import_env "/home/joe/proj/app").
  set (w' := snd (default (Ok tt, fresh_world) (begin E 19 fresh_world))).
  assert (H : begin E 19 fresh_world = Some (Ok tt, w')) by (vm_compute; reflexivity).
  destruct (begin_success_located E fresh_world w' 19) as (sp & Hs & Hp).
  - discriminate.
  - exact H.
  - exists w', sp. split; [exact H|]. split; [exact Hs|exact Hp].
Defined.

#[local] Arguments insert : simpl never.

Lemma begin_setup_unfold (E : env) (w : world) :
  begin_setup E w
  = (sqlite_step (self w) ;; xvfb_step E (self w) ;; custom_before ;;
     setattr_settings "DEBUG" (PyBool false) ;; create_step E (self w)) w.
Proof. reflexivity. Qed.

Lemma call_state (E : env) (ev : NoseDjango.event) (w : world) :
  call E ev w
  = (match raises E ev with Some e => Raise e | None => Ok tt end,
     upd_trace (fun tr => tr ++ [ev]) w).
Proof. unfold call, emit, modify, bind. simpl. destruct (raises E ev); reflexivity. Qed.

Lemma sqlite_step_spec (p : plugin) (w : world) :
  exists w1,
    sqlite_step p w = (Ok tt, w1) /\
    self w1 = self w /\ environ w1 = environ w /\ trace w1 = trace w /\
    settings w1
    = if _use_sqlite p then
        <["DATABASE_PASSWORD" := PyStr ""]>
          (<["DATABASE_USER" := PyStr ""]>
            (<["DATABASE_OPTIONS" := PyDict []]>
              (<["DATABASE_NAME" := PyStr ""]>
                (<["DATABASE_ENGINE" := PyStr "sqlite3"]> (settings w)))))
      else settings w.
Proof.
  unfold sqlite_step. destruct (_use_sqlite p).
  - eexists. split; [reflexivity|]. repeat split.
  - exists w. repeat split.
Qed.

Lemma custom_before_spec (w : world) :
  exists w1,
    (custom_before ;; setattr_settings "DEBUG" (PyBool false)) w = (Ok tt, w1) /\
    self w1 = self w /\ environ w1 = environ w /\ trace w1 = trace w /\
    settings w1
    = <["DEBUG" := PyBool false]>
        (<["DISABLE_QUERYSET_CACHE" := PyBool true]>
          (<["CACHE_BACKEND" := PyStr "locmem://"]>
            (<["CELERY_ALWAYS_EAGER" := PyBool true]>
              (<["DEFAULT_FILE_STORAGE" := PyStr "nosedjango.nosedjango.TestFileSystemStorage"]>
                (<["DOCUMENT_PRINTING_CACHE_ON_SAVE" := PyBool false]> (settings w)))))).
Proof. eexists. split; [reflexivity|]. repeat split. Qed.

Lemma bind_assoc {S A B C} (m : M S A) (k : A -> M S B) (h : B -> M S C) (s : S) :
  bind (bind m k) h s = bind m (fun a => bind (k a) h) s.
Proof. unfold bind. destruct (m s) as [[a|e] s1]; reflexivity. Qed.

Lemma xvfb_step_frame (E : env) (p : plugin) (w : world) :
  self (snd (xvfb_step E p w)) = self w /\
  settings (snd (xvfb_step E p w)) = settings w.
Proof.
  unfold xvfb_step. destruct (path_truthy (_xvfb_headless p)); [|auto].
  unfold try_except, bind. rewrite call_state.
  destruct (raises E (Popen (xvfb_argv "xvfb" (default "" (_xvfb_headless p))))) as [e|];
    [|simpl; auto].
  destruct (is_OSError e); [|simpl; auto].
  rewrite call_state.
  destruct (raises E (Popen (xvfb_argv "Xvfb" (default "" (_xvfb_headless p)))));
    simpl; auto.
Qed.

Lemma bind_call (E : env) (ev : NoseDjango.event) {B} (k : unit -> M world B)
    (w : world) :
  bind (call E ev) k w
  = match raises E ev with
    | Some e => (Raise e, upd_trace (fun tr => tr ++ [ev]) w)
    | None => k tt (upd_trace (fun tr => tr ++ [ev]) w)
    end.
Proof. unfold bind at 1. rewrite call_state. destruct (raises E ev); reflexivity. Qed.

Lemma create_step_ok (E : env) (p : plugin) (w w1 : world) :
  create_step E p w = (Ok tt, w1) ->
  exists name,
    settings w !! "DATABASE_NAME" = Some name /\
    old_db (self w1) = Some name /\
    settings w1 = settings w /\
    exists tr, trace w1
               = tr ++ [SetupTestEnvironment; GetCommands;
                        RegisterCommand "syncdb" "django.core";
                        CreateTestDb (verbosity p)].
Proof.
  unfold create_step.
  unfold bind at 1. unfold get at 1. unfold bind at 1. unfold getattr.
  destruct (settings w !! "DATABASE_NAME") as [name|]; [|discriminate].
  unfold ret at 1. unfold bind at 1. unfold set_self at 1, modify at 1.
  rewrite bind_call.
  destruct (raises E SetupTestEnvironment); [discriminate|].
  rewrite bind_call.
  destruct (raises E GetCommands); [discriminate|].
  rewrite bind_call.
  destruct (raises E (RegisterCommand "syncdb" "django.core")); [discriminate|].
  rewrite call_state.
  destruct (raises E (CreateTestDb (verbosity p))); [discriminate|].
  intros [= <-]. exists name. split; [reflexivity|].
  destruct w as [pl s tx en sp tr]. destruct pl. simpl.
  split; [reflexivity|]. split; [reflexivity|].
  exists tr. rewrite <- !app_assoc. reflexivity.
Qed.

(** When [begin] gets through its second part, the settings are the test
    settings, [old_db] is the database name in them, and the last calls
    made are the environment setup and the creation of the test database. *)
Lemma begin_setup_ok (E : env) (w : world) :
  fst (begin_setup E w) = Ok tt ->
  let w' := snd (begin_setup E w) in
  settings w' = test_settings (_use_sqlite (self w)) (settings w) /\
  old_db (self w')
  = test_settings (_use_sqlite (self w)) (settings w) !! "DATABASE_NAME" /\
  exists tr, trace w'
             = tr ++ [SetupTestEnvironment; GetCommands;
                      RegisterCommand "syncdb" "django.core";
                      CreateTestDb (verbosity (self w))].
Proof.
  intros Hok. cbv zeta. rewrite begin_setup_unfold in *.
  destruct (sqlite_step_spec (self w) w) as (w1 & H1 & _ & _ & _ & Hs1).
  rewrite (bind_ok _ _ _ _ _ H1) in *.
  destruct (xvfb_step_frame E (self w) w1) as (_ & Hs2).
  destruct (xvfb_step E (self w) w1) as [[[]|e] w2] eqn:H2;
    [|rewrite (bind_raise _ _ _ _ _ H2) in Hok; discriminate].
  rewrite (bind_ok _ _ _ _ _ H2) in *. simpl in Hs2.
  destruct (custom_before_spec w2) as (w3 & H3 & _ & _ & _ & Hs3).
  assert (Hre : (custom_before ;; setattr_settings "DEBUG" (PyBool false) ;;
                 create_step E (self w)) w2
                = ((custom_before ;; setattr_settings "DEBUG" (PyBool false)) ;;
                   create_step E (self w)) w2).
  { symmetry. apply bind_assoc. }
  rewrite Hre in *. clear Hre.
  rewrite (bind_ok _ _ _ _ _ H3) in *.
  destruct (create_step E (self w) w3) as [[[]|e] w4] eqn:H4; [|discriminate].
  destruct (create_step_ok E (self w) w3 w4 H4) as (name & Hn & Ho & Hs4 & Htr).
  cbn [snd].
  assert (Hset : settings w3 = test_settings (_use_sqlite (self w)) (settings w)).
  { rewrite Hs3, Hs2, Hs1. unfold test_settings.
    destruct (_use_sqlite (self w)); reflexivity. }
  rewrite Hs4, Ho, <- Hn, Hset. auto.
Qed.

Lemma test_settings_forced (sqlite : bool) (s : obj) :
  test_settings sqlite s !! "DEBUG" = Some (PyBool false) /\
  test_settings sqlite s !! "CELERY_ALWAYS_EAGER" = Some (PyBool true) /\
  test_settings sqlite s !! "CACHE_BACKEND" = Some (PyStr "locmem://") /\
  test_settings sqlite s !! "DISABLE_QUERYSET_CACHE" = Some (PyBool true) /\
  test_settings sqlite s !! "DEFAULT_FILE_STORAGE"
  = Some (PyStr "nosedjango.nosedjango.TestFileSystemStorage").
Proof.
  unfold test_settings.
  repeat split;
    repeat first [ apply lookup_insert_eq
                 | rewrite lookup_insert_ne by discriminate ].
Qed.

Lemma test_settings_database_name (sqlite : bool) (s : obj) :
  test_settings sqlite s !! "DATABASE_NAME"
  = if sqlite then Some (PyStr "") else s !! "DATABASE_NAME".
Proof.
  unfold test_settings.
  rewrite !lookup_insert_ne by discriminate.
  destruct sqlite; [|reflexivity].
  rewrite !lookup_insert_ne by discriminate. apply lookup_insert_eq.
Qed.

Lemma keeps_config_bind {A B} (m : M world A) (k : A -> M world B) :
  keeps_config m -> (forall a, keeps_config (k a)) -> keeps_config (bind m k).
Proof.
  intros Hm Hk w. unfold bind. specialize (Hm w).
  destruct (m w) as [[a|e] w1]; simpl in *.
  - specialize (Hk a w1). simpl in Hk.
    destruct Hm as (? & ? & ?), Hk as (? & ? & ?). repeat split; congruence.
  - exact Hm.
Qed.

Lemma keeps_config_try {A} (m h : M world A) (handles : exn -> bool) :
  keeps_config m -> keeps_config h -> keeps_config (try_except m handles h).
Proof.
  intros Hm Hh w. unfold try_except. specialize (Hm w).
  destruct (m w) as [[a|e] w1]; simpl in *; [exact Hm|].
  destruct (handles e); [|exact Hm].
  specialize (Hh w1). simpl in Hh.
  destruct Hm as (? & ? & ?), Hh as (? & ? & ?). repeat split; congruence.
Qed.

Lemma keeps_config_ret {A} (a : A) : keeps_config (ret a).
Proof. intros w. simpl. auto. Qed.

Lemma keeps_config_raise {A} (e : exn) : keeps_config (@raise world A e).
Proof. intros w. simpl. auto. Qed.

Lemma keeps_config_get : keeps_config get.
Proof. intros w. simpl. auto. Qed.

Lemma keeps_config_call (E : env) (ev : NoseDjango.event) : keeps_config (call E ev).
Proof. intros w. cbv zeta. rewrite call_trace. simpl. auto. Qed.

Lemma keeps_config_environ (f : gmap string string -> gmap string string) :
  keeps_config (modify (upd_environ f)).
Proof. intros w. simpl. auto. Qed.

Lemma keeps_config_sys_path (f : list string -> list string) :
  keeps_config (modify (upd_sys_path f)).
Proof. intros w. simpl. auto. Qed.

Lemma keeps_config_settings_path (v : option (option string)) :
  keeps_config (set_self (set_settings_path v)).
Proof. intros w. destruct w as [p s tx en sp tr]. destruct p. simpl. auto. Qed.

Lemma keeps_config_do_add_path (E : env) (p : string) : keeps_config (do_add_path E p).
Proof.
  unfold do_add_path. apply keeps_config_bind; [apply keeps_config_call|].
  intros _. apply keeps_config_sys_path.
Qed.

Lemma keeps_config_for_each (E : env) (ps : list string) :
  keeps_config (for_each (do_add_path E) ps).
Proof.
  induction ps as [|p ps IH]; [apply keeps_config_ret|].
  simpl. apply keeps_config_bind; [apply keeps_config_do_add_path|].
  intros _. exact IH.
Qed.

Lemma keeps_config_begin_import (E : env) : keeps_config (begin_import E).
Proof.
  unfold begin_import.
  apply keeps_config_bind; [apply keeps_config_get|]. intros w0.
  apply keeps_config_bind; [apply keeps_config_environ|]. intros _.
  apply keeps_config_bind.
  - destruct (addPaths (conf (self w0)));
      [apply keeps_config_for_each | apply keeps_config_ret].
  - intros _. apply keeps_config_try; [|apply keeps_config_ret].
    apply keeps_config_bind; [apply keeps_config_call|]. intros _.
    apply keeps_config_bind; [apply keeps_config_settings_path|]. intros _.
    apply keeps_config_ret.
Qed.

Lemma keeps_config_begin_crawl (E : env) (found : option string) :
  keeps_config (begin_crawl E found).
Proof.
  unfold begin_crawl.
  apply keeps_config_bind; [apply keeps_config_settings_path|]. intros _.
  destruct found as [d|]; [|apply keeps_config_raise].
  destruct (negb (path_truthy (Some d))); [apply keeps_config_raise|].
  apply keeps_config_bind; [apply keeps_config_do_add_path|]. intros _.
  apply keeps_config_sys_path.
Qed.

(** A [begin] that returns normally ran its second part to the end, from
    a world with the same settings and options. *)
Lemma begin_ok_setup (E : env) (w w' : world) (fuel : nat) :
  begin E fuel w = Some (Ok tt, w') ->
  exists w1,
    begin_setup E w1 = (Ok tt, w') /\
    settings w1 = settings w /\
    _use_sqlite (self w1) = _use_sqlite (self w) /\
    verbosity (self w1) = verbosity (self w).
Proof.
  intros Hb. unfold begin in Hb.
  pose proof (keeps_config_begin_import E w) as Hk. cbv zeta in Hk.
  destruct (begin_import E w) as [[[|]|e] w1] eqn:Hbi; [| |discriminate];
    simpl in Hk.
  - injection Hb as Hb. exists w1. split; [exact Hb|exact Hk].
  - destruct (get_settings_path (sys E) fuel (settings_module (self w1)))
      as [[found|e]|]; [| discriminate | discriminate].
    injection Hb as Hb. unfold bind in Hb.
    pose proof (keeps_config_begin_crawl E found w1) as Hc. cbv zeta in Hc.
    destruct (begin_crawl E found w1) as [[[]|e] w2] eqn:Hcrawl; [|discriminate].
    simpl in Hc. exists w2. split; [exact Hb|].
    destruct Hk as (? & ? & ?), Hc as (? & ? & ?). repeat split; congruence.
Qed.

(** X12.  A [begin] that returns normally has forced [DEBUG] off, eager task
    execution, the in-process cache without query caching and the test
    file storage; [old_db] is the database name configured at that time,
    which is the empty, in-memory name when [--django-sqlite] was given;
    and the creation of the test database is the last call made. *)
Theorem begin_forces_test_settings (E : env) (w w' : world) (fuel : nat) :
  begin E fuel w = Some (Ok tt, w') ->
  settings w' !! "DEBUG" = Some (PyBool false) /\
  settings w' !! "CELERY_ALWAYS_EAGER" = Some (PyBool true) /\
  settings w' !! "CACHE_BACKEND" = Some (PyStr "locmem://") /\
  settings w' !! "DISABLE_QUERYSET_CACHE" = Some (PyBool true) /\
  settings w' !! "DEFAULT_FILE_STORAGE"
  = Some (PyStr "nosedjango.nosedjango.TestFileSystemStorage") /\
  old_db (self w')
  = (if _use_sqlite (self w) then Some (PyStr "") else settings w !! "DATABASE_NAME") /\
  exists tr, trace w' = tr ++ [CreateTestDb (verbosity (self w))].
Proof.
  intros Hb.
  destruct (begin_ok_setup E w w' fuel Hb) as (w1 & Hsetup & Hs & Hq & Hv).
  pose proof (begin_setup_ok E w1) as Hok. rewrite Hsetup in Hok.
  destruct (Hok eq_refl) as (Hset & Hold & tr & Htr). cbn [snd] in *.
  rewrite Hq, Hs in *. rewrite Hv in Htr.
  destruct (test_settings_forced (_use_sqlite (self w)) (settings w))
    as (H1 & H2 & H3 & H4 & H5).
  rewrite Hset, Hold, test_settings_database_name.
  repeat split; try assumption.
  exists (tr ++ [SetupTestEnvironment; GetCommands;
                 RegisterCommand "syncdb" "django.core"]).
  rewrite Htr, <- app_assoc. reflexivity.
Qed.

Lemma begin_forces_test_settings_witness :
  exists w',
    begin (quiet_env "/srv/www") 0 fresh_world = Some (Ok tt, w') /\
    settings w' !! "DEBUG" = Some (PyBool false) /\
    old_db (self w') = Some (PyStr "projdb").
Proof.
  set (E := quiet_env "/srv/www").
  set (w' := snd (default (Ok tt, fresh_world) (begin E 0 fresh_world))).
  assert (H : begin E 0 fresh_world = Some (Ok tt, w')) by (vm_compute; reflexivity).
  destruct (begin_forces_test_settings E fresh_world w' 0 H)
    as (H1 & _ & _ & _ & _ & H6 & _).
  exists w'. split; [exact H|]. split; [exact H1|].
  rewrite H6. vm_compute. reflexivity.
Defined.

Lemma create_step_environ (E : env) (p : plugin) (w : world) :
  environ (snd (create_step E p w)) = environ w.
Proof.
  unfold create_step.
  unfold bind at 1. unfold get at 1. unfold bind at 1. unfold getattr.
  destruct (settings w !! "DATABASE_NAME") as [name|]; [|reflexivity].
  unfold ret at 1. unfold bind at 1. unfold set_self at 1, modify at 1.
  rewrite bind_call.
  destruct (raises E SetupTestEnvironment); [reflexivity|].
  rewrite bind_call.
  destruct (raises E GetCommands); [reflexivity|].
  rewrite bind_call.
  destruct (raises E (RegisterCommand "syncdb" "django.core")); [reflexivity|].
  rewrite call_state. reflexivity.
Qed.

(** X13.  With [--xvfb-headless], when the program [xvfb] cannot be launched
    [begin] launches [Xvfb] instead and then sets [DISPLAY]; when neither
    can be launched, its second part ends in [OSError] after those two
    attempts: [DISPLAY] is not set and no test database is created. *)
Theorem begin_xvfb_fallback (E : env) (w : world) (display : string) :
  _xvfb_headless (self w) = Some display ->
  display <> "" ->
  raises E (Popen (xvfb_argv "xvfb" display)) = Some OSError ->
  (raises E (Popen (xvfb_argv "Xvfb" display)) = Some OSError ->
   fst (begin_setup E w) = Raise OSError /\
   trace (snd (begin_setup E w))
   = trace w ++ [Popen (xvfb_argv "xvfb" display); Popen (xvfb_argv "Xvfb" display)] /\
   environ (snd (begin_setup E w)) = environ w) /\
  (raises E (Popen (xvfb_argv "Xvfb" display)) = None ->
   environ (snd (begin_setup E w)) !! "DISPLAY" = Some (":" +:+ display) /\
   exists rest,
     trace (snd (begin_setup E w))
     = trace w ++ Popen (xvfb_argv "xvfb" display)
               :: Popen (xvfb_argv "Xvfb" display) :: rest).
Proof.
  intros Hx Hne H1.
  assert (Hp : path_truthy (_xvfb_headless (self w)) = true).
  { rewrite Hx. simpl. destruct (String.eqb_spec display ""); [contradiction|reflexivity]. }
  rewrite begin_setup_unfold.
  destruct (sqlite_step_spec (self w) w) as (w1 & Hs & _ & Hen & Htr & _).
  rewrite (bind_ok _ _ _ _ _ Hs).
  split.
  - intros H2.
    assert (Hxv : xvfb_step E (self w) w1
                  = (Raise OSError,
                     upd_trace (fun tr => tr ++ [Popen (xvfb_argv "Xvfb" display)])
                       (upd_trace (fun tr => tr ++ [Popen (xvfb_argv "xvfb" display)]) w1))).
    { unfold xvfb_step. rewrite Hp, Hx.
      change (default "" (Some display)) with display.
      unfold try_except, bind. rewrite call_state, H1. cbn [is_OSError].
      rewrite call_state, H2. reflexivity. }
    rewrite (bind_raise _ _ _ _ _ Hxv). cbn [fst snd].
    split; [reflexivity|]. split.
    + destruct w1 as [p s tx en sp tr]. simpl in *. subst tr.
      rewrite <- app_assoc. reflexivity.
    + rewrite <- Hen. destruct w1. reflexivity.
  - intros H2.
    set (w2 := upd_environ (insert "DISPLAY" (":" +:+ display))
                 (upd_trace (fun tr => tr ++ [Popen (xvfb_argv "Xvfb" display)])
                    (upd_trace (fun tr => tr ++ [Popen (xvfb_argv "xvfb" display)]) w1))).
    assert (Hxv : xvfb_step E (self w) w1 = (Ok tt, w2)).
    { unfold xvfb_step. rewrite Hp, Hx.
      change (default "" (Some display)) with display.
      unfold try_except, bind. rewrite call_state, H1. cbn [is_OSError].
      rewrite call_state, H2. reflexivity. }
    rewrite (bind_ok _ _ _ _ _ Hxv).
    destruct (custom_before_spec w2) as (w3 & H3 & _ & He3 & Ht3 & _).
    assert (Hre : (custom_before ;; setattr_settings "DEBUG" (PyBool false) ;;
                   create_step E (self w)) w2
                  = ((custom_before ;; setattr_settings "DEBUG" (PyBool false)) ;;
                     create_step E (self w)) w2).
    { symmetry. apply bind_assoc. }
    rewrite Hre. clear Hre. rewrite (bind_ok _ _ _ _ _ H3).
    split.
    + rewrite create_step_environ, He3. subst w2.
      destruct w1. cbn [environ upd_environ upd_trace]. apply lookup_insert_eq.
    + assert (Hmono : exists rest, trace (snd (create_step E (self w) w3))
                                   = trace w3 ++ rest).
      { unfold create_step.
        unfold bind at 1. unfold get at 1. unfold bind at 1. unfold getattr.
        destruct (settings w3 !! "DATABASE_NAME") as [name|];
          [|exists []; simpl; now rewrite app_nil_r].
        unfold ret at 1. unfold bind at 1. unfold set_self at 1, modify at 1.
        rewrite bind_call.
        destruct (raises E SetupTestEnvironment);
          [eexists; destruct w3; simpl; reflexivity|].
        rewrite bind_call.
        destruct (raises E GetCommands);
          [eexists; destruct w3; simpl; rewrite <- app_assoc; reflexivity|].
        rewrite bind_call.
        destruct (raises E (RegisterCommand "syncdb" "django.core"));
          [eexists; destruct w3; simpl; rewrite <- !app_assoc; reflexivity|].
        rewrite call_state.
        eexists; destruct w3; simpl; rewrite <- !app_assoc; reflexivity. }
      destruct Hmono as (rest & ->). exists rest.
      rewrite Ht3. subst w2. destruct w1 as [p s tx en sp tr]. simpl in *. subst tr.
      rewrite <- !app_assoc. reflexivity.
Qed.

Lemma begin_xvfb_fallback_witness :
  let E := {| sys := posix "/home/joe/proj" (listdir_of sample_tree);
              raises := fun ev =>
                match ev with
                | Popen ("xvfb" :: _) => Some OSError
                | _ => None
                end;
              add_path := fun p l => p :: l;
              is_managed := true;
              TEST_MEDIA_ROOT := "/srv/media/test_media" |} in
  let w := upd_self (fun p => configure
                       {| django_settings := None; use_sqlite := false;
                          xvfb_headless := Some "99" |}
                       (conf p) (module_import ∅)) fresh_world in
  environ (snd (begin_setup E w)) !! "DISPLAY" = Some ":99".
Proof.
  intros E w.
  destruct (begin_xvfb_fallback E w "99") as (_ & H).
  - reflexivity.
  - discriminate.
  - reflexivity.
  - destruct H as (H & _); [reflexivity|]. exact H.
Defined.

(** ** The settings locator *)

Lemma py_split_free (sep : ascii) (s : string) :
  free_of sep s -> py_split sep s = [s].
Proof.
  unfold free_of. induction s as [|c r IH]; simpl; [reflexivity|].
  intros H. apply andb_prop in H as [Hc Hr].
  apply negb_true_iff in Hc. rewrite Hc, (IH Hr). reflexivity.
Qed.

Lemma py_split_last (sep : ascii) (pkg name : string) :
  free_of sep name ->
  exists x l, py_split sep (pkg +:+ String sep name) = x :: l ++ [name].
Proof.
  intros Hn. induction pkg as [|c r IH]; simpl.
  - rewrite Ascii.eqb_refl, (py_split_free sep name Hn). exists "", []. reflexivity.
  - destruct IH as (x & l & ->).
    destruct (Ascii.eqb c sep).
    + exists "", (x :: l). reflexivity.
    + exists (String c x), l. reflexivity.
Qed.

(** X14.  The file looked for is named after the last dotted component of the
    module name: [settings.py] for [settings] as for [proj.settings]. *)
Theorem settings_filename_last_component (pkg name : string) :
  free_of "." name ->
  settings_filename name = name +:+ ".py" /\
  settings_filename (pkg +:+ "." +:+ name) = name +:+ ".py".
Proof.
  intros Hn. unfold settings_filename. split.
  - rewrite (py_split_free "." name Hn). reflexivity.
  - destruct (py_split_last "." pkg name Hn) as (x & l & Hs).
    change (pkg +:+ "." +:+ name) with (pkg +:+ String "." name).
    rewrite Hs. change (x :: l ++ [name]) with ((x :: l) ++ [name]).
    rewrite last_last. reflexivity.
Qed.

Lemma settings_filename_last_component_witness :
  settings_filename "settings" = "settings.py" /\
  settings_filename "proj.conf.settings" = "settings.py".
Proof.
  destruct (settings_filename_last_component "proj.conf" "settings") as (H1 & H2).
  - reflexivity.
  - split; [exact H1|exact H2].
Defined.

Lemma drop_while_app_all {A} (f : A -> bool) (l r : list A) :
  forallb f l = true -> drop_while f (l ++ r) = drop_while f r.
Proof.
  induction l as [|x l IH]; simpl; [reflexivity|].
  intros H. apply andb_prop in H as [Hx Hl]. rewrite Hx. exact (IH Hl).
Qed.

Lemma posix_split_head_top (name : string) :
  free_of "/" name -> posix_split_head ("/" +:+ name) = "/".
Proof.
  unfold free_of. intros Hn. unfold posix_split_head, posix_head_chars.
  change (list_ascii_of_string ("/" +:+ name))
    with ("/"%char :: list_ascii_of_string name).
  cbn [rev].
  rewrite drop_while_app_all.
  - reflexivity.
  - rewrite forallb_forall in *. intros x Hx. apply in_rev in Hx.
    exact (Hn x Hx).
Qed.

(** X15.  The root directory is never searched from below: started in a
    directory directly under the root that lacks the file, the walk
    returns [None] at once, whatever the root holds. *)
Theorem root_is_not_searched (listdir : string -> option (list string))
    (name m : string) (fuel : nat) :
  name <> "" ->
  free_of "/" name ->
  lacks (posix ("/" +:+ name) listdir) ("/" +:+ name) (settings_filename m) ->
  get_settings_path (posix ("/" +:+ name) listdir) (S fuel) m = Some (Ok None).
Proof.
  intros Hne Hfree (names & Hl & Hnot).
  unfold get_settings_path. cbn [os_getcwd posix walk os_listdir os_name
                                 os_path_split_head].
  simpl in Hl. rewrite Hl.
  rewrite (bool_decide_eq_false_2 _ Hnot).
  rewrite (posix_split_head_top name Hfree). reflexivity.
Qed.

Lemma root_is_not_searched_witness :
  listdir_of sample_tree "/" = Some ["home"; "settings.py"] /\
  get_settings_path (posix "/srv" (listdir_of sample_tree)) 1 "settings"
  = Some (Ok None).
Proof.
  split; [reflexivity|].
  apply (root_is_not_searched (listdir_of sample_tree) "srv" "settings" 0).
  - discriminate.
  - reflexivity.
  - exists ["www"]. split; [reflexivity|].
    intros H. apply list_elem_of_In in H. simpl in H.
    destruct H as [H|[]]; discriminate H.
Defined.

(** X16.  The walk does find the settings: when some directory on the way up
    holds the file, every nearer one can be listed and lacks it, and no
    root is met before it, [get_settings_path] returns that directory as
    soon as the fuel exceeds the number of steps. *)
Theorem walk_finds_nearest (sys : system) (m : string) (k fuel : nat) :
  let cwd := os_getcwd sys in
  let file := settings_filename m in
  k < fuel ->
  (forall j, j <= k -> ancestor sys j cwd <> "") ->
  (forall j, 1 <= j <= k -> ~ is_root sys (ancestor sys j cwd)) ->
  (forall j, j < k -> lacks sys (ancestor sys j cwd) file) ->
  holds sys (ancestor sys k cwd) file ->
  get_settings_path sys fuel m = Some (Ok (Some (ancestor sys k cwd))).
Proof.
  cbv zeta. unfold get_settings_path.
  generalize (os_getcwd sys) as cwd. generalize (settings_filename m) as file.
  intros file. revert fuel.
  induction k as [|k IH]; intros fuel cwd Hlt Hne Hroot Hlack Hhold.
  - destruct fuel as [|fuel]; [lia|].
    change (ancestor sys 0 cwd) with cwd in *. cbn [walk].
    specialize (Hne 0 (le_n 0)). change (ancestor sys 0 cwd) with cwd in Hne.
    destruct (String.eqb_spec cwd "") as [Hc|_]; [contradiction|].
    destruct Hhold as (names & Hl & Hin). rewrite Hl.
    rewrite (bool_decide_eq_true_2 _ Hin). reflexivity.
  - destruct fuel as [|fuel]; [lia|].
    rewrite ancestor_S. cbn [walk].
    pose proof (Hne 0 ltac:(lia)) as Hne0.
    change (ancestor sys 0 cwd) with cwd in Hne0.
    destruct (String.eqb_spec cwd "") as [Hc|_]; [contradiction|].
    destruct (Hlack 0 ltac:(lia)) as (names & Hl & Hnot).
    change (ancestor sys 0 cwd) with cwd in Hl. rewrite Hl.
    rewrite (bool_decide_eq_false_2 _ Hnot).
    pose proof (Hroot 1 ltac:(lia)) as Hr1.
    change (ancestor sys 1 cwd) with (os_path_split_head sys cwd) in Hr1.
    destruct (String.eqb (os_name sys) "nt"
              && NT_ROOT_match (os_path_split_head sys cwd)) eqn:Hnt.
    { exfalso. apply Hr1. right. apply andb_prop in Hnt as [Hn Hm].
      split; [now apply String.eqb_eq|exact Hm]. }
    destruct (String.eqb_spec (os_path_split_head sys cwd) "/") as [Hs|_].
    { exfalso. apply Hr1. left. exact Hs. }
    apply IH.
    + lia.
    + intros j Hj. rewrite <- ancestor_S. apply Hne. lia.
    + intros j Hj. rewrite <- ancestor_S. apply Hroot. lia.
    + intros j Hj. rewrite <- ancestor_S. apply Hlack. lia.
    + rewrite <- ancestor_S. exact Hhold.
Qed.

Lemma walk_finds_nearest_witness :
  get_settings_path (posix "/home/joe/proj/app" (listdir_of sample_tree)) 2 "proj.settings"
  = Some (Ok (Some "/home/joe/proj")).
Proof.
  apply (walk_finds_nearest (posix "/home/joe/proj/app" (listdir_of sample_tree))
           "proj.settings" 1 2).
  - lia.
  - intros [|[|j]] Hj; [discriminate|discriminate|lia].
  - intros j Hj. assert (j = 1) as -> by lia.
    intros [H|[H _]]; discriminate H.
  - intros j Hj. assert (j = 0) as -> by lia.
    exists ["tests.py"; "models.py"]. split; [reflexivity|].
    intros H. apply list_elem_of_In in H. simpl in H.
    destruct H as [H|[H|[]]]; discriminate H.
  - exists ["settings.py"; "app"; "__init__.py"]. split; [reflexivity|].
    apply list_elem_of_In. left. reflexivity.
Defined.

(** ** The live server: configuration and failures *)

Section LiveServerMore.
Import LiveServer.
Variable E : LiveServer.env.
Variable settings : obj.

(** X17.  The server is created at the configured address and port, which
    default to ['0.0.0.0'] and [int('8000')]; the handle is kept on the
    plugin. *)
Theorem live_server_address_and_port (t : test) (p : LiveServer.plugin) (n : Z) :
  (forall ev, LiveServer.raises E ev = None) ->
  server_started p = false ->
  requests_server t = true ->
  int_ E (getattr_default settings "LIVE_SERVER_PORT" (PyStr "8000")) = Some n ->
  let address := getattr_default settings "LIVE_SERVER_ADDRESS" (PyStr "0.0.0.0") in
  let p' := snd (startTest E settings t p) in
  fst (startTest E settings t p) = Ok tt /\
  LiveServer.trace p' = LiveServer.trace p ++ [CreateServer address n; ThreadStart; Sleep] /\
  httpd p' = Some (address, n) /\
  server_started p' = true.
Proof.
  intros Hq Hs Hr Hn. cbv zeta.
  unfold startTest, bind, get. unfold requests_server in Hr. rewrite Hs, Hr. simpl.
  unfold DEFAULT_LIVE_SERVER_PORT, DEFAULT_LIVE_SERVER_ADDRESS. rewrite Hn. simpl.
  unfold start_server, LiveServer.call, bind, modify. simpl. rewrite !Hq. simpl.
  rewrite <- !app_assoc. auto.
Qed.

(** X18.  A port setting that [int] rejects makes [startTest] raise before any
    server is created: the plugin is unchanged, so the next test that asks
    for the server meets the same error. *)
Theorem live_server_bad_port (t : test) (p : LiveServer.plugin) :
  server_started p = false ->
  requests_server t = true ->
  int_ E (getattr_default settings "LIVE_SERVER_PORT" (PyStr "8000")) = None ->
  exists e, startTest E settings t p = (Raise e, p).
Proof.
  intros Hs Hr Hn.
  unfold startTest, bind, get. unfold requests_server in Hr. rewrite Hs, Hr. simpl.
  unfold DEFAULT_LIVE_SERVER_PORT. rewrite Hn. simpl. eauto.
Qed.

(** X19.  When creating the server fails, the plugin is not marked as started:
    every later test that asks for the server tries again, no server is
    ever set listening, and [finalize] has nothing to stop. *)
Theorem live_server_failed_start_retried (ts : list test) (e : exn) :
  (forall address port, LiveServer.raises E (CreateServer address port) = Some e) ->
  is_Some (int_ E (getattr_default settings "LIVE_SERVER_PORT" (PyStr "8000"))) ->
  Forall (fun t => requests_server t = true) ts ->
  let p := after_tests E settings ts init in
  starts (LiveServer.trace p) = length ts /\
  listening (LiveServer.trace p) = 0 /\
  server_started p = false /\
  LiveServer.finalize E p = (Ok tt, p).
Proof.
  intros Hfail [n Hn] Hall. cbv zeta.
  assert (G : forall p0, server_started p0 = false ->
            starts (LiveServer.trace (after_tests E settings ts p0))
            = starts (LiveServer.trace p0) + length ts /\
            listening (LiveServer.trace (after_tests E settings ts p0))
            = listening (LiveServer.trace p0) /\
            server_started (after_tests E settings ts p0) = false).
  { induction Hall as [|t ts Ht Hts IH]; intros p0 Hs.
    - simpl. repeat split; [lia|auto].
    - rewrite after_tests_cons.
      assert (Hstep : snd (startTest E settings t p0)
                      = add_event (CreateServer
                          (getattr_default settings "LIVE_SERVER_ADDRESS"
                             DEFAULT_LIVE_SERVER_ADDRESS) n) p0).
      { unfold startTest, bind, get. unfold requests_server in Ht. rewrite Hs, Ht.
        simpl. unfold DEFAULT_LIVE_SERVER_PORT. rewrite Hn. simpl.
        unfold start_server, LiveServer.call, bind, modify. simpl.
        rewrite Hfail. reflexivity. }
      rewrite Hstep.
      destruct (IH (add_event (CreateServer
                      (getattr_default settings "LIVE_SERVER_ADDRESS"
                         DEFAULT_LIVE_SERVER_ADDRESS) n) p0) Hs) as (I1 & I2 & I3).
      rewrite I1, I2, I3. unfold starts, listening. simpl.
      rewrite !filter_app, !length_app. simpl. repeat split; lia. }
  destruct (G init eq_refl) as (G1 & G2 & G3).
  split; [exact G1|]. split; [exact G2|]. split; [exact G3|].
  unfold LiveServer.finalize, stop_test_server, bind, get. rewrite G3. reflexivity.
Qed.

(** X20.  [finalize] stops the server at most once: after a [finalize] that
    returned, another one does nothing. *)
Theorem live_server_finalize_once (E' : LiveServer.env) (p : LiveServer.plugin) :
  fst (LiveServer.finalize E p) = Ok tt ->
  LiveServer.finalize E' (snd (LiveServer.finalize E p))
  = (Ok tt, snd (LiveServer.finalize E p)).
Proof.
  intros Hok.
  assert (Hs : server_started (snd (LiveServer.finalize E p)) = false).
  { revert Hok. unfold LiveServer.finalize, stop_test_server, bind, get.
    destruct (server_started p) eqn:Hs; [|intros _; exact Hs].
    unfold attr. destruct (httpd p); [|discriminate]. simpl.
    unfold LiveServer.call, bind, modify. simpl.
    destruct (LiveServer.raises E ServerStop); [discriminate|]. reflexivity. }
  unfold LiveServer.finalize at 1, stop_test_server, bind, get. rewrite Hs.
  reflexivity.
Qed.

End LiveServerMore.

Lemma live_server_address_and_port_witness :
  let settings : obj := <["LIVE_SERVER_PORT" := PyStr "8081"]> ∅ in
  LiveServer.trace (snd (LiveServer.startTest quiet_server_env settings (live_test "a")
                           LiveServer.init))
  = [LiveServer.CreateServer (PyStr "0.0.0.0") 8081; LiveServer.ThreadStart;
     LiveServer.Sleep].
Proof.
  intros settings.
  destruct (live_server_address_and_port quiet_server_env settings (live_test "a")
              LiveServer.init 8081) as (_ & H & _).
  - intros ev. reflexivity.
  - reflexivity.
  - vm_compute. reflexivity.
  - vm_compute. reflexivity.
  - rewrite H. vm_compute. reflexivity.
Defined.

Lemma live_server_bad_port_witness :
  let settings : obj := <["LIVE_SERVER_PORT" := PyStr "http"]> ∅ in
  exists e, LiveServer.startTest quiet_server_env settings (live_test "a") LiveServer.init
            = (Raise e, LiveServer.init).
Proof.
  intros settings.
  apply (live_server_bad_port quiet_server_env settings (live_test "a") LiveServer.init).
  - reflexivity.
  - vm_compute. reflexivity.
  - vm_compute. reflexivity.
Defined.

Lemma live_server_failed_start_retried_witness :
  let ts := [live_test "a"; live_test "b"; live_test "c"] in
  let p := LiveServer.after_tests no_server_env ∅ ts LiveServer.init in
  LiveServer.starts (LiveServer.trace p) = 3 /\
  LiveServer.listening (LiveServer.trace p) = 0 /\
  LiveServer.server_started p = false /\
  LiveServer.finalize no_server_env p = (Ok tt, p).
Proof.
  intros ts p.
  apply (live_server_failed_start_retried no_server_env ∅ ts (OtherError "socket.error")).
  - intros address port. reflexivity.
  - vm_compute. eauto.
  - repeat constructor.
Defined.

Lemma live_server_finalize_once_witness :
  let p := LiveServer.after_tests quiet_server_env ∅ [live_test "a"] LiveServer.init in
  LiveServer.finalize quiet_server_env (snd (LiveServer.finalize quiet_server_env p))
  = (Ok tt, snd (LiveServer.finalize quiet_server_env p)).
Proof.
  intros p.
  apply (live_server_finalize_once quiet_server_env quiet_server_env p).
  vm_compute. reflexivity.
Defined.

(** ** Screenshots on failure *)

(** X21.  On an error or a failure of a nose test that asked for screenshots,
    when [test.test] has the driver attribute: the screenshot directory is
    created only if it does not exist, and the screenshot is saved there
    under the test's id with [.png] appended.  [handleFailure] does the
    same as [handleError]. *)
Theorem screenshot_saved (dir_exists : bool) (t : test) (p : Selenium.plugin)
    (name : string) (driver : pyval) :
  is_nose_test t = true ->
  truthy (getattr_default (context t) "selenium_take_ss" (PyBool false)) = true ->
  getattr_default (context t) "selenium_driver_attr" (PyStr "driver") = PyStr name ->
  inner_attrs t !! name = Some driver ->
  let file := posix_join (Selenium.ss_dir p) (test_id t +:+ ".png") in
  Selenium.handleError dir_exists t p
  = (Ok tt,
     {| Selenium.ss_dir := Selenium.ss_dir p;
        Selenium.trace :=
          Selenium.trace p
          ++ (if dir_exists then [] else [Selenium.Makedirs (Selenium.ss_dir p)])
          ++ [Selenium.SaveScreenshot driver file] |}) /\
  Selenium.handleFailure dir_exists t p = Selenium.handleError dir_exists t p.
Proof.
  intros Hn Hss Hattr Hdrv. cbv zeta. split; [|reflexivity].
  unfold Selenium.handleError. rewrite Hn, Hss. simpl.
  unfold Selenium._take_screenshot. rewrite Hattr.
  unfold try_except, bind, Selenium.getattr_named, getattr, get. rewrite Hdrv. simpl.
  destruct dir_exists; simpl.
  - reflexivity.
  - unfold Selenium.emit, modify. simpl. rewrite <- app_assoc. reflexivity.
Qed.

Lemma screenshot_saved_witness :
  let t := selenium_test (<["driver" := PyObject "firefox"]> ∅) in
  let p := Selenium.configure (fun d => "/home/joe/proj/" +:+ d) None in
  Selenium.trace (snd (Selenium.handleError false t p))
  = [Selenium.Makedirs "/home/joe/proj/failure_screenshots";
     Selenium.SaveScreenshot (PyObject "firefox")
       "/home/joe/proj/failure_screenshots/app.tests.TestLogin.test_form.png"].
Proof.
  intros t p.
  destruct (screenshot_saved false t p "driver" (PyObject "firefox")) as (H & _).
  - reflexivity.
  - vm_compute. reflexivity.
  - vm_compute. reflexivity.
  - vm_compute. reflexivity.
  - rewrite H. vm_compute. reflexivity.
Defined.

(** X22.  When [test.test] lacks the driver attribute, the [AttributeError] is
    swallowed: one line is printed, no directory is made, no screenshot is
    saved, and the hook returns normally. *)
Theorem screenshot_without_driver (dir_exists : bool) (t : test)
    (p : Selenium.plugin) (name : string) :
  is_nose_test t = true ->
  truthy (getattr_default (context t) "selenium_take_ss" (PyBool false)) = true ->
  getattr_default (context t) "selenium_driver_attr" (PyStr "driver") = PyStr name ->
  inner_attrs t !! name = None ->
  Selenium.handleError dir_exists t p
  = (Ok tt,
     {| Selenium.ss_dir := Selenium.ss_dir p;
        Selenium.trace :=
          Selenium.trace p
          ++ [Selenium.PrintLine "Error attempting to take failure screenshot"] |}).
Proof.
  intros Hn Hss Hattr Hdrv.
  unfold Selenium.handleError. rewrite Hn, Hss. simpl.
  unfold Selenium._take_screenshot. rewrite Hattr.
  unfold try_except, bind, Selenium.getattr_named, getattr, get. rewrite Hdrv.
  reflexivity.
Qed.

Lemma screenshot_without_driver_witness :
  let t := selenium_test ∅ in
  let p := Selenium.configure (fun d => "/home/joe/proj/" +:+ d) (Some "shots") in
  Selenium.handleError true t p
  = (Ok tt,
     {| Selenium.ss_dir := "/home/joe/proj/shots";
        Selenium.trace :=
          [Selenium.PrintLine "Error attempting to take failure screenshot"] |}).
Proof.
  intros t p.
  apply (screenshot_without_driver true t p "driver").
  - reflexivity.
  - vm_compute. reflexivity.
  - vm_compute. reflexivity.
  - vm_compute. reflexivity.
Defined.

(** ** The search daemon *)

Section SphinxMore.
Variable E : Sphinx.env.

(** X23.  An indexer that exits with status 0 is silent; when the indexer cannot
    be launched at all, the [OSError] of the launch is not caught. *)
Theorem sphinx_index_outcomes (config : string) (p : Sphinx.plugin) :
  let argv := ["indexer"; "--config"; config; "--all"] in
  (forall pr, Sphinx.spawn E argv = Some pr -> Sphinx.exit_status pr = 0%Z ->
     Sphinx._build_sphinx_index E config p
     = (Ok tt, Sphinx.add_event Sphinx.Wait (Sphinx.add_event (Sphinx.Popen argv) p))) /\
  (Sphinx.spawn E argv = None ->
     Sphinx._build_sphinx_index E config p
     = (Raise OSError, Sphinx.add_event (Sphinx.Popen argv) p)).
Proof.
  cbv zeta. split.
  - intros pr Hs Hx.
    unfold Sphinx._build_sphinx_index, Sphinx.popen, bind, Sphinx.emit, modify.
    simpl. rewrite Hs. simpl. rewrite Hx. reflexivity.
  - intros Hs.
    unfold Sphinx._build_sphinx_index, Sphinx.popen, bind, Sphinx.emit, modify.
    simpl. rewrite Hs. reflexivity.
Qed.

(** X24.  Starting the daemon on a plugin that was configured without a template
    raises [AttributeError] before anything is launched; a daemon that is
    still running when polled is kept on the plugin and nothing is
    printed. *)
Theorem sphinx_searchd_start (config : string) (p : Sphinx.plugin) :
  (Sphinx.searchd_port p = None ->
   Sphinx._start_searchd E config p = (Raise (AttributeError "searchd_port"), p)) /\
  (forall port pr,
     Sphinx.searchd_port p = Some port ->
     Sphinx.spawn E ["searchd"; "--config"; config; "--console"; "--port"; pretty port]
     = Some pr ->
     Sphinx.poll_now pr = None ->
     let p' := snd (Sphinx._start_searchd E config p) in
     fst (Sphinx._start_searchd E config p) = Ok tt /\
     Sphinx._searchd p' = Some pr /\
     Sphinx.printed (Sphinx.trace p') = Sphinx.printed (Sphinx.trace p)).
Proof.
  split.
  - intros Hp. unfold Sphinx._start_searchd, bind, get, attr. rewrite Hp. reflexivity.
  - intros port pr Hp Hs Hpoll. cbv zeta.
    unfold Sphinx._start_searchd, Sphinx.popen, bind, Sphinx.emit, modify, get, attr.
    simpl. rewrite Hp. simpl. rewrite Hs. simpl. rewrite Hpoll. simpl.
    split; [reflexivity|]. split; [reflexivity|].
    unfold Sphinx.printed. rewrite !omap_app. simpl. rewrite !app_nil_r. reflexivity.
Qed.

(** X25.  Stopping the daemon: it is killed and waited for when it is still
    running, and also when it has already exited with status 0; a daemon
    that exited with another status is left alone.  Without a launched
    daemon the method raises [AttributeError]. *)
Theorem sphinx_stop_searchd (polled : option Z) (p : Sphinx.plugin) :
  (forall pr, Sphinx._searchd p = Some pr ->
     Sphinx._stop_searchd polled p
     = (Ok tt,
        match polled with
        | None | Some 0%Z =>
            Sphinx.add_event Sphinx.Wait
              (Sphinx.add_event (Sphinx.Kill (Sphinx.pid pr))
                 (Sphinx.add_event Sphinx.Poll p))
        | Some _ => Sphinx.add_event Sphinx.Poll p
        end)) /\
  (Sphinx._searchd p = None ->
   Sphinx._stop_searchd polled p = (Raise (AttributeError "_searchd"), p)).
Proof.
  split.
  - intros pr Hs. unfold Sphinx._stop_searchd, bind, get, attr, modify. rewrite Hs.
    simpl. destruct polled as [[|n|n]|]; reflexivity.
  - intros Hs. unfold Sphinx._stop_searchd, bind, get, attr. rewrite Hs. reflexivity.
Qed.

End SphinxMore.

Lemma sphinx_index_outcomes_witness :
  let p := snd (Sphinx.configure working_tools (Some "sphinx.conf.tpl") Sphinx.new) in
  Sphinx.printed (Sphinx.trace
    (snd (Sphinx._build_sphinx_index working_tools "/tmp/tmpQ3xk/sphinx.conf" p))) = [].
Proof.
  intros p.
  destruct (sphinx_index_outcomes working_tools "/tmp/tmpQ3xk/sphinx.conf" p) as (H & _).
  rewrite (H {| Sphinx.exit_status := 0; Sphinx.poll_now := None;
                Sphinx.out := "total 12 docs"; Sphinx.err := "";
                Sphinx.pid := 4201 |}).
  - vm_compute. reflexivity.
  - reflexivity.
  - reflexivity.
Defined.

Lemma sphinx_searchd_start_witness :
  Sphinx._start_searchd working_tools "/tmp/sphinx.conf" Sphinx.new
  = (Raise (AttributeError "searchd_port"), Sphinx.new).
Proof.
  destruct (sphinx_searchd_start working_tools "/tmp/sphinx.conf" Sphinx.new) as (H & _).
  apply H. reflexivity.
Defined.

Lemma sphinx_stop_searchd_witness :
  let pr := {| Sphinx.exit_status := 0; Sphinx.poll_now := None;
               Sphinx.out := ""; Sphinx.err := ""; Sphinx.pid := 4202 |} in
  let p := Sphinx.set__searchd (Some pr) Sphinx.new in
  Sphinx.trace (snd (Sphinx._stop_searchd (Some 0%Z) p))
  = [Sphinx.Poll; Sphinx.Kill 4202; Sphinx.Wait] /\
  Sphinx.trace (snd (Sphinx._stop_searchd (Some 1%Z) p)) = [Sphinx.Poll].
Proof.
  intros pr p.
  destruct (sphinx_stop_searchd (Some 0%Z) p) as (H0 & _).
  destruct (sphinx_stop_searchd (Some 1%Z) p) as (H1 & _).
  rewrite (H0 pr eq_refl), (H1 pr eq_refl). split; reflexivity.
Defined.

(** ** The search daemon around a test *)

Section SphinxTests.
Variable E : Sphinx.env.
Variable F : Sphinx.files.

Lemma set_plug_same (s : Sphinx.session) : Sphinx.set_plug (Sphinx.plug s) s = s.
Proof. destruct s. reflexivity. Qed.

Lemma on_plugin_read {A} (n : string) (f : Sphinx.plugin -> option A)
    (s : Sphinx.session) (v : A) :
  f (Sphinx.plug s) = Some v ->
  Sphinx.on_plugin (let* p := get in attr n (f p)) s = (Ok v, s).
Proof.
  intros H. unfold Sphinx.on_plugin, bind, get, attr. rewrite H. simpl.
  now rewrite set_plug_same.
Qed.

Lemma start_searchd_running (config : string) (p : Sphinx.plugin) (port : Z)
    (pr : Sphinx.process) :
  Sphinx.searchd_port p = Some port ->
  Sphinx.spawn E ["searchd"; "--config"; config; "--console"; "--port"; pretty port]
  = Some pr ->
  Sphinx.poll_now pr = None ->
  Sphinx._start_searchd E config p
  = (Ok tt,
     Sphinx.add_event Sphinx.Poll
       (Sphinx.set__searchd (Some pr)
          (Sphinx.add_event
             (Sphinx.Popen ["searchd"; "--config"; config; "--console"; "--port";
                            pretty port]) p))).
Proof.
  intros Hp Hs Hpoll.
  unfold Sphinx._start_searchd, Sphinx.popen, bind, Sphinx.emit, modify, get, attr.
  simpl. rewrite Hp. simpl. rewrite Hs. simpl. rewrite Hpoll. reflexivity.
Qed.

(** X26.  The plugin acts only for the MySQL engine: with any other engine,
    [startTest] and [afterTest] do nothing, whatever the test asks for. *)
Theorem sphinx_only_for_mysql (t : test) (s : Sphinx.session) (engine : pyval)
    (polled : option Z) :
  Sphinx.settings s !! "DATABASE_ENGINE" = Some engine ->
  engine <> PyStr "mysql" ->
  Sphinx.startTest E F t s = (Ok tt, s) /\
  Sphinx.afterTest (Sphinx.settings s) polled t (Sphinx.plug s)
  = (Ok tt, Sphinx.plug s).
Proof.
  intros He Hne.
  assert (Hm : Sphinx.py_eq_str engine "mysql" = false).
  { destruct engine; try reflexivity. simpl.
    destruct (String.eqb_spec s0 "mysql"); [subst; contradiction|reflexivity]. }
  split.
  - unfold Sphinx.startTest, bind, get, getattr. rewrite He. simpl. rewrite Hm.
    reflexivity.
  - unfold Sphinx.afterTest, bind, getattr. rewrite He. simpl. rewrite Hm.
    reflexivity.
Qed.

(** X27.  A test that asks for the index to be built but not for the daemon
    makes [startTest] fail: the path of the configuration file is only
    assigned when the daemon is asked for, so reading it raises
    [UnboundLocalError]; nothing is written or launched. *)
Theorem sphinx_index_without_searchd (t : test) (s : Sphinx.session) :
  Sphinx.settings s !! "DATABASE_ENGINE" = Some (PyStr "mysql") ->
  truthy (getattr_default (test_attrs t) "build_sphinx_index" (PyBool false)) = true ->
  truthy (getattr_default (test_attrs t) "run_sphinx_searchd" (PyBool false)) = false ->
  Sphinx.startTest E F t s
  = (Raise (OtherError "UnboundLocalError: sphinx_config_path"), s).
Proof.
  intros He Hb Hr.
  unfold Sphinx.startTest, bind, get, getattr. rewrite He. simpl.
  rewrite Hr, Hb. reflexivity.
Qed.

(** X28.  A test that asks for the daemon, on a configured plugin: the
    configuration is rendered from the template with the database
    settings and the temporary directory, written to [sphinx.conf] in that
    directory, the client port is set in the settings and in
    [djangosphinx.models], and the daemon is launched on that file and
    port and kept on the plugin. *)
Theorem sphinx_searchd_for_test (t : test) (s : Sphinx.session)
    (port : Z) (dir tpl_path tpl output : string) (name user password : pyval)
    (pr : Sphinx.process) :
  Sphinx.settings s !! "DATABASE_ENGINE" = Some (PyStr "mysql") ->
  truthy (getattr_default (test_attrs t) "build_sphinx_index" (PyBool false)) = false ->
  truthy (getattr_default (test_attrs t) "run_sphinx_searchd" (PyBool false)) = true ->
  Sphinx.searchd_port (Sphinx.plug s) = Some port ->
  Sphinx.tmp_sphinx_dir (Sphinx.plug s) = Some dir ->
  Sphinx.sphinx_config_tpl (Sphinx.plug s) = Some tpl_path ->
  Sphinx.read_file F tpl_path = Some tpl ->
  Sphinx.settings s !! "DATABASE_NAME" = Some name ->
  Sphinx.settings s !! "DATABASE_USER" = Some user ->
  Sphinx.settings s !! "DATABASE_PASSWORD" = Some password ->
  Sphinx.render F tpl
    [("database_name", name); ("database_username", user);
     ("database_password", password);
     ("sphinx_search_data_dir", PyStr dir); ("searchd_log_dir", PyStr dir)]
  = Ok output ->
  Sphinx.spawn E ["searchd"; "--config"; posix_join dir "sphinx.conf"; "--console";
                  "--port"; pretty port] = Some pr ->
  Sphinx.poll_now pr = None ->
  let s' := snd (Sphinx.startTest E F t s) in
  fst (Sphinx.startTest E F t s) = Ok tt /\
  Sphinx.written s' !! posix_join dir "sphinx.conf" = Some output /\
  Sphinx.settings s' !! "SPHINX_PORT" = Some (PyInt port) /\
  Sphinx.models_SPHINX_PORT s' = Some (PyInt port) /\
  Sphinx._searchd (Sphinx.plug s') = Some pr /\
  Sphinx.trace (Sphinx.plug s')
  = Sphinx.trace (Sphinx.plug s)
    ++ [Sphinx.Popen ["searchd"; "--config"; posix_join dir "sphinx.conf"; "--console";
                      "--port"; pretty port]; Sphinx.Poll].
Proof.
  intros He Hb Hr Hport Hdir Htpl Hread Hn Hu Hpw Hrender Hspawn Hpoll. cbv zeta.
  set (config := posix_join dir "sphinx.conf").
  set (s1 := Sphinx.set_written (<[config := output]> (Sphinx.written s))
               (Sphinx.set_models_SPHINX_PORT (Some (PyInt port))
                  (Sphinx.set_settings
                     (<["SPHINX_PORT" := PyInt port]> (Sphinx.settings s)) s))).
  assert (Hw : Sphinx.write_config F s = (Ok config, s1)).
  { unfold Sphinx.write_config.
    rewrite (bind_ok _ _ _ _ _ (on_plugin_read _ _ s port Hport)).
    unfold bind at 1. unfold modify at 1.
    set (sa := Sphinx.set_settings _ s).
    rewrite (bind_ok _ _ _ _ _ (on_plugin_read _ _ sa port Hport)).
    unfold bind at 1. unfold modify at 1.
    set (sb := Sphinx.set_models_SPHINX_PORT _ sa).
    rewrite (bind_ok _ _ _ _ _ (on_plugin_read _ _ sb dir Hdir)).
    rewrite (bind_ok _ _ _ _ _ (on_plugin_read _ _ sb tpl_path Htpl)).
    rewrite Hread. unfold bind at 1. unfold ret at 1.
    unfold bind at 1. unfold get at 1.
    assert (Hsb : forall k, k <> "SPHINX_PORT" ->
              Sphinx.settings sb !! k = Sphinx.settings s !! k).
    { intros k Hk. subst sb sa. destruct s. cbn [Sphinx.settings
        Sphinx.set_models_SPHINX_PORT Sphinx.set_settings].
      apply lookup_insert_ne. congruence. }
    unfold getattr.
    rewrite (Hsb "DATABASE_NAME") by discriminate. rewrite Hn.
    unfold bind at 1. unfold ret at 1.
    rewrite (Hsb "DATABASE_USER") by discriminate. rewrite Hu.
    unfold bind at 1. unfold ret at 1.
    rewrite (Hsb "DATABASE_PASSWORD") by discriminate. rewrite Hpw.
    unfold bind at 1. unfold ret at 1.
    rewrite (bind_ok _ _ _ _ _ (on_plugin_read _ _ sb dir Hdir)).
    rewrite (bind_ok _ _ _ _ _ (on_plugin_read _ _ sb dir Hdir)).
    rewrite Hrender. reflexivity. }
  assert (Hstart : Sphinx.startTest E F t s
                   = Sphinx.on_plugin (Sphinx._start_searchd E config) s1).
  { unfold Sphinx.startTest.
    unfold bind at 1. unfold get at 1. unfold bind at 1. unfold getattr at 1.
    rewrite He. unfold ret at 1. cbn [Sphinx.py_eq_str String.eqb Ascii.eqb Bool.eqb].
    rewrite Hr, Hb.
    assert (Hcfg : (let* path := Sphinx.write_config F in ret (Some path)) s
                   = (Ok (Some config), s1)).
    { unfold bind. rewrite Hw. reflexivity. }
    rewrite (bind_ok _ _ _ _ _ Hcfg). reflexivity. }
  rewrite Hstart.
  assert (Hp1 : Sphinx.searchd_port (Sphinx.plug s1) = Some port)
    by (subst s1; destruct s; exact Hport).
  unfold Sphinx.on_plugin.
  rewrite (start_searchd_running config (Sphinx.plug s1) port pr Hp1 Hspawn Hpoll).
  cbn [fst snd].
  split; [reflexivity|].
  subst s1. destruct s as [pl st mp wr]. destruct pl.
  cbn [Sphinx.written Sphinx.settings Sphinx.models_SPHINX_PORT Sphinx.plug
       Sphinx.set_plug Sphinx.set_written Sphinx.set_settings
       Sphinx.set_models_SPHINX_PORT Sphinx.add_event Sphinx.set__searchd
       Sphinx._searchd Sphinx.trace].
  split; [apply lookup_insert_eq|]. split; [apply lookup_insert_eq|].
  split; [reflexivity|]. split; [reflexivity|].
  rewrite <- app_assoc. reflexivity.
Qed.

End SphinxTests.

Lemma sphinx_only_for_mysql_witness :
  let s := {| Sphinx.plug := Sphinx.new;
              Sphinx.settings := <["DATABASE_ENGINE" := PyStr "sqlite3"]> ∅;
              Sphinx.models_SPHINX_PORT := None; Sphinx.written := ∅ |} in
  Sphinx.startTest working_tools sample_files (sphinx_test true true) s = (Ok tt, s).
Proof.
  intros s.
  destruct (sphinx_only_for_mysql working_tools sample_files (sphinx_test true true) s
              (PyStr "sqlite3") None) as (H & _).
  - vm_compute. reflexivity.
  - discriminate.
  - exact H.
Defined.

Lemma sphinx_index_without_searchd_witness :
  Sphinx.startTest working_tools sample_files (sphinx_test true false)
    (sample_session (Some "sphinx.conf.tpl"))
  = (Raise (OtherError "UnboundLocalError: sphinx_config_path"),
     sample_session (Some "sphinx.conf.tpl")).
Proof.
  apply sphinx_index_without_searchd.
  - vm_compute. reflexivity.
  - vm_compute. reflexivity.
  - vm_compute. reflexivity.
Defined.

Lemma sphinx_searchd_for_test_witness :
  let s' := snd (Sphinx.startTest working_tools sample_files (sphinx_test false true)
                   (sample_session (Some "sphinx.conf.tpl"))) in
  Sphinx.written s' !! "/tmp/tmpQ3xk/sphinx.conf"
  = Some "source docs { sql_db = projdb }" /\
  Sphinx.settings s' !! "SPHINX_PORT" = Some (PyInt 45798).
Proof.
  intros s'.
  destruct (sphinx_searchd_for_test working_tools sample_files (sphinx_test false true)
              (sample_session (Some "sphinx.conf.tpl"))
              45798 "/tmp/tmpQ3xk" "/home/joe/proj/sphinx.conf.tpl"
              "source docs { sql_db = " "source docs { sql_db = projdb }"
              (PyStr "projdb") (PyStr "joe") (PyStr "secret")
              {| Sphinx.exit_status := 0; Sphinx.poll_now := None;
                 Sphinx.out := ""; Sphinx.err := ""; Sphinx.pid := 4202 |})
    as (_ & H1 & H2 & _); try (vm_compute; reflexivity).
  split; [exact H1|exact H2].
Defined.

(** ** Further facts on the decision, finalize and the search plugin *)

(** X1.  The whole decision of [_supports_transactions]: the capability flag
    vetoes whenever it is present and false; otherwise the disabling
    setting decides when it is present, and the per-test preference only
    when that setting is absent. *)
Theorem supports_transactions_decision (t : test) (settings : obj) :
  truthy (_supports_transactions t settings)
  = match settings !! "DISABLE_TRANSACTION_MANAGEMENT" with
    | Some disabled => negb (truthy disabled)
    | None => preference_allows t
    end && database_allows settings.
Proof.
  destruct (settings !! "DISABLE_TRANSACTION_MANAGEMENT") as [v|] eqn:Hd.
  - exact (supports_transactions_with_disable t settings v Hd).
  - exact (supports_transactions_without_disable t settings Hd).
Qed.

(** X9.  [finalize] after a URL root was saved, when no call raises: the test
    database is destroyed, the environment torn down and the saved root
    written back; then the call of [clear_url_caches], a name that
    [finalize] does not have, raises [NameError]. *)
Theorem finalize_reverts_then_name_error (E : env) (w : world) (sp : option string)
    (old root : pyval) :
  settings_path (self w) = Some sp ->
  path_truthy sp = true ->
  old_db (self w) = Some old ->
  old_urlconf (self w) = Some root ->
  (forall ev, raises E ev = None) ->
  let w' := snd (finalize E w) in
  fst (finalize E w) = Raise (NameError "clear_url_caches") /\
  settings w' !! "ROOT_URLCONF" = Some root /\
  trace w' = trace w ++ [NoseDjango.Rmtree (TEST_MEDIA_ROOT E);
                         DestroyTestDb old (verbosity (self w));
                         TeardownTestEnvironment] /\
  clears (trace w') = clears (trace w).
Proof.
  intros Hs Hp Ho Hu Hq. cbv zeta.
  rewrite (finalize_with_saved_root E w sp old root Hs Hp Ho Hu Hq). cbn [fst snd].
  split; [reflexivity|].
  destruct w as [p s tx en spth tr].
  cbn [settings trace upd_settings upd_trace].
  split; [apply lookup_insert_eq|]. split; [reflexivity|].
  unfold clears. rewrite filter_app.
  change (filter (fun ev => is_clear_url_caches ev = true)
            [NoseDjango.Rmtree (TEST_MEDIA_ROOT E);
             DestroyTestDb old
               (verbosity (self {| self := p; settings := s; transaction := tx;
                                   environ := en; sys_path := spth; trace := tr |}));
             TeardownTestEnvironment])
    with (@nil NoseDjango.event).
  apply app_nil_r.
Qed.

Lemma finalize_reverts_then_name_error_witness :
  let E := quiet_env "/home/joe/proj" in
  let w := upd_self (set_old_urlconf (Some (PyStr "proj.urls"))) begun_world in
  fst (finalize E w) = Raise (NameError "clear_url_caches") /\
  settings (snd (finalize E w)) !! "ROOT_URLCONF" = Some (PyStr "proj.urls").
Proof.
  intros E w.
  destruct (finalize_reverts_then_name_error E w (Some "settings")
              (PyStr "projdb") (PyStr "proj.urls")) as (H1 & H2 & _).
  - reflexivity.
  - reflexivity.
  - reflexivity.
  - reflexivity.
  - intros ev. reflexivity.
  - split; [exact H1|exact H2].
Defined.

(** X29.  [configure] with a template makes one temporary directory and records
    it with the template's absolute path and the fixed port 45798;
    [finalize] then removes exactly that directory, ignoring errors, and
    returns. *)
Theorem sphinx_configure_then_finalize (E : Sphinx.env) (tpl : string) :
  tpl <> "" ->
  let p := snd (Sphinx.configure E (Some tpl) Sphinx.new) in
  Sphinx.sphinx_config_tpl p = Some (Sphinx.abspath E tpl) /\
  Sphinx.tmp_sphinx_dir p = Some (Sphinx.mkdtemp E) /\
  Sphinx.searchd_port p = Some 45798%Z /\
  Sphinx.trace p = [Sphinx.Mkdtemp] /\
  fst (Sphinx.finalize p) = Ok tt /\
  Sphinx.trace (snd (Sphinx.finalize p))
  = [Sphinx.Mkdtemp; Sphinx.Rmtree (Sphinx.mkdtemp E) true].
Proof.
  intros Hne. cbv zeta. unfold Sphinx.configure.
  destruct (String.eqb_spec tpl ""); [contradiction|]. repeat split.
Qed.

Lemma sphinx_configure_then_finalize_witness :
  Sphinx.trace (snd (Sphinx.finalize
    (snd (Sphinx.configure working_tools (Some "sphinx.conf.tpl") Sphinx.new))))
  = [Sphinx.Mkdtemp; Sphinx.Rmtree "/tmp/tmpQ3xk" true].
Proof.
  destruct (sphinx_configure_then_finalize working_tools "sphinx.conf.tpl")
    as (_ & _ & _ & _ & _ & H).
  - discriminate.
  - exact H.
Defined.
